(** * FluxRipper development loop: console protocol, build orchestration,
      change detection and the layer-gated test runner

    A shallow embedding of [tools/devloop/fluxripper_dev.py] and
    [tools/devloop/rtl_tools.py], followed by the properties of the
    design document that are stated about them. *)

From Stdlib Require Import ZArith QArith Ascii.
From stdpp Require Import gmap strings list fin_maps.

Local Open Scope Z_scope.

(** ** Python built-ins used by the sources

    Text is a [string] of 8-bit code points.  Only the behaviour of the
    built-ins on such text is modelled. *)
Module Py.

Definition LF : string := String "010"%char EmptyString.
Definition CRLF : string := String "013"%char LF.

(** [s.startswith(p)] *)
Definition startswith (p s : string) : bool := String.prefix p s.

(** [needle in hay] *)
Fixpoint contains (needle hay : string) : bool :=
  String.prefix needle hay ||
  match hay with
  | EmptyString => false
  | String _ rest => contains needle rest
  end.

(** [sep.join(parts)] *)
Definition join (sep : string) (parts : list string) : string :=
  String.concat sep parts.

(** [s.split(c)] for a one-character separator: never empty. *)
Fixpoint split (c : ascii) (s : string) : list string :=
  match s with
  | EmptyString => [EmptyString]
  | String a rest =>
      if Ascii.eqb a c then EmptyString :: split c rest
      else match split c rest with
           | hd :: tl => String a hd :: tl
           | [] => [String a EmptyString]
           end
  end.

(** [parts[i]], which raises [IndexError] (here [None]) out of range. *)
Definition item {A} (l : list A) (i : nat) : option A := l !! i.

(** [str.isspace] on code points below 256. *)
Definition isspace (a : ascii) : bool :=
  let n := nat_of_ascii a in
  ((9 <=? n) && (n <=? 13) || (28 <=? n) && (n <=? 32)
   || (n =? 133) || (n =? 160))%nat.

(** The white space that [int] skips around a literal: the same code
    points but for 28 to 31. *)
Definition int_space (a : ascii) : bool :=
  let n := nat_of_ascii a in
  ((9 <=? n) && (n <=? 13) || (n =? 32) || (n =? 133) || (n =? 160))%nat.

Fixpoint lstrip_by (space : ascii -> bool) (s : string) : string :=
  match s with
  | String a rest => if space a then lstrip_by space rest else s
  | EmptyString => EmptyString
  end.

Fixpoint rstrip_by (space : ascii -> bool) (s : string) : string :=
  match s with
  | String a rest =>
      match rstrip_by space rest with
      | EmptyString => if space a then EmptyString else String a EmptyString
      | kept => String a kept
      end
  | EmptyString => EmptyString
  end.

(** [s.strip()] *)
Definition strip (s : string) : string :=
  rstrip_by isspace (lstrip_by isspace s).

(** Value of a base-16 digit. *)
Definition hex_value (a : ascii) : option Z :=
  let n := Z.of_nat (nat_of_ascii a) in
  if (48 <=? n) && (n <=? 57) then Some (n - 48)
  else if (97 <=? n) && (n <=? 102) then Some (n - 87)
  else if (65 <=? n) && (n <=? 70) then Some (n - 55)
  else None.

(** Digits of an integer literal: at least one digit, single underscores
    only between digits.  [acc] is the value read so far; [prev_us] tells
    whether the previous character was an underscore. *)
Fixpoint hex_digits (acc : Z) (prev_us : bool) (s : string) : option Z :=
  match s with
  | EmptyString => if prev_us then None else Some acc
  | String a rest =>
      if Ascii.eqb a "_"%char then
        if prev_us then None else hex_digits acc true rest
      else match hex_value a with
           | Some d => hex_digits (16 * acc + d) false rest
           | None => None
           end
  end.

Definition hex_body (s : string) : option Z :=
  match s with
  | EmptyString => None
  | String a _ => if Ascii.eqb a "_"%char then None else hex_digits 0 false s
  end.

(** After the sign: an optional [0x]/[0X] prefix, which may be followed by
    one underscore. *)
Definition hex_unsigned (s : string) : option Z :=
  match s with
  | String "0"%char (String x rest) =>
      if Ascii.eqb x "x"%char || Ascii.eqb x "X"%char then
        match rest with
        | String "_"%char rest' => hex_body rest'
        | _ => hex_body rest
        end
      else hex_body s
  | _ => hex_body s
  end.

(** [int(s, 16)]; [None] stands for [ValueError]. *)
Definition int16 (s : string) : option Z :=
  match rstrip_by int_space (lstrip_by int_space s) with
  | String "-"%char rest => Z.opp <$> hex_unsigned rest
  | String "+"%char rest => hex_unsigned rest
  | body => hex_unsigned body
  end.

Definition hex_char (d : Z) : ascii :=
  ascii_of_nat (Z.to_nat (if d <? 10 then 48 + d else 87 + d)).

(** Lower-case base-16 digits of a non-negative integer, most significant
    first; the empty text for zero.  [fuel] bounds the number of digits. *)
Fixpoint hex_of (fuel : nat) (n : Z) (acc : string) : string :=
  match fuel with
  | O => acc
  | S fuel' =>
      if n <=? 0 then acc
      else hex_of fuel' (n / 16) (String (hex_char (n mod 16)) acc)
  end.

Definition hex (n : Z) : string :=
  if n =? 0 then "0" else hex_of (S (Z.to_nat (Z.log2 n))) n EmptyString.

Fixpoint zeros (k : nat) : string :=
  match k with
  | O => EmptyString
  | S k' => String "0"%char (zeros k')
  end.

(** [format(n, "08x")]: sign-aware zero padding to width 8. *)
Definition format_08x (n : Z) : string :=
  let digits := hex (Z.abs n) in
  if n <? 0
  then "-" +:+ zeros (7 - String.length digits) +:+ digits
  else zeros (8 - String.length digits) +:+ digits.

(** [data[i:j]] for [0 <= i <= j]. *)
Definition slice {A} (l : list A) (i j : nat) : list A :=
  take (j - i) (drop i l).

(** [range(0, n, step)] *)
Definition range_step (n step : nat) : list nat :=
  (λ k, k * step)%nat <$> seq 0 (Nat.div (n + (step - 1)) step).

(** [int.from_bytes(chunk, "little")] *)
Fixpoint from_bytes_little (chunk : list Byte.byte) : Z :=
  match chunk with
  | [] => 0
  | b :: rest => Z.of_N (Byte.to_N b) + 256 * from_bytes_little rest
  end.

End Py.


(** ** Results of calls and the state they run in *)

(** A call either returns a value or raises an exception ([e] is the
    exception's text). *)
Inductive Res (A : Type) : Type :=
| Ret (a : A)
| Raise (e : string).
Arguments Ret {A} a.
Arguments Raise {A} e.

(** What the console does, in the order it does it.  [SerialWrite] and
    [SerialFlush] are the transport I/O of [send]; [WordWrite] marks a
    finished call of [write_memory] with its arguments and its outcome. *)
Inductive event : Type :=
| SerialWrite (data : string)
| SerialFlush
| WordWrite (addr data : Z) (outcome : Res bool).

(** The open transport handle: [tx_ok] tells whether [serial.write]
    succeeds or raises. *)
Record SerialPort : Type := { tx_ok : bool }.

(** The console together with the target it talks to.

    - [serial] is [self.serial] ([None] when the transport is not open).
    - [clock] is [time.time()] in milliseconds.
    - [response_queue] is [self.response_queue] together with its
      producer, the reader thread: the lines the reader puts on the queue,
      in queue order, each with the time at which it is put.  A line is on
      the queue once the clock has reached its time.
    - [log] is the history of events, oldest first.

    Time passes only while [queue.get] blocks and in [time.sleep]: the
    other statements take no time. *)
Record World : Type := {
  serial : option SerialPort;
  clock : Z;
  response_queue : list (Z * string);
  log : list event
}.

Definition set_clock (t : Z) (w : World) : World :=
  {| serial := serial w; clock := t; response_queue := response_queue w;
     log := log w |}.
Definition set_response_queue (q : list (Z * string)) (w : World) : World :=
  {| serial := serial w; clock := clock w; response_queue := q; log := log w |}.
Definition emit (evs : list event) (w : World) : World :=
  {| serial := serial w; clock := clock w; response_queue := response_queue w;
     log := log w ++ evs |}.

(** A computation on the world that may raise. *)
Definition M (A : Type) : Type := World -> Res A * World.

Definition ret {A} (a : A) : M A := fun w => (Ret a, w).
Definition raise {A} (e : string) : M A := fun w => (Raise e, w).
Definition bind {A B} (m : M A) (k : A -> M B) : M B :=
  fun w => match m w with
           | (Ret a, w') => k a w'
           | (Raise e, w') => (Raise e, w')
           end.

Notation "'let*' x ':=' m 'in' k" := (bind m (fun x => k))
  (at level 10, x name, m at level 100, k at level 200).

(** ** CDCConsole *)
Module CDCConsole.

(** [self.response_queue.get(timeout=...)]: the head line if it is put on
    the queue before the timeout expires, [None] ([queue.Empty])
    otherwise. *)
Definition queue_get (timeout : Z) (w : World) : option string * World :=
  match response_queue w with
  | (arrival, line) :: rest =>
      if arrival <=? clock w + timeout
      then (Some line,
            set_response_queue rest (set_clock (Z.max (clock w) arrival) w))
      else (None, set_clock (clock w + timeout) w)
  | [] => (None, set_clock (clock w + timeout) w)
  end.

(** [while not self.response_queue.empty(): get_nowait()] *)
Fixpoint drain (now : Z) (q : list (Z * string)) : list (Z * string) :=
  match q with
  | (arrival, line) :: rest =>
      if arrival <=? now then drain now rest else q
  | [] => []
  end.

Definition is_prompt (line : string) : bool := Py.startswith ">" line.

(** The collection loop of [send]; a pass either takes a line off the
    queue or lets the 100 ms of the poll go by, and [fuel] bounds the
    number of passes. *)
Fixpoint collect (fuel : nat) (deadline : Z) (responses : list string)
    (w : World) : list string * World :=
  match fuel with
  | O => (responses, w)
  | S fuel' =>
      if clock w <? deadline then
        match queue_get 100 w with
        | (Some line, w') =>
            if is_prompt line then (responses, w')
            else collect fuel' deadline (responses ++ [line]) w'
        | (None, w') => collect fuel' deadline responses w'
        end
      else (responses, w)
  end.

(** Passes the loop can make before the deadline, at most. *)
Definition passes (deadline : Z) (w : World) : nat :=
  (length (response_queue w) + Z.to_nat (deadline - clock w))%nat.

Definition send (command : string) : M (list string) := fun w =>
  match serial w with
  | None => (Ret [], w)
  | Some port =>
      let w := set_response_queue (drain (clock w) (response_queue w)) w in
      if tx_ok port then
        let w := emit [SerialWrite (command +:+ Py.CRLF); SerialFlush] w in
        let deadline := clock w + 2000 in
        let '(responses, w) := collect (S (passes deadline w)) deadline [] w in
        (Ret responses, w)
      else (Raise "SerialException", w)
  end.

Definition command (cmd : string) : M string :=
  let* lines := send cmd in
  ret (Py.join Py.LF lines).

(** The body of [read_memory] after the exchange. *)
Definition parse_read (response : string) : option Z :=
  if Py.startswith "OK:" response then
    match Py.item (Py.split ":" response) 1 with
    | Some field => Py.int16 (Py.strip field)
    | None => None
    end
  else None.

Definition read_memory (addr : Z) : M (option Z) :=
  let* response := command ("dbg r " +:+ Py.format_08x addr) in
  ret (parse_read response).

Definition write_memory (addr data : Z) : M bool := fun w =>
  let '(r, w) :=
    (let* response := command ("dbg w " +:+ Py.format_08x addr +:+ " "
                          +:+ Py.format_08x data) in
     ret (Py.contains "OK" response)) w in
  (r, emit [WordWrite addr data r] w).

(** [while len(chunk) < 4: chunk += b'\x00'] *)
Definition pad4 (chunk : list Byte.byte) : list Byte.byte :=
  chunk ++ replicate (4 - length chunk) Byte.x00.

Definition words_of (data : list Byte.byte) : list Z :=
  (λ i, Py.from_bytes_little (pad4 (Py.slice data i (i + 4))))
    <$> Py.range_step (length data) 4.

(** [for i, word in enumerate(words)], from index [i] on. *)
Fixpoint write_words (addr : Z) (i : nat) (words : list Z) : M bool :=
  match words with
  | [] => ret true
  | word :: rest =>
      let* ok := write_memory (addr + Z.of_nat i * 4) word in
      if ok then write_words addr (S i) rest else ret false
  end.

Definition write_block (addr : Z) (data : list Byte.byte) : M bool :=
  write_words addr 0 (words_of data).

Definition STATUS_WORD : Z := 0x44A80074.

Definition get_layer : M Z :=
  let* value := read_memory STATUS_WORD in
  ret (match value with
       | Some v => Z.land v 15
       | None => -1
       end).

End CDCConsole.

(** ** Test framework *)

Inductive TestResult : Type := PASS | FAIL | SKIP | ERROR.

Global Instance TestResult_eq_dec : EqDecision TestResult.
Proof. solve_decision. Defined.

(** A test body receives the runner and reaches the target through
    [runner.console]; it is a computation on the world that returns a
    [TestResult] or raises. *)
Record TestCase : Type := {
  name : string;
  description : string;
  layer_required : Z;
  test_fn : M TestResult;
  timeout : Q
}.

Module TestRunner.

(** [self.console] is the world the calls run in. *)
Record t : Type := {
  tests : list TestCase;
  results : gmap string TestResult
}.

(** [TestRunner(console, config)] *)
Definition init : t := {| tests := []; results := ∅ |}.

Definition register (test : TestCase) (self : t) : t :=
  {| tests := tests self ++ [test]; results := results self |}.

(** What one pass of the loop of [run_all] did with the test at index
    [i] of [self.tests]. *)
Inductive pass : Type :=
| Gated (i : nat)                               (* layer too low: SKIP *)
| Filtered (i : nat)                            (* below [min_layer] *)
| Called (i : nat) (outcome : Res TestResult).  (* [test.test_fn(self)] *)

(** The variables of [run_all] while the loop runs ([t_results] is
    [self.results]), with the passes made so far.  The printed report is
    not modelled. *)
Record Tally : Type := {
  t_results : gmap string TestResult;
  passed : nat;
  failed : nat;
  skipped : nat;
  trace : list pass
}.

Definition run_test (current_layer min_layer : Z) (i : nat)
    (test : TestCase) (st : Tally * World) : Tally * World :=
  let '(a, w) := st in
  if current_layer <? layer_required test then
    ({| t_results := <[name test := SKIP]> (t_results a);
        passed := passed a; failed := failed a;
        skipped := S (skipped a);
        trace := trace a ++ [Gated i] |}, w)
  else if layer_required test <? min_layer then
    ({| t_results := t_results a;
        passed := passed a; failed := failed a; skipped := skipped a;
        trace := trace a ++ [Filtered i] |}, w)
  else
    match test_fn test w with
    | (Ret result, w') =>
        ({| t_results := <[name test := result]> (t_results a);
            passed := if decide (result = PASS) then S (passed a)
                      else passed a;
            failed := if decide (result = PASS) then failed a
                      else S (failed a);
            skipped := skipped a;
            trace := trace a ++ [Called i (Ret result)] |}, w')
    | (Raise e, w') =>
        ({| t_results := <[name test := ERROR]> (t_results a);
            passed := passed a; failed := S (failed a);
            skipped := skipped a;
            trace := trace a ++ [Called i (Raise e)] |}, w')
    end.

(** [for test in self.tests], from index [i] on. *)
Fixpoint run_loop (current_layer min_layer : Z) (i : nat)
    (todo : list TestCase) (st : Tally * World) : Tally * World :=
  match todo with
  | [] => st
  | test :: rest =>
      run_loop current_layer min_layer (S i) rest
               (run_test current_layer min_layer i test st)
  end.

Definition start (self : t) : Tally :=
  {| t_results := results self; passed := 0; failed := 0; skipped := 0;
     trace := [] |}.

(** [run_all] with the loop's variables in place of the returned
    dictionary. *)
Definition run_all_tally (self : t) (min_layer : Z) : M Tally :=
  let* current_layer := CDCConsole.get_layer in
  fun w => let '(a, w') := run_loop current_layer min_layer 0 (tests self)
                                    (start self, w) in
           (Ret a, w').

(** [run_all]: the returned dictionary is [self.results] itself. *)
Definition run_all (self : t) (min_layer : Z) (w : World)
    : Res (gmap string TestResult) * t * World :=
  match run_all_tally self min_layer w with
  | (Ret a, w') =>
      (Ret (t_results a),
       {| tests := tests self; results := t_results a |}, w')
  | (Raise e, w') => (Raise e, self, w')
  end.

End TestRunner.

(** ** Built-in tests *)
Module BuiltinTests.
Import CDCConsole.

(** [console.probe(group)] for a one-digit group. *)
Definition probe (group : nat) : M (option Z) :=
  let* response :=
    command ("dbg probe " +:+ String (ascii_of_nat (48 + group)) EmptyString) in
  ret (if Py.startswith "P:" response
       then Py.int16 (Py.strip (String.substring 2 (String.length response)
                                                   response))
       else None).

(** [console.trace_stop()] *)
Definition trace_stop : M (list string) :=
  let* _ := command "dbg trace stop" in
  send "dbg trace dump".

(** [time.sleep(seconds)], in milliseconds. *)
Definition sleep (ms : Z) : M unit :=
  fun w => (Ret tt, set_clock (clock w + ms) w).

Definition test_memory_basic : M TestResult :=
  let test_value := 0xCAFEBABE in
  let* ok := write_memory 0x44A8006C test_value in
  if negb ok then ret FAIL
  else
    let* read_value := read_memory 0x44A8006C in
    if bool_decide (read_value ≠ Some test_value) then ret FAIL
    else ret PASS.

(** [for bit in range(32)], from [bit] on. *)
Fixpoint walking_ones (addr : Z) (todo : nat) (bit : Z) : M TestResult :=
  match todo with
  | O => ret PASS
  | S todo' =>
      let pattern := Z.shiftl 1 bit in
      let* ok := write_memory addr pattern in
      if negb ok then ret FAIL
      else
        let* v := read_memory addr in
        if bool_decide (v ≠ Some pattern) then ret FAIL
        else walking_ones addr todo' (bit + 1)
  end.

Definition test_memory_walking_ones : M TestResult :=
  walking_ones 0x40000100 32 0.

Definition test_pll_locked : M TestResult :=
  let* status := read_memory 0x40020000 in
  match status with
  | None => ret ERROR
  | Some status =>
      if bool_decide (Z.land status 0x1F ≠ 0x1F) then ret FAIL
      else ret PASS
  end.

Definition test_usb_enumerated : M TestResult :=
  let* state := read_memory 0x44000020 in
  match state with
  | None => ret ERROR
  | Some state =>
      if bool_decide (Z.land state 0x07 ≠ 0x05) then ret FAIL
      else if Z.land state 0x08 =? 0 then ret FAIL
      else ret PASS
  end.

Definition test_fdc_ready : M TestResult :=
  let* status := read_memory 0x44100000 in
  match status with
  | None => ret ERROR
  | Some _ => ret PASS
  end.

(** [for group in range(4)], from [group] on. *)
Fixpoint signal_tap (todo group : nat) : M TestResult :=
  match todo with
  | O => ret PASS
  | S todo' =>
      let* value := probe group in
      match value with
      | None => ret FAIL
      | Some _ => signal_tap todo' (S group)
      end
  end.

Definition test_signal_tap : M TestResult := signal_tap 4 0.

Definition test_trace_buffer : M TestResult :=
  let* _ := command "dbg trace clear" in
  let* _ := command "dbg trace start" in
  let* _ := sleep 100 in
  let* entries := trace_stop in
  if (length entries <? 1)%nat then ret FAIL else ret PASS.

Definition create_standard_tests : list TestCase :=
  [ {| name := "memory_basic"; description := "Basic memory read/write";
       layer_required := 2; test_fn := test_memory_basic; timeout := 1 |};
    {| name := "memory_walking"; description := "Walking ones pattern";
       layer_required := 2; test_fn := test_memory_walking_ones;
       timeout := 2 |};
    {| name := "pll_locked"; description := "All PLLs locked";
       layer_required := 4; test_fn := test_pll_locked; timeout := 1 |};
    {| name := "usb_enum"; description := "USB enumerated";
       layer_required := 6; test_fn := test_usb_enumerated; timeout := 1 |};
    {| name := "fdc_ready"; description := "FDC accessible";
       layer_required := 7; test_fn := test_fdc_ready; timeout := 1 |};
    {| name := "signal_tap"; description := "Signal tap works";
       layer_required := 7; test_fn := test_signal_tap; timeout := 2 |};
    {| name := "trace_buffer"; description := "Trace buffer works";
       layer_required := 7; test_fn := test_trace_buffer; timeout := 2 |} ].

(** [DevLoop.connect]: a fresh runner with the standard tests. *)
Definition standard_runner : TestRunner.t :=
  foldl (λ r test, TestRunner.register test r) TestRunner.init
        create_standard_tests.

End BuiltinTests.

(** ** RTLBuilder: the background build *)
Module RTLBuilder.

(** Where a worker thread stands in [_build_worker]. *)
Inductive pc : Type :=
| AtStart        (* started, nothing executed yet *)
| InToolchain    (* status set, [subprocess.run] in flight *)
| AfterHash      (* return code 0, [last_hash] assigned *)
| AfterStatus    (* [build_status = "success"] assigned *)
| Finished.      (* [run()] has returned: the thread is dead *)

Global Instance pc_eq_dec : EqDecision pc.
Proof. solve_decision. Defined.

(** How [subprocess.run] ends, and, for return code 0, what
    [get_source_hash] then gives. *)
Inductive toolchain : Type :=
| Exited (returncode : Z) (source_hash : Res string)
| TimeoutExpired
| Failed (e : string).

(** The orchestrator with the worker threads it has started.  [stdout]
    holds the printed lines; those whose text depends on the elapsed time
    or on the output of the tool are shortened. *)
Record t : Type := {
  threads : list pc;          (* every worker started so far *)
  build_thread : option nat;  (* [self.build_thread], an index in [threads] *)
  build_status : string;
  last_hash : option string;
  bitstream_ready : bool;     (* the [threading.Event] *)
  stdout : list string
}.

(** [RTLBuilder(config)] *)
Definition init : t :=
  {| threads := []; build_thread := None; build_status := "idle";
     last_hash := None; bitstream_ready := false; stdout := [] |}.

Definition is_alive (tid : nat) (self : t) : bool :=
  match threads self !! tid with
  | Some p => bool_decide (p ≠ Finished)
  | None => false
  end.

(** [self.build_thread and self.build_thread.is_alive()] *)
Definition is_building (self : t) : bool :=
  match build_thread self with
  | Some tid => is_alive tid self
  | None => false
  end.

Definition print (line : string) (self : t) : t :=
  {| threads := threads self; build_thread := build_thread self;
     build_status := build_status self; last_hash := last_hash self;
     bitstream_ready := bitstream_ready self;
     stdout := stdout self ++ [line] |}.

Definition start_build (self : t) : t :=
  if is_building self then print "RTL build already in progress" self
  else
    {| threads := threads self ++ [AtStart];
       build_thread := Some (length (threads self));
       build_status := build_status self;
       last_hash := last_hash self;
       bitstream_ready := false;
       stdout := stdout self |}.

Definition set_status (tid : nat) (p : pc) (status : string) (self : t) : t :=
  {| threads := <[tid := p]> (threads self);
     build_thread := build_thread self;
     build_status := status;
     last_hash := last_hash self;
     bitstream_ready := bitstream_ready self;
     stdout := stdout self |}.

(** One step of worker [tid]; [env] is consulted when the toolchain
    returns. *)
Definition worker_step (tid : nat) (env : toolchain) (self : t) : t :=
  match threads self !! tid with
  | Some AtStart =>
      print "Starting RTL build (background)..."
            (set_status tid InToolchain "running" self)
  | Some InToolchain =>
      match env with
      | Exited returncode source_hash =>
          if returncode =? 0 then
            match source_hash with
            | Ret h =>
                {| threads := <[tid := AfterHash]> (threads self);
                   build_thread := build_thread self;
                   build_status := build_status self;
                   last_hash := Some h;
                   bitstream_ready := bitstream_ready self;
                   stdout := stdout self |}
            | Raise e =>
                print ("RTL build error: " +:+ e)
                      (set_status tid Finished ("error: " +:+ e) self)
            end
          else print "RTL build failed"
                     (set_status tid Finished "failed" self)
      | TimeoutExpired =>
          print "RTL build timed out"
                (set_status tid Finished "timeout" self)
      | Failed e =>
          print ("RTL build error: " +:+ e)
                (set_status tid Finished ("error: " +:+ e) self)
      end
  | Some AfterHash => set_status tid AfterStatus "success" self
  | Some AfterStatus =>
      print "RTL build complete"
            {| threads := <[tid := Finished]> (threads self);
               build_thread := build_thread self;
               build_status := build_status self;
               last_hash := last_hash self;
               bitstream_ready := true;
               stdout := stdout self |}
  | Some Finished | None => self
  end.

(** [self.rtl_builder.bitstream_ready.clear()], as [watch_and_reload]
    does once it has seen the event set. *)
Definition clear_ready (self : t) : t :=
  {| threads := threads self; build_thread := build_thread self;
     build_status := build_status self; last_hash := last_hash self;
     bitstream_ready := false;
     stdout := stdout self |}.

(** What can happen to an orchestrator: the caller starts a build, one of
    the workers makes a step, or the caller clears the event. *)
Inductive action : Type :=
| StartBuild
| Worker (tid : nat) (env : toolchain)
| ClearReady.

Definition step (self : t) (a : action) : t :=
  match a with
  | StartBuild => start_build self
  | Worker tid env => worker_step tid env self
  | ClearReady => clear_ready self
  end.

Definition run (acts : list action) (self : t) : t :=
  foldl step self acts.


End RTLBuilder.

(** ** rtl_tools: module tracking and the incremental build *)
Module RtlTools.

(** A file found by [rglob], with [Path.stem] and the bytes read from
    it. *)
Record SourceFile : Type := {
  file_path : string;
  file_stem : string;
  file_bytes : string
}.

Record RTLModule : Type := {
  name : string;
  path : string;
  dependencies : list string;
  hash : string
}.

(** A [dict] in insertion order: assigning to a present key replaces the
    value where it stands, a new key goes to the end. *)
Fixpoint dict_set {V} (k : string) (v : V) (d : list (string * V))
    : list (string * V) :=
  match d with
  | [] => [(k, v)]
  | (k', v') :: rest =>
      if decide (k' = k) then (k, v) :: rest
      else (k', v') :: dict_set k v rest
  end.

(** The state of the checkout: the sources under [rtl_dir] in the order
    [rglob] yields them, the change-detection cache (the JSON object of
    [.rtl_cache.json], [None] when the file does not exist) and the paths
    written so far, oldest first. *)
Record Disk : Type := {
  v_files : list SourceFile;
  sv_files : list SourceFile;
  cache_file : option (gmap string string);
  written : list string
}.

(** The external tools: the verdict of [quick_check] on a module and the
    return code of the Vivado run. *)
Record Tools : Type := {
  quick_check : string -> Res bool;
  vivado : Res Z
}.

Section Hashing.

(** [hashlib.sha256(...).hexdigest()], and [find_dependencies], whose
    list comes out of a [set] in no specified order and bears on no
    build decision. *)
Variable sha256_hexdigest : string -> string.
Variable find_dependencies : SourceFile -> list string.

Definition get_module_hash (f : SourceFile) : string :=
  String.substring 0 16 (sha256_hexdigest (file_bytes f)).

Definition module_of (f : SourceFile) : RTLModule :=
  {| name := file_stem f;
     path := file_path f;
     dependencies := find_dependencies f;
     hash := get_module_hash f |}.

Definition scan_files (files : list SourceFile)
    (modules : list (string * RTLModule)) : list (string * RTLModule) :=
  foldl (λ d f, dict_set (file_stem f) (module_of f) d) modules files.

Definition scan_rtl_modules (d : Disk) : list (string * RTLModule) :=
  scan_files (sv_files d) (scan_files (v_files d) []).

Definition is_changed (prev_hashes : gmap string string)
    (entry : string * RTLModule) : bool :=
  match prev_hashes !! entry.1 with
  | None => true
  | Some h => bool_decide (h ≠ hash entry.2)
  end.

Definition load_cache (cache : option (gmap string string))
    : gmap string string :=
  match cache with
  | Some prev => prev
  | None => ∅
  end.

Definition get_changed_modules (modules : list (string * RTLModule))
    (cache : option (gmap string string)) : list string :=
  fst <$> List.filter (is_changed (load_cache cache)) modules.

Definition CACHE_FILE : string := ".rtl_cache.json".
Definition TCL_FILE : string := "incremental_build.tcl".

Definition save_module_cache (modules : list (string * RTLModule))
    (d : Disk) : Disk :=
  {| v_files := v_files d; sv_files := sv_files d;
     cache_file :=
       Some (foldl (λ m e, <[e.1 := hash e.2]> m) ∅ modules);
     written := written d ++ [CACHE_FILE] |}.

(** [VivadoBuilder.build]: writes the TCL script, runs Vivado; the list of
    changed modules only goes into the text of the script. *)
Definition build (tools : Tools) (d : Disk) : Res bool * Disk :=
  let d := {| v_files := v_files d; sv_files := sv_files d;
              cache_file := cache_file d;
              written := written d ++ [TCL_FILE] |} in
  match vivado tools with
  | Ret returncode => (Ret (returncode =? 0), d)
  | Raise e => (Raise e, d)
  end.

(** [for module in changed: if not self.quick_check(module): ...];
    [Ret true] when every simulation passed. *)
Fixpoint simulate_changed (tools : Tools) (changed : list string)
    : Res bool :=
  match changed with
  | [] => Ret true
  | module :: rest =>
      match quick_check tools module with
      | Ret true => simulate_changed tools rest
      | Ret false => Ret false
      | Raise e => Raise e
      end
  end.

Definition smart_build (tools : Tools) (d : Disk) : Res bool * Disk :=
  let modules := scan_rtl_modules d in
  let changed := get_changed_modules modules (cache_file d) in
  if (length changed =? 0)%nat then (Ret true, d)
  else
    match simulate_changed tools changed with
    | Raise e => (Raise e, d)
    | Ret false => (Ret false, d)
    | Ret true =>
        match build tools d with
        | (Ret true, d') => (Ret true, save_module_cache modules d')
        | (r, d') => (r, d')
        end
    end.

End Hashing.

End RtlTools.

(** * Further operations of the sources *)

(** ** More built-ins *)
Module PyText.

(** [s.split(c, 1)] when [c in s]: the text before the first [c] and the
    text after it; [None] when [c] is not in [s]. *)
Fixpoint cut (c : ascii) (s : string) : option (string * string) :=
  match s with
  | EmptyString => None
  | String a rest =>
      if Ascii.eqb a c then Some (EmptyString, rest)
      else match cut c rest with
           | Some (before, after) => Some (String a before, after)
           | None => None
           end
  end.

(** [str.lower] on code points below 256. *)
Definition lower_char (a : ascii) : ascii :=
  let n := nat_of_ascii a in
  if ((65 <=? n) && (n <=? 90)
      || (192 <=? n) && (n <=? 222) && negb (n =? 215))%nat
  then ascii_of_nat (n + 32) else a.

Fixpoint lower (s : string) : string :=
  match s with
  | EmptyString => EmptyString
  | String a rest => String (lower_char a) (lower rest)
  end.

(** The text of several pieces, one after the other. *)
Fixpoint concat (pieces : list string) : string :=
  match pieces with
  | [] => EmptyString
  | piece :: rest => piece +:+ concat rest
  end.

End PyText.

(** ** The reader thread of the console *)
Module Reader.

(** The local [buffer] of [_reader_loop] and the lines it has put on
    [self.response_queue], oldest first. *)
Record t : Type := {
  buffer : string;
  queue : list string
}.

Definition init : t := {| buffer := EmptyString; queue := [] |}.

(** [while '\n' in buffer: line, buffer = buffer.split('\n', 1); ...];
    every pass shortens the buffer, and [fuel] bounds the passes. *)
Fixpoint put_lines (fuel : nat) (st : t) : t :=
  match fuel with
  | O => st
  | S fuel' =>
      match PyText.cut "010" (buffer st) with
      | None => st
      | Some (line, rest) =>
          let line := Py.strip line in
          put_lines fuel'
            {| buffer := rest;
               queue := if decide (line = EmptyString) then queue st
                        else queue st ++ [line] |}
      end
  end.

(** One pass of the loop in which [data] was read and decoded. *)
Definition receive (data : string) (st : t) : t :=
  let buffer := buffer st +:+ data in
  put_lines (String.length buffer) {| buffer := buffer; queue := queue st |}.

(** The reader after the reads [chunks], from a fresh connection. *)
Definition run (chunks : list string) : t :=
  foldl (λ st data, receive data st) init chunks.

End Reader.

(** ** The other methods of CDCConsole *)
Module ConsoleOps.
Import CDCConsole.

(** [key, value = line.split(':', 1); status[key.strip().lower()] =
    value.strip()] for a line with a colon. *)
Definition status_line (status : gmap string string) (line : string)
    : gmap string string :=
  match PyText.cut ":" line with
  | Some (key, value) => <[PyText.lower (Py.strip key) := Py.strip value]> status
  | None => status
  end.

Definition get_status : M (gmap string string) :=
  let* response := command "dbg status" in
  ret (foldl status_line ∅ (Py.split "010" response)).

Definition trace_start : M unit :=
  let* _ := command "dbg trace start" in
  ret tt.

Definition cpu_halt : M bool :=
  let* response := command "dbg cpu halt" in
  ret (Py.contains "OK" response).

Definition cpu_run : M bool :=
  let* response := command "dbg cpu run" in
  ret (Py.contains "OK" response).

Definition cpu_reset : M bool :=
  let* response := command "dbg cpu reset" in
  ret (Py.contains "OK" response).

End ConsoleOps.

(** ** FirmwareBuilder *)
Module FirmwareBuilder.
Import CDCConsole.

Record t : Type := { last_hash : option string }.

(** [FirmwareBuilder(config)] *)
Definition init : t := {| last_hash := None |}.

(** [get_source_hash]: one hasher is fed the bytes of every file the
    patterns yield, in order; [files] are those bytes, file by file. *)
Definition get_source_hash (sha256_hexdigest : string -> string)
    (files : list string) : string :=
  String.substring 0 16 (sha256_hexdigest (PyText.concat files)).


(** [build]: [make] is how [subprocess.run] ends, a return code or an
    exception such as [TimeoutExpired]; [current_hash] is what
    [get_source_hash()] gives after the run. *)
Definition build (make : Res Z) (current_hash : string) (self : t)
    : Res bool * t :=
  match make with
  | Ret returncode =>
      if returncode =? 0 then (Ret true, {| last_hash := Some current_hash |})
      else (Ret false, self)
  | Raise e => (Raise e, self)
  end.

Definition fw_base : Z := 0x40000000.

(** [deploy]: [binary] is what [get_binary()] returns, [None] when
    [firmware.bin] does not exist. *)
Definition deploy (binary : option (list Byte.byte)) : M bool :=
  match binary with
  | None | Some [] => ret false
  | Some binary =>
      let* halted := ConsoleOps.cpu_halt in
      if negb halted then ret false
      else
        let* written := write_block fw_base binary in
        if negb written then ret false
        else
          let* reset := ConsoleOps.cpu_reset in
          if negb reset then ret false
          else
            let* _ := BuiltinTests.sleep 100 in
            let* running := ConsoleOps.cpu_run in
            if negb running then ret false else ret true
  end.

End FirmwareBuilder.

(** ** Quick runs and the callers of the test runner *)
Module DevLoop.

(** [t.timeout < 5.0] *)
Definition is_quick (test : TestCase) : bool :=
  negb (Qle_bool 5 (timeout test)).

(** The loop of [run_quick] over [quick_tests]: the layer is read again
    for every test, outside the [try]. *)
Fixpoint quick_loop (quick_tests : list TestCase) : M bool :=
  match quick_tests with
  | [] => ret true
  | test :: rest =>
      let* layer := CDCConsole.get_layer in
      if layer <? layer_required test then quick_loop rest
      else fun w =>
        match test_fn test w with
        | (Ret result, w') =>
            if decide (result = PASS) then quick_loop rest w'
            else (Ret false, w')
        | (Raise _, w') => (Ret false, w')
        end
  end.

(** [TestRunner.run_quick] *)
Definition run_quick (self : TestRunner.t) : M bool :=
  quick_loop (List.filter is_quick (TestRunner.tests self)).

(** [all(r in (PASS, SKIP) for r in results.values())] *)
Definition all_passed (results : gmap string TestResult) : bool :=
  bool_decide (map_Forall (λ _ r, r = PASS ∨ r = SKIP) results).

(** [DevLoop.run_tests] on a connected loop: the verdict and the runner
    afterwards. *)
Definition run_tests (quick : bool) (self : TestRunner.t) (w : World)
    : Res bool * TestRunner.t * World :=
  if quick then
    let '(r, w') := run_quick self w in (r, self, w')
  else
    match TestRunner.run_all self 0 w with
    | (Ret results, self', w') => (Ret (all_passed results), self', w')
    | (Raise e, self', w') => (Raise e, self', w')
    end.

(** The exit status of [test_hardware.py]:
    [failed = sum(1 for r in results.values() if r == FAIL)]. *)
Definition exit_status (results : gmap string TestResult) : Z :=
  if bool_decide (map_Forall (λ _ r, r ≠ FAIL) results) then 0 else 1.


End DevLoop.

(** ** Simulation *)
Module Simulation.

Definition failure_indicators : list string :=
  ["ASSERTION FAILED"; "ERROR:"; "FAIL:"; "*** FAILED ***"; "$fatal"].

Definition pass_indicators : list string :=
  ["PASS"; "All tests passed"; "SUCCESS"].

(** [for indicator in indicators: if indicator in output: return ...] *)
Definition any_in (indicators : list string) (output : string) : bool :=
  existsb (λ indicator, Py.contains indicator output) indicators.

Definition check_assertions (output : option string) : bool :=
  match output with
  | None => false
  | Some output =>
      if any_in failure_indicators output then false
      else if any_in pass_indicators output then true
      else true
  end.

(** What the simulator does with a testbench: whether [iverilog] compiles
    it and what [vvp] then prints ([None] for a failed or timed-out run);
    either call raises when the tool cannot be started. *)
Record Simulator : Type := {
  compile : string -> Res bool;
  run : string -> Res (option string)
}.

(** [Simulator.simulate] *)
Definition simulate (sim : Simulator) (top_module : string)
    : Res (option string) :=
  match compile sim top_module with
  | Ret true => run sim top_module
  | Ret false => Ret None
  | Raise e => Raise e
  end.

(** [RTLWorkflow.quick_check]: the module is looked up among the [.v]
    files only; [testbench] tells whether [tb_<module>.v] exists in
    [sim_dir] or in [tb].  The code looks the module up with
    [rglob(f"{module}.v")], which reads the name as a pattern; the lookup
    by stem is what it does for a name that [rglob] takes literally (no
    [*], [?], [[] or []], no leading dot), and the properties of
    [quick_check] are stated for such names. *)
Definition quick_check (sim : Simulator) (testbench : string -> bool)
    (d : RtlTools.Disk) (module : string) : Res bool :=
  match List.find (λ f, bool_decide (RtlTools.file_stem f = module))
                  (RtlTools.v_files d) with
  | None => Ret false
  | Some _ =>
      if testbench module then
        match simulate sim ("tb_" +:+ module) with
        | Ret output => Ret (check_assertions output)
        | Raise e => Raise e
        end
      else Ret false
  end.

(** The tools of a checkout whose simulations are these. *)
Definition tools (sim : Simulator) (testbench : string -> bool)
    (vivado : Res Z) (d : RtlTools.Disk) : RtlTools.Tools :=
  {| RtlTools.quick_check := quick_check sim testbench d;
     RtlTools.vivado := vivado |}.

End Simulation.

(** ** VivadoBuilder: the script and the estimate *)
Module VivadoBuilder.

(** What the builder finds: whether the reference checkpoint exists in
    the build directory, and [config.use_incremental]. *)
Record Checkout : Type := {
  reference_exists : bool;
  use_incremental : bool
}.

(** The branch [generate_incremental_tcl] takes: [true] for the
    incremental script, [false] for the full build. *)
Definition incremental_script (c : Checkout) (changed_modules : list string)
    : bool :=
  (reference_exists c && use_incremental c)
  && (length changed_modules <? 10)%nat.

Definition estimate_build_time (c : Checkout) (changed_modules : list string)
    : string :=
  if negb (reference_exists c)
  then "~15-20 minutes (full build, no reference)"
  else if (length changed_modules =? 0)%nat
  then "~1-2 minutes (no changes, verification only)"
  else if (length changed_modules <=? 3)%nat
  then "~2-4 minutes (incremental, few changes)"
  else if (length changed_modules <=? 10)%nat
  then "~5-8 minutes (incremental, moderate changes)"
  else "~12-15 minutes (too many changes, near-full build)".

End VivadoBuilder.

(** * Vocabulary of the properties *)

(** ** Console *)

(** No line of a stretch of the queue begins with the prompt marker. *)
Definition no_prompt (q : list (Z * string)) : Prop :=
  Forall (λ x, CDCConsole.is_prompt x.2 = false) q.

(** The word writes in a history, oldest first. *)
Definition word_writes (l : list event) : list (Z * Z * Res bool) :=
  omap (λ e, match e with
             | WordWrite addr data r => Some (addr, data, r)
             | _ => None
             end) l.

Definition succeeded (x : Z * Z * Res bool) : Prop := x.2 = Ret true.

(** The block write in the words of the design document: byte [i] of the
    data, zero beyond its end; the [k]-th little-endian word of four bytes;
    one write per word at [addr], [addr + 4], [addr + 8], ... *)
Definition byte_at (data : list Byte.byte) (i : nat) : Z :=
  Z.of_N (Byte.to_N (default Byte.x00 (data !! i))).

Definition le_word (data : list Byte.byte) (k : nat) : Z :=
  byte_at data (4 * k) + 256 * byte_at data (4 * k + 1)
  + 65536 * byte_at data (4 * k + 2) + 16777216 * byte_at data (4 * k + 3).

Definition le_words (data : list Byte.byte) : list Z :=
  le_word data <$> seq 0 (Nat.div (length data + 3) 4).

Definition block_writes (addr : Z) (data : list Byte.byte) : list (Z * Z) :=
  imap (λ k word, (addr + 4 * Z.of_nat k, word)) (le_words data).

(** ** Test runner *)

(** What a pass assigns to [self.results], given the registered tests. *)
Definition pass_record (tests : list TestCase) (p : TestRunner.pass)
    : option (string * TestResult) :=
  match p with
  | TestRunner.Gated i => (λ t, (name t, SKIP)) <$> tests !! i
  | TestRunner.Filtered _ => None
  | TestRunner.Called i (Ret result) => (λ t, (name t, result)) <$> tests !! i
  | TestRunner.Called i (Raise _) => (λ t, (name t, ERROR)) <$> tests !! i
  end.

(** [results[kv.1] = kv.2] *)
Definition assign (m : gmap string TestResult) (kv : string * TestResult)
    : gmap string TestResult := <[kv.1 := kv.2]> m.

(** The pass the loop makes for test [t] at index [i]. *)
Definition pass_for (current_layer min_layer : Z) (i : nat) (t : TestCase)
    (p : TestRunner.pass) : Prop :=
  if current_layer <? layer_required t then p = TestRunner.Gated i
  else if layer_required t <? min_layer then p = TestRunner.Filtered i
  else ∃ o, p = TestRunner.Called i o.

(** The reading of C5: every entry of the dictionary a run returns was
    assigned by a pass of that run. *)
Definition results_ephemeral : Prop :=
  ∀ self min_layer w a w',
    TestRunner.run_all_tally self min_layer w = (Ret a, w') →
    ∀ n, is_Some (TestRunner.t_results a !! n) →
         ∃ p kv, p ∈ TestRunner.trace a
                 ∧ pass_record (TestRunner.tests self) p = Some kv
                 ∧ kv.1 = n.

(** ** Orchestrator *)

(** Steps of workers only: no call of [start_build] among them. *)
Definition workers (steps : list (nat * RTLBuilder.toolchain))
    : list RTLBuilder.action :=
  (λ s, RTLBuilder.Worker s.1 s.2) <$> steps.

(** How far a worker is from the end of [_build_worker]. *)
Definition remaining (p : RTLBuilder.pc) : nat :=
  match p with
  | RTLBuilder.AtStart => 4
  | RTLBuilder.InToolchain => 3
  | RTLBuilder.AfterHash => 2
  | RTLBuilder.AfterStatus => 1
  | RTLBuilder.Finished => 0
  end.

(** The values [build_status] takes. *)
Definition status_ok (s : string) : Prop :=
  s ∈ ["idle"; "running"; "success"; "failed"; "timeout"]
  ∨ ∃ e, s = "error: " +:+ e.

(** The seven values of the design document. *)
Definition seven_statuses : list string :=
  ["idle"; "syncing"; "building"; "success"; "failed"; "timeout"; "error"].

(** ** Change detection *)

(** The tracked files in the order the scan visits them. *)
Definition tracked (d : RtlTools.Disk) : list RtlTools.SourceFile :=
  RtlTools.v_files d ++ RtlTools.sv_files d.

(** The same files, scanned in another order. *)
Definition same_files (d1 d2 : RtlTools.Disk) : Prop :=
  RtlTools.v_files d1 ≡ₚ RtlTools.v_files d2
  ∧ RtlTools.sv_files d1 ≡ₚ RtlTools.sv_files d2.

(** The last clause of C3: membership in the result does not depend on
    the order of the scan. *)
Definition scan_order_independent (sha256_hexdigest : string -> string)
    (find_dependencies : RtlTools.SourceFile -> list string) : Prop :=
  ∀ d1 d2 cache n,
    same_files d1 d2 →
    n ∈ RtlTools.get_changed_modules
          (RtlTools.scan_rtl_modules sha256_hexdigest find_dependencies d1)
          cache
    ↔ n ∈ RtlTools.get_changed_modules
            (RtlTools.scan_rtl_modules sha256_hexdigest find_dependencies d2)
            cache.

(** ** Sample targets and checkouts *)

(** A world whose console is connected: one stale line is on the queue,
    the reply to the next command and the prompt follow. *)
Definition port_up : SerialPort := {| tx_ok := true |}.

Definition world_layer5 : World :=
  {| serial := Some port_up; clock := 10;
     response_queue := [(3, "stale"); (20, "OK:00000005"); (25, "> ")];
     log := [] |}.

(** The same target with the transport not open. *)
Definition world_closed : World :=
  {| serial := None; clock := 10;
     response_queue := [(3, "stale"); (20, "OK:00000005"); (25, "> ")];
     log := [] |}.

(** A runner with the one test [memory_basic], and a target at layer 5
    that answers the exchanges of two runs. *)
Definition runner_memory_basic : TestRunner.t :=
  TestRunner.register
    {| name := "memory_basic"; description := "Basic memory read/write";
       layer_required := 2; test_fn := BuiltinTests.test_memory_basic;
       timeout := 1 |}
    TestRunner.init.

Definition world_two_runs : World :=
  {| serial := Some port_up; clock := 0;
     response_queue := [(20, "OK:00000005"); (25, "> ");
                 (40, "OK"); (45, "> ");
                 (60, "OK:cafebabe"); (65, "> ");
                 (80, "OK:00000005"); (85, "> ")];
     log := [] |}.

(** The runner and the world after a first run with [min_layer = 0]. *)
Definition after_first_run : TestRunner.t * World :=
  let '(_, self1, w1) :=
    TestRunner.run_all runner_memory_basic 0 world_two_runs in
  (self1, w1).

(** The loop variables at the end of a second run with [min_layer = 3]. *)
Definition second_run : TestRunner.Tally * World :=
  match TestRunner.run_all_tally after_first_run.1 3 after_first_run.2 with
  | (Ret a, w') => (a, w')
  | (Raise _, w') => (TestRunner.start after_first_run.1, w')
  end.

(** The SHA-256 digests of the empty file and of the file that holds
    [abc]. *)
Definition sha256_samples (bytes : string) : string :=
  if decide (bytes = EmptyString)
  then "e3b0c44298fc1c149afbf4c8996fb92427ae41e4649b934ca495991b7852b855"
  else if decide (bytes = "abc")
  then "ba7816bf8f01cfea414140de5dae2223b00361a396177a9cb410ff61f20015ad"
  else EmptyString.

(** Two sources named [top] in different directories, both empty at
    first; then [rtl/fdd/top.v] is modified. *)
Definition top_fdd_before : RtlTools.SourceFile :=
  {| RtlTools.file_path := "rtl/fdd/top.v"; RtlTools.file_stem := "top";
     RtlTools.file_bytes := EmptyString |}.

Definition top_fdd : RtlTools.SourceFile :=
  {| RtlTools.file_path := "rtl/fdd/top.v"; RtlTools.file_stem := "top";
     RtlTools.file_bytes := "abc" |}.

Definition top_hdd : RtlTools.SourceFile :=
  {| RtlTools.file_path := "rtl/hdd/top.v"; RtlTools.file_stem := "top";
     RtlTools.file_bytes := EmptyString |}.

(** A checkout whose cache holds the hash of the empty [top]. *)
Definition checkout (files : list RtlTools.SourceFile) : RtlTools.Disk :=
  {| RtlTools.v_files := files; RtlTools.sv_files := [];
     RtlTools.cache_file := Some {[ "top" := "e3b0c44298fc1c14" ]};
     RtlTools.written := [] |}.

(** [get_changed_modules(scan_rtl_modules(rtl_dir), cache_file)] on a
    sample checkout. *)
Definition changed_in (d : RtlTools.Disk) : list string :=
  RtlTools.get_changed_modules
    (RtlTools.scan_rtl_modules sha256_samples (λ _, []) d)
    (RtlTools.cache_file d).

(** ** Text *)

(** Every character of a text passes a test. *)
Fixpoint all_chars (test : ascii -> bool) (s : string) : bool :=
  match s with
  | EmptyString => true
  | String a rest => test a && all_chars test rest
  end.

(** A digit of lower-case base 16. *)
Definition hex_digit_char (a : ascii) : bool :=
  let n := nat_of_ascii a in
  ((48 <=? n) && (n <=? 57) || (97 <=? n) && (n <=? 102))%nat.

(** A character that can stand in a base-16 literal or around it. *)
Definition literal_char (a : ascii) : bool :=
  match Py.hex_value a with Some _ => true | None => false end
  || Ascii.eqb a "_" || Py.isspace a
  || Ascii.eqb a "+" || Ascii.eqb a "-"
  || Ascii.eqb a "x" || Ascii.eqb a "X".


(** ** Reader *)

(** The lines a text hands to the queue: its segments before each line
    feed, stripped, the empty ones left out; and what stays in the buffer,
    the text after the last line feed. *)
Definition received_lines (text : string) : list string :=
  List.filter (λ line, bool_decide (line ≠ EmptyString))
              (Py.strip <$> removelast (Py.split "010" text)).

Definition pending (text : string) : string :=
  List.last (Py.split "010" text) EmptyString.

(** ** Transport *)

(** The texts written to the transport in a history, oldest first. *)
Definition sent (l : list event) : list string :=
  omap (λ e, match e with
             | SerialWrite data => Some data
             | _ => None
             end) l.

(** The lines of a queue are in the order of their arrival. *)
Definition in_arrival_order (q : list (Z * string)) : Prop :=
  ∀ i j x y, (i < j)%nat → q !! i = Some x → q !! j = Some y → x.1 ≤ y.1.

(** A target that answers the status query with three lines and the
    prompt. *)
Definition world_status : World :=
  {| serial := Some port_up; clock := 0;
     response_queue := [(10, "Layer: 5"); (12, "PLL Lock : OK: all");
                        (14, "uptime"); (16, "> ")];
     log := [] |}.

(** What [write_memory] puts on the wire for a word. *)
Definition write_command (x : Z * Z) : string :=
  "dbg w " +:+ Py.format_08x x.1 +:+ " " +:+ Py.format_08x x.2 +:+ Py.CRLF.

(** A target that acknowledges the four exchanges of a deployment of one
    word. *)
Definition world_deploy : World :=
  {| serial := Some port_up; clock := 0;
     response_queue := [(10, "OK"); (12, "> "); (20, "OK"); (22, "> ");
                        (30, "OK"); (32, "> "); (140, "OK"); (142, "> ")];
     log := [] |}.

(** ** Orchestrator, continued *)

(** What holds of an orchestrator at every moment: a worker that has not
    finished is the one [build_thread] names, and the event, the status
    and the hash stand as the program point of that worker tells. *)
Definition orchestrator_inv (s : RTLBuilder.t) : Prop :=
  (∀ tid p, RTLBuilder.threads s !! tid = Some p → p ≠ RTLBuilder.Finished →
            RTLBuilder.build_thread s = Some tid)
  ∧ match RTLBuilder.build_thread s with
    | None =>
        RTLBuilder.threads s = [] ∧ RTLBuilder.bitstream_ready s = false
        ∧ RTLBuilder.build_status s = "idle"
    | Some tid =>
        ∃ p, RTLBuilder.threads s !! tid = Some p ∧
        match p with
        | RTLBuilder.AtStart => RTLBuilder.bitstream_ready s = false
        | RTLBuilder.InToolchain =>
            RTLBuilder.bitstream_ready s = false
            ∧ RTLBuilder.build_status s = "running"
        | RTLBuilder.AfterHash =>
            RTLBuilder.bitstream_ready s = false
            ∧ RTLBuilder.build_status s = "running"
            ∧ is_Some (RTLBuilder.last_hash s)
        | RTLBuilder.AfterStatus =>
            RTLBuilder.bitstream_ready s = false
            ∧ RTLBuilder.build_status s = "success"
            ∧ is_Some (RTLBuilder.last_hash s)
        | RTLBuilder.Finished =>
            RTLBuilder.bitstream_ready s = true →
            RTLBuilder.build_status s = "success"
            ∧ is_Some (RTLBuilder.last_hash s)
        end
    end.


(** ** Test runner, continued *)

(** The kinds of passes, as the summary line of [run_all] counts them. *)
Definition is_gated (p : TestRunner.pass) : bool :=
  match p with TestRunner.Gated _ => true | _ => false end.

Definition is_filtered (p : TestRunner.pass) : bool :=
  match p with TestRunner.Filtered _ => true | _ => false end.

Definition is_passed (p : TestRunner.pass) : bool :=
  match p with TestRunner.Called _ (Ret PASS) => true | _ => false end.

Definition is_failed (p : TestRunner.pass) : bool :=
  match p with
  | TestRunner.Called _ (Ret PASS) => false
  | TestRunner.Called _ _ => true
  | _ => false
  end.

Definition count (kind : TestRunner.pass → bool) (l : list TestRunner.pass)
    : nat :=
  length (List.filter kind l).

(** The world after a failed write of [send]: the waiting lines are
    gone. *)
Definition drained (w : World) : World :=
  set_response_queue (CDCConsole.drain (clock w) (response_queue w)) w.

(** A transport that is open but whose write raises. *)
Definition world_tx_broken : World :=
  {| serial := Some {| tx_ok := false |}; clock := 10;
     response_queue := [(3, "stale"); (20, "OK:00000005"); (25, "> ")];
     log := [] |}.

(** ** Simulation and build *)

(** A module name that [rglob] takes literally: it holds no pattern
    character and is not the name of a hidden file. *)
Definition pattern_char (a : ascii) : bool :=
  Ascii.eqb a "*" || Ascii.eqb a "?" || Ascii.eqb a "[" || Ascii.eqb a "]".

Definition plain_name (module : string) : bool :=
  all_chars (λ a, negb (pattern_char a)) module
  && negb (Py.startswith "." module).

(** A simulator whose runs all pass, and a checkout with a reference
    checkpoint. *)
Definition passing_simulator : Simulation.Simulator :=
  {| Simulation.compile := λ _, Ret true;
     Simulation.run := λ _, Ret (Some "All tests passed") |}.

Definition with_reference : VivadoBuilder.Checkout :=
  {| VivadoBuilder.reference_exists := true;
     VivadoBuilder.use_incremental := true |}.

(** The estimate announces an incremental build. *)
Definition announces_incremental (estimate : string) : bool :=
  Py.contains "(incremental" estimate.

(** * Properties *)

(** ** The built-ins on sample text *)

Example py_int16_1 : Py.int16 "0000000f" = Some 15. Proof. reflexivity. Qed.
Example py_int16_2 : Py.int16 "-5" = Some (-5). Proof. reflexivity. Qed.
Example py_int16_3 : Py.int16 "0x_1F" = Some 31. Proof. reflexivity. Qed.
Example py_int16_4 : Py.int16 "1__0" = None. Proof. reflexivity. Qed.
Example py_int16_5 : Py.int16 EmptyString = None. Proof. reflexivity. Qed.
Example py_int16_6 : Py.int16 " +5 " = Some 5. Proof. reflexivity. Qed.
Example py_int16_7 : Py.int16 "+ 5" = None. Proof. reflexivity. Qed.
Example py_int16_8 : Py.int16 (String "031" "5") = None. Proof. reflexivity. Qed.
Example py_int16_9 : Py.int16 "0_1" = Some 1. Proof. reflexivity. Qed.
Example py_strip_2 : Py.strip (String "031" "5") = "5". Proof. reflexivity. Qed.
Example py_fmt_1 : Py.format_08x 1151860852 = "44a80074". Proof. reflexivity. Qed.
Example py_fmt_2 : Py.format_08x (-5) = "-0000005". Proof. reflexivity. Qed.
Example py_fmt_3 : Py.format_08x 0 = "00000000". Proof. reflexivity. Qed.
Example py_split_1 : Py.split ":" "OK:12:34" = ["OK"; "12"; "34"]. Proof. reflexivity. Qed.
Example py_split_2 : Py.split ":" EmptyString = [EmptyString]. Proof. reflexivity. Qed.
Example py_strip_1 : Py.strip "  a b  " = "a b". Proof. reflexivity. Qed.
Example py_range_1 : Py.range_step 9 4 = [0; 4; 8]%nat. Proof. reflexivity. Qed.
Example py_contains_1 : Py.contains "OK" "xxOKy" = true. Proof. reflexivity. Qed.

(** ** The console protocol engine *)

Section Collection.
Import CDCConsole.

Lemma queue_get_some timeout w line w' :
  queue_get timeout w = (Some line, w') →
  ∃ arrival, response_queue w = (arrival, line) :: response_queue w'
    ∧ clock w ≤ clock w' ∧ clock w' = Z.max (clock w) arrival
    ∧ arrival ≤ clock w + timeout
    ∧ serial w' = serial w ∧ log w' = log w.
Proof.
  unfold queue_get. destruct (response_queue w) as [|[a l] rest] eqn:E; [done|].
  destruct (Z.leb_spec a (clock w + timeout)); [|done].
  intros [= <- <-]. exists a. simpl. repeat split; try done; lia.
Qed.

Lemma queue_get_none timeout w w' :
  queue_get timeout w = (None, w') →
  w' = set_clock (clock w + timeout) w
  ∧ match response_queue w with
    | (arrival, _) :: _ => clock w + timeout < arrival
    | [] => True
    end.
Proof.
  unfold queue_get. destruct (response_queue w) as [|[a l] rest] eqn:E.
  - by intros [= <-].
  - destruct (Z.leb_spec a (clock w + timeout)); [done|].
    by intros [= <-].
Qed.

(** The loop hands back the lines it took off the queue, in order, and
    stops either on a prompt line, which it drops, or at the deadline. *)
Lemma collect_shape fuel deadline responses w :
  (passes deadline w < fuel)%nat →
  ∃ taken w',
    collect fuel deadline responses w = (responses ++ taken.*2, w')
    ∧ serial w' = serial w ∧ log w' = log w ∧ clock w ≤ clock w'
    ∧ ((∃ p, response_queue w = taken ++ p :: response_queue w'
             ∧ is_prompt p.2 = true ∧ no_prompt taken
             ∧ p.1 ≤ clock w' ∧ Forall (λ x, x.1 ≤ clock w') taken)
       ∨ (response_queue w = taken ++ response_queue w' ∧ no_prompt taken
          ∧ deadline ≤ clock w')).
Proof.
  revert responses w.
  induction fuel as [|fuel IH]; intros responses w Hfuel; [lia|].
  simpl. destruct (Z.ltb_spec (clock w) deadline) as [Hlt|Hge]; cycle 1.
  { exists [], w. rewrite app_nil_r. repeat split; try done; try lia.
    right. split; [done|]. split; [constructor|lia]. }
  destruct (queue_get 100 w) as [[line|] w1] eqn:Hget.
  - apply queue_get_some in Hget as (a & Hq & Hc & Hmax & Ha & Hs & Hl).
    destruct (is_prompt line) eqn:Hp.
    + exists [], w1. rewrite app_nil_r. repeat split; try done.
      left. exists (a, line). simpl.
      split_and!; [done|done|constructor|lia|constructor].
    + destruct (IH (responses ++ [line]) w1) as (taken & w' & -> & Hs' & Hl' & Hc' & Hend).
      { unfold passes in *. rewrite Hq in Hfuel. simpl in Hfuel. lia. }
      exists ((a, line) :: taken), w'. rewrite <- app_assoc. simpl.
      repeat split; try congruence; try lia.
      destruct Hend as [(p & Hq' & Hpp & Hnp & Hpc & Hall)|(Hq' & Hnp & Hd)].
      * left. exists p. rewrite Hq, Hq'. repeat split; try done.
        -- by constructor.
        -- constructor; [simpl; lia|done].
      * right. rewrite Hq, Hq'. repeat split; try done. by constructor.
  - apply queue_get_none in Hget as [-> _].
    destruct (IH responses (set_clock (clock w + 100) w))
      as (taken & w' & -> & Hs' & Hl' & Hc' & Hend).
    { unfold passes in *. simpl. lia. }
    exists taken, w'. simpl in *. repeat split; try done. lia.
Qed.


End Collection.

(** C2. With the transport not open ([self.serial] is [None]), [send]
    returns the empty list of lines for every command and leaves the world
    as it was: nothing is written or flushed (the log is unchanged), the
    queue is not touched, no time passes (the call does not block), and the
    call returns rather than raises. *)
Theorem send_not_open (cmd : string) (w : World) :
  serial w = None →
  CDCConsole.send cmd w = (Ret [], w).
Proof. intros Hs. unfold CDCConsole.send. by rewrite Hs. Qed.

Lemma send_not_open_witness :
  serial world_closed = None
  ∧ CDCConsole.send "dbg status" world_closed = (Ret [], world_closed).
Proof.
  split; [reflexivity|].
  apply (send_not_open "dbg status" world_closed). reflexivity.
Defined.



(** ** Block writes *)

Section BlockWrite.
Import CDCConsole.

Lemma chunk_value (data : list Byte.byte) (i : nat) :
  Py.from_bytes_little (pad4 (Py.slice data i (i + 4)))
  = byte_at data i + 256 * byte_at data (i + 1)
    + 65536 * byte_at data (i + 2) + 16777216 * byte_at data (i + 3).
Proof.
  unfold Py.slice, byte_at. replace (i + 4 - i)%nat with 4%nat by lia.
  rewrite <- (Nat.add_0_r i) at 2.
  rewrite <- !(lookup_drop data i).
  destruct (drop i data) as [|b0 [|b1 [|b2 [|b3 rest]]]]; simpl; lia.
Qed.

Lemma words_of_le_words (data : list Byte.byte) :
  words_of data = le_words data.
Proof.
  unfold words_of, le_words, Py.range_step.
  rewrite <- list_fmap_compose. simpl.
  apply list_fmap_ext. intros _ k _. simpl.
  rewrite chunk_value. unfold le_word.
  by replace (k * 4)%nat with (4 * k)%nat by lia.
Qed.

Lemma word_writes_app l1 l2 :
  word_writes (l1 ++ l2) = word_writes l1 ++ word_writes l2.
Proof. apply omap_app. Qed.

(** The exchange itself leaves no word write in the history. *)
Lemma send_word_writes cmd w :
  word_writes (log (CDCConsole.send cmd w).2) = word_writes (log w).
Proof.
  unfold send. destruct (serial w) as [port|]; [|done].
  destruct (tx_ok port); [|done].
  set (w2 := emit _ _). set (deadline := clock w2 + 2000).
  destruct (collect_shape (S (passes deadline w2)) deadline [] w2)
    as (taken & w' & -> & _ & Hl & _); [lia|].
  simpl. rewrite Hl. unfold w2. simpl.
  rewrite word_writes_app. simpl. by rewrite app_nil_r.
Qed.

Lemma write_memory_logged addr data w :
  ∃ r w', write_memory addr data w = (r, w')
          ∧ word_writes (log w')
            = word_writes (log w) ++ [(addr, data, r)].
Proof.
  unfold write_memory, bind, command, bind.
  pose proof (send_word_writes
                ("dbg w " +:+ Py.format_08x addr +:+ " " +:+ Py.format_08x data)
                w) as Hlog.
  destruct (send _ w) as [[lines|e] w1]; simpl in *;
    eexists _, _; (split; [reflexivity|]); simpl;
    by rewrite word_writes_app, Hlog.
Qed.

(** The loop over the words: the writes issued are the first ones of the
    list, in order; all but the last succeeded; the last one decides. *)
Lemma write_words_issued words : ∀ addr i w,
  ∃ issued r w',
    write_words addr i words w = (r, w')
    ∧ word_writes (log w') = word_writes (log w) ++ issued
    ∧ issued.*1
      = take (length issued)
             (imap (λ k word, (addr + Z.of_nat (i + k) * 4, word)) words)
    ∧ match r with
      | Ret true => length issued = length words ∧ Forall succeeded issued
      | r => ∃ pre a d, issued = pre ++ [(a, d, r)] ∧ Forall succeeded pre
      end.
Proof.
  induction words as [|word rest IH]; intros addr i w.
  - exists [], (Ret true), w. simpl. rewrite app_nil_r.
    by split_and!.
  - simpl. unfold bind.
    destruct (write_memory_logged (addr + Z.of_nat i * 4) word w)
      as (r & w1 & -> & Hlog).
    destruct r as [[|]|e].
    + destruct (IH addr (S i) w1) as (issued & r & w' & -> & Hlog' & Hpre & Hr).
      exists ((addr + Z.of_nat i * 4, word, Ret true) :: issued), r, w'.
      split; [done|]. split.
      { rewrite Hlog', Hlog. by rewrite <- app_assoc. }
      split.
      { rewrite fmap_cons. cbn [length imap take fst].
        rewrite Nat.add_0_r. f_equal. rewrite Hpre. f_equal.
        apply imap_ext. intros k x _. simpl. do 3 f_equal. lia. }
      destruct r as [[|]|e].
      * destruct Hr as [Hlen Hall]. split; [simpl; lia|].
        by constructor.
      * destruct Hr as (pre & a & d & -> & Hall).
        exists ((addr + Z.of_nat i * 4, word, Ret true) :: pre), a, d.
        split; [done|]. by constructor.
      * destruct Hr as (pre & a & d & -> & Hall).
        exists ((addr + Z.of_nat i * 4, word, Ret true) :: pre), a, d.
        split; [done|]. by constructor.
    + exists [(addr + Z.of_nat i * 4, word, Ret false)], (Ret false), w1.
      split_and!; try done.
      { simpl. by rewrite Nat.add_0_r. }
      exists [], (addr + Z.of_nat i * 4), word. split; [done|constructor].
    + exists [(addr + Z.of_nat i * 4, word, Raise e)], (Raise e), w1.
      split_and!; try done.
      { simpl. by rewrite Nat.add_0_r. }
      exists [], (addr + Z.of_nat i * 4), word. split; [done|constructor].
Qed.

End BlockWrite.


(** Five bytes make two words; on a closed transport the first word write
    fails and the second is never issued. *)
Example write_block_closed :
  let data := [Byte.x01; Byte.x02; Byte.x03; Byte.x04; Byte.x05] in
  block_writes 1073741824 data
  = [(1073741824, 67305985); (1073741828, 5)]
  ∧ (CDCConsole.write_block 1073741824 data world_closed).1 = Ret false
  ∧ word_writes (log (CDCConsole.write_block 1073741824 data world_closed).2)
    = [(1073741824, 67305985, Ret false)].
Proof. vm_compute. done. Qed.

(** ** The test runner *)

Section RunLoop.
Import TestRunner.

Lemma run_test_pass current_layer min_layer tests i t a w :
  tests !! i = Some t →
  ∃ p a' w',
    run_test current_layer min_layer i t (a, w) = (a', w')
    ∧ trace a' = trace a ++ [p]
    ∧ pass_for current_layer min_layer i t p
    ∧ t_results a' = foldl assign (t_results a)
                           (omap (pass_record tests) [p])
    ∧ (current_layer < layer_required t → w' = w).
Proof.
  intros Ht. unfold run_test, pass_for.
  destruct (Z.ltb_spec current_layer (layer_required t)).
  { eexists (Gated i), _, _. simpl. rewrite Ht. by split_and!. }
  destruct (Z.ltb_spec (layer_required t) min_layer).
  { eexists (Filtered i), _, _. simpl. by split_and!. }
  destruct (test_fn t w) as [[result|e] w1].
  - eexists (Called i (Ret result)), _, _. simpl. rewrite Ht.
    split_and!; try done; [by eexists|lia].
  - eexists (Called i (Raise e)), _, _. simpl. rewrite Ht.
    split_and!; try done; [by eexists|lia].
Qed.

(** The loop makes one pass per test, in registration order, and
    [self.results] ends as the dictionary it started from with the
    assignments of the passes applied in order. *)
Lemma run_loop_passes current_layer min_layer todo : ∀ done a w,
  ∃ new a' w',
    run_loop current_layer min_layer (length done) todo (a, w) = (a', w')
    ∧ trace a' = trace a ++ new
    ∧ length new = length todo
    ∧ (∀ j t, todo !! j = Some t →
         ∃ p, new !! j = Some p
              ∧ pass_for current_layer min_layer (length done + j) t p)
    ∧ t_results a' = foldl assign (t_results a)
                           (omap (pass_record (done ++ todo)) new)
    ∧ (Forall (λ t, current_layer < layer_required t) todo → w' = w).
Proof.
  induction todo as [|t rest IH]; intros done a w.
  - exists [], a, w. simpl. rewrite app_nil_r. by split_and!.
  - cbn [run_loop].
    destruct (run_test_pass current_layer min_layer (done ++ t :: rest)
                (length done) t a w) as (p & a1 & w1 & -> & Htr & Hp & Hres & Hw).
    { by rewrite list_lookup_middle. }
    destruct (IH (done ++ [t]) a1 w1)
      as (new & a' & w' & Hrun & Htr' & Hlen & Hnew & Hres' & Hw').
    rewrite length_app in Hrun. simpl in Hrun.
    rewrite Nat.add_1_r in Hrun. rewrite Hrun.
    rewrite <- app_assoc in Hres'. simpl in Hres'.
    exists (p :: new), a', w'. split_and!.
    + done.
    + rewrite Htr', Htr. by rewrite <- app_assoc.
    + simpl. lia.
    + intros [|j] t' Hj; simpl in *.
      * injection Hj as <-. exists p. by rewrite Nat.add_0_r.
      * destruct (Hnew j t' Hj) as (p' & Hp' & Hfor). exists p'.
        split; [done|]. rewrite length_app in Hfor. simpl in Hfor.
        by replace (length done + S j)%nat with (length done + 1 + j)%nat by lia.
    + rewrite Hres', Hres.
      change (p :: new) with ([p] ++ new).
      by rewrite omap_app, foldl_app.
    + intros [Ht Hrest]%Forall_cons_1. by rewrite Hw', Hw.
Qed.

Lemma pass_for_index current_layer min_layer i t p :
  pass_for current_layer min_layer i t p →
  p = Gated i ∨ p = Filtered i ∨ ∃ o, p = Called i o.
Proof.
  unfold pass_for. repeat case_match; eauto.
Qed.

(** The world a run leaves depends on the tests that are not gated
    only: a gated test can be taken off the list. *)
Lemma run_test_world L min_layer k k' t a a' w :
  (run_test L min_layer k t (a, w)).2 = (run_test L min_layer k' t (a', w)).2.
Proof.
  unfold run_test. repeat case_match; simplify_eq; done.
Qed.

Lemma run_loop_world L min_layer todo : ∀ k k' a a' w,
  (run_loop L min_layer k todo (a, w)).2
  = (run_loop L min_layer k' todo (a', w)).2.
Proof.
  induction todo as [|t rest IH]; intros k k' a a' w; [done|].
  cbn [run_loop].
  pose proof (run_test_world L min_layer k k' t a a' w) as Hw.
  destruct (run_test L min_layer k t (a, w)) as [a1 w1].
  destruct (run_test L min_layer k' t (a', w)) as [a1' w1'].
  simpl in Hw. subst w1'. apply IH.
Qed.

Lemma run_loop_without_gated L min_layer todo : ∀ i t k a w,
  todo !! i = Some t → L < layer_required t →
  (run_loop L min_layer k todo (a, w)).2
  = (run_loop L min_layer k (delete i todo) (a, w)).2.
Proof.
  induction todo as [|t0 rest IH]; intros i t k a w Hi Hreq; [done|].
  destruct i as [|i]; simpl in Hi.
  - injection Hi as ->. cbn [run_loop delete list_delete].
    destruct (run_test_pass L min_layer [t] 0 t a w) as (p & a1 & w1 & Hrun & _ & _ & _ & Hw);
      [done|].
    rewrite (surjective_pairing (run_test L min_layer k t (a, w))).
    rewrite (run_test_world L min_layer k 0 t a a w), Hrun. simpl.
    rewrite (Hw Hreq). apply run_loop_world.
  - cbn [run_loop delete list_delete].
    destruct (run_test L min_layer k t0 (a, w)) as [a1 w1].
    by apply (IH i t).
Qed.

(** Assignments to other keys leave a key as it was; the last
    assignment to a key decides its value. *)
Lemma foldl_assign_other (l : list (string * TestResult)) n :
  ∀ m : gmap string TestResult,
    Forall (λ kv, kv.1 ≠ n) l → foldl assign m l !! n = m !! n.
Proof.
  induction l as [|[k v] l IH]; intros m Hl; [done|].
  apply Forall_cons_1 in Hl as [Hk Hl]. simpl in *.
  rewrite IH by done. unfold assign. simpl. by rewrite lookup_insert_ne.
Qed.

Lemma foldl_assign_last (l1 l2 : list (string * TestResult)) n v
    (m : gmap string TestResult) :
  Forall (λ kv, kv.1 ≠ n) l2 →
  foldl assign m (l1 ++ (n, v) :: l2) !! n = Some v.
Proof.
  intros Hl2. rewrite foldl_app. simpl.
  rewrite foldl_assign_other by done.
  unfold assign. simpl. by rewrite lookup_insert_eq.
Qed.

(** [run_all] once the layer has been read. *)
Lemma run_all_unfold self min_layer w L :
  (CDCConsole.get_layer w).1 = Ret L →
  ∃ new a w',
    run_loop L min_layer 0 (tests self) (start self, (CDCConsole.get_layer w).2)
    = (a, w')
    ∧ run_all_tally self min_layer w = (Ret a, w')
    ∧ run_all self min_layer w
      = (Ret (t_results a),
         {| tests := tests self; results := t_results a |}, w')
    ∧ trace a = new
    ∧ length new = length (tests self)
    ∧ (∀ j t, tests self !! j = Some t →
         ∃ p, new !! j = Some p ∧ pass_for L min_layer j t p)
    ∧ t_results a = foldl assign (results self)
                          (omap (pass_record (tests self)) new)
    ∧ (Forall (λ t, L < layer_required t) (tests self) →
       w' = (CDCConsole.get_layer w).2).
Proof.
  intros HL.
  destruct (run_loop_passes L min_layer (tests self) [] (start self)
              (CDCConsole.get_layer w).2)
    as (new & a & w' & Hrun & Htr & Hlen & Hnew & Hres & Hw).
  simpl in *. exists new, a, w'.
  assert (run_all_tally self min_layer w = (Ret a, w')) as Htally.
  { unfold run_all_tally, bind.
    destruct (CDCConsole.get_layer w) as [r w1]. simpl in *. subst r.
    by rewrite Hrun. }
  split_and!; try done.
  unfold run_all. by rewrite Htally.
Qed.

(** A test whose required layer is above the current one is gated: its
    pass is the assignment of [SKIP], and no pass calls its function. *)
Lemma gated_pass L min_layer (tests : list TestCase) new i t :
  length new = length tests →
  (∀ j t, tests !! j = Some t →
     ∃ p, new !! j = Some p ∧ pass_for L min_layer j t p) →
  tests !! i = Some t → L < layer_required t →
  new !! i = Some (Gated i) ∧ ∀ o, Called i o ∉ new.
Proof.
  intros Hlen Hnew Hi Hreq.
  assert (∀ t', tests !! i = Some t' → ∀ p, pass_for L min_layer i t' p →
                p = Gated i) as Hgate.
  { intros t' Ht' p. rewrite Hi in Ht'. injection Ht' as <-.
    unfold pass_for. destruct (Z.ltb_spec L (layer_required t)); [done|lia]. }
  split.
  - destruct (Hnew i t Hi) as (p & Hp & Hfor). by rewrite Hp, (Hgate t Hi p).
  - intros o [j Hj]%list_elem_of_lookup.
    destruct (lookup_lt_is_Some_2 tests j) as [t' Ht'].
    { rewrite <- Hlen. by eapply lookup_lt_Some. }
    destruct (Hnew j t' Ht') as (p & Hp & Hfor).
    rewrite Hj in Hp. injection Hp as <-.
    destruct (pass_for_index _ _ _ _ _ Hfor) as [?|[?|[o' [= <- <-]]]]; try done.
    by specialize (Hgate t' Ht' _ Hfor).
Qed.

(** If no later test has the name of the gated test, [SKIP] is what the
    dictionary holds for it in the end. *)
Lemma gated_result L min_layer (tests : list TestCase) new i t m :
  length new = length tests →
  (∀ j t, tests !! j = Some t →
     ∃ p, new !! j = Some p ∧ pass_for L min_layer j t p) →
  tests !! i = Some t → L < layer_required t →
  (∀ j t', (i < j)%nat → tests !! j = Some t' → name t' ≠ name t) →
  foldl assign m (omap (pass_record tests) new) !! name t = Some SKIP.
Proof.
  intros Hlen Hnew Hi Hreq Hlater.
  destruct (gated_pass L min_layer tests new i t) as [Hp _]; try done.
  rewrite <- (take_drop_middle new i (Gated i)) by done.
  rewrite omap_app. simpl. rewrite Hi. simpl.
  apply foldl_assign_last.
  apply Forall_forall. intros [k v] Hkv.
  apply list_elem_of_omap in Hkv as (p & Hin & Hrec).
  apply list_elem_of_lookup in Hin as [j Hj].
  rewrite lookup_drop in Hj.
  destruct (lookup_lt_is_Some_2 tests (S i + j)) as [t' Ht'].
  { rewrite <- Hlen. by eapply lookup_lt_Some. }
  destruct (Hnew _ t' Ht') as (p' & Hp' & Hfor).
  rewrite Hj in Hp'. injection Hp' as <-.
  simpl. intros ->.
  apply (Hlater (S i + j)%nat t'); [lia|done|].
  destruct (pass_for_index _ _ _ _ _ Hfor) as [->|[->|[o ->]]];
    cbn [pass_record] in Hrec; try done.
  - rewrite Ht' in Hrec. by injection Hrec.
  - destruct o; rewrite Ht' in Hrec; by injection Hrec.
Qed.

End RunLoop.

(** The standard runner on the connected target at layer 5: the layer 2
    and layer 4 tests are run, the others are gated. *)
Example standard_run_layer5 :
  TestRunner.trace (TestRunner.run_loop 5 0 0
      (TestRunner.tests BuiltinTests.standard_runner)
      (TestRunner.start BuiltinTests.standard_runner,
       (CDCConsole.get_layer world_layer5).2)).1
  = [TestRunner.Called 0 (Ret FAIL); TestRunner.Called 1 (Ret FAIL);
     TestRunner.Called 2 (Ret ERROR); TestRunner.Gated 3;
     TestRunner.Gated 4; TestRunner.Gated 5; TestRunner.Gated 6].
Proof. vm_compute. reflexivity. Qed.

(** C1. Let [L] be the layer queried at the start of [run_all].  For every
    registered test whose [layer_required] is strictly greater than [L],
    the pass of the loop for that test is the assignment of [SKIP] to its
    name, and no pass of the run calls its test function.  If no test
    registered later has the same name, the returned dictionary holds
    [SKIP] for it.  The world the run leaves is the one the same run
    leaves with that test taken off the list; and if every registered test
    is gated, it is the world as the layer query left it: no test body had
    any effect. *)
Theorem run_all_gates (self : TestRunner.t) (min_layer L : Z) (w : World)
    (i : nat) (t : TestCase) :
  (CDCConsole.get_layer w).1 = Ret L →
  TestRunner.tests self !! i = Some t →
  L < layer_required t →
  ∃ a w',
    TestRunner.run_all_tally self min_layer w = (Ret a, w')
    ∧ TestRunner.run_all self min_layer w
      = (Ret (TestRunner.t_results a),
         {| TestRunner.tests := TestRunner.tests self;
            TestRunner.results := TestRunner.t_results a |}, w')
    ∧ TestRunner.trace a !! i = Some (TestRunner.Gated i)
    ∧ (∀ o, TestRunner.Called i o ∉ TestRunner.trace a)
    ∧ ((∀ j t', (i < j)%nat → TestRunner.tests self !! j = Some t' →
                name t' ≠ name t) →
       TestRunner.t_results a !! name t = Some SKIP)
    ∧ (TestRunner.run_loop L min_layer 0 (delete i (TestRunner.tests self))
         (TestRunner.start self, (CDCConsole.get_layer w).2)).2 = w'
    ∧ (Forall (λ t', L < layer_required t') (TestRunner.tests self) →
       w' = (CDCConsole.get_layer w).2).
Proof.
  intros HL Hi Hreq.
  destruct (run_all_unfold self min_layer w L HL)
    as (new & a & w' & Hloop & Htally & Hall & Htr & Hlen & Hnew & Hres & Hw).
  exists a, w'. rewrite Htr, Hres.
  destruct (gated_pass L min_layer (TestRunner.tests self) new i t)
    as [Hgate Hcall]; try done.
  split_and!; try done.
  - by rewrite <- Hres.
  - intros Hlater. by eapply gated_result.
  - rewrite <- (run_loop_without_gated L min_layer _ i t) by done.
    by rewrite Hloop.
Qed.

Lemma run_all_gates_witness :
  (CDCConsole.get_layer world_layer5).1 = Ret 5
  ∧ ∃ a w',
      TestRunner.run_all_tally BuiltinTests.standard_runner 0 world_layer5
      = (Ret a, w')
      ∧ TestRunner.trace a !! 3%nat = Some (TestRunner.Gated 3)
      ∧ (∀ o, TestRunner.Called 3 o ∉ TestRunner.trace a)
      ∧ TestRunner.t_results a !! "usb_enum" = Some SKIP.
Proof.
  split; [vm_compute; reflexivity|].
  destruct (run_all_gates BuiltinTests.standard_runner 0 5 world_layer5 3
              {| name := "usb_enum"; description := "USB enumerated";
                 layer_required := 6;
                 test_fn := BuiltinTests.test_usb_enumerated; timeout := 1 |})
    as (a & w' & Htally & _ & Hgate & Hcall & Hres & _ & _).
  - vm_compute; reflexivity.
  - reflexivity.
  - simpl; lia.
  - exists a, w'.
    split; [exact Htally|]. split; [exact Hgate|]. split; [exact Hcall|].
    apply Hres. intros j t' Hj Ht'.
    do 4 (destruct j as [|j]; [lia|]).
    do 3 (destruct j as [|j]; [injection Ht' as <-; discriminate|]).
    discriminate.
Defined.

(** ** Rendering and parsing of register values *)

Section HexText.

Lemma append_nil_l (s : string) : EmptyString +:+ s = s.
Proof. reflexivity. Qed.

Lemma append_cons (a : ascii) (s t : string) :
  String a s +:+ t = String a (s +:+ t).
Proof. reflexivity. Qed.

Lemma append_nil_r (s : string) : s +:+ EmptyString = s.
Proof.
  induction s as [|a s IH]; [done|]. by rewrite append_cons, IH.
Qed.

Lemma append_assoc (a b c : string) : (a +:+ b) +:+ c = a +:+ (b +:+ c).
Proof.
  induction a as [|x a IH]; [done|]. by rewrite !append_cons, IH.
Qed.

Lemma append_length (a b : string) :
  String.length (a +:+ b) = (String.length a + String.length b)%nat.
Proof.
  induction a as [|x a IH]; [done|]. rewrite append_cons. simpl. by rewrite IH.
Qed.

Lemma all_chars_app test (a b : string) :
  all_chars test (a +:+ b) = all_chars test a && all_chars test b.
Proof.
  induction a as [|x a IH]; [done|].
  rewrite append_cons. simpl. by rewrite IH, andb_assoc.
Qed.

Lemma all_chars_impl (test1 test2 : ascii -> bool) s :
  (∀ a, test1 a = true → test2 a = true) →
  all_chars test1 s = true → all_chars test2 s = true.
Proof.
  intros Himp. induction s as [|a s IH]; simpl; [done|].
  intros [Ha Hs]%andb_true_iff. by rewrite (Himp a Ha), IH.
Qed.

(** What a base-16 digit is not. *)
Lemma hex_digit_char_facts (a : ascii) :
  hex_digit_char a = true →
  Py.isspace a = false ∧ Py.int_space a = false
  ∧ Ascii.eqb a "_" = false ∧ Ascii.eqb a ":" = false
  ∧ Ascii.eqb a "x" = false ∧ Ascii.eqb a "X" = false
  ∧ Ascii.eqb a "010" = false
  ∧ ∃ d, Py.hex_value a = Some d ∧ 0 ≤ d < 16.
Proof.
  destruct a as [[] [] [] [] [] [] [] []]; intros H; vm_compute in H;
    try discriminate H; clear H; split_and!; try reflexivity;
    eexists; (split; [vm_compute; reflexivity|lia]).
Qed.

Lemma hex_char_digit (d : Z) :
  0 ≤ d < 16 →
  hex_digit_char (Py.hex_char d) = true ∧ Py.hex_value (Py.hex_char d) = Some d.
Proof.
  intros Hd.
  assert (d = 0 ∨ d = 1 ∨ d = 2 ∨ d = 3 ∨ d = 4 ∨ d = 5 ∨ d = 6 ∨ d = 7
          ∨ d = 8 ∨ d = 9 ∨ d = 10 ∨ d = 11 ∨ d = 12 ∨ d = 13 ∨ d = 14
          ∨ d = 15) as Hcases by lia.
  repeat (destruct Hcases as [->|Hcases]; [by vm_compute|]).
  subst d. by vm_compute.
Qed.

Lemma zeros_digits k : all_chars hex_digit_char (Py.zeros k) = true.
Proof. induction k as [|k IH]; simpl; [done|]. by rewrite IH. Qed.

Lemma zeros_length k : String.length (Py.zeros k) = k.
Proof. induction k as [|k IH]; simpl; by rewrite ?IH. Qed.

Lemma hex_of_digits fuel : ∀ n acc,
  all_chars hex_digit_char acc = true →
  all_chars hex_digit_char (Py.hex_of fuel n acc) = true.
Proof.
  induction fuel as [|fuel IH]; intros n acc Hacc; simpl; [done|].
  destruct (n <=? 0); [done|]. apply IH. simpl.
  destruct (hex_char_digit (n mod 16)) as [-> _]; [|done].
  apply Z.mod_pos_bound. lia.
Qed.

Lemma hex_digits_all n : all_chars hex_digit_char (Py.hex n) = true.
Proof.
  unfold Py.hex. destruct (n =? 0); [done|]. by apply hex_of_digits.
Qed.

(** Reading the digits that [hex_of] wrote gives the number back. *)
Lemma hex_digits_hex_of fuel : ∀ n acc,
  0 ≤ n < 16 ^ Z.of_nat fuel →
  Py.hex_digits 0 false (Py.hex_of fuel n acc) = Py.hex_digits n false acc.
Proof.
  induction fuel as [|fuel IH]; intros n acc Hn.
  - simpl in *. by replace n with 0 by lia.
  - simpl. destruct (Z.leb_spec n 0) as [Hle|Hpos].
    + by replace n with 0 by lia.
    + rewrite IH; cycle 1.
      { rewrite Nat2Z.inj_succ, Z.pow_succ_r in Hn by lia.
        split; [apply Z.div_pos; lia|].
        apply Z.div_lt_upper_bound; lia. }
      simpl.
      destruct (hex_char_digit (n mod 16)) as [Hdigit Hvalue].
      { apply Z.mod_pos_bound. lia. }
      destruct (hex_digit_char_facts _ Hdigit) as (_ & _ & -> & _).
      rewrite Hvalue. f_equal.
      pose proof (Z.div_mod n 16). lia.
Qed.

Lemma hex_digits_zeros k acc :
  Py.hex_digits 0 false (Py.zeros k +:+ acc) = Py.hex_digits 0 false acc.
Proof.
  induction k as [|k IH]; [done|]. cbn [Py.zeros]. rewrite append_cons.
  exact IH.
Qed.

Lemma hex_digits_hex n :
  0 ≤ n → Py.hex_digits 0 false (Py.hex n) = Some n.
Proof.
  intros Hn. unfold Py.hex. destruct (Z.eqb_spec n 0) as [->|Hne]; [done|].
  rewrite hex_digits_hex_of; [done|]. split; [done|].
  pose proof (Z.log2_spec n ltac:(lia)) as [_ Hlt].
  rewrite Nat2Z.inj_succ, Z2Nat.id by apply Z.log2_nonneg.
  eapply Z.lt_le_trans; [exact Hlt|].
  change 16 with (2 ^ 4). rewrite <- Z.pow_mul_r by (pose proof (Z.log2_nonneg n); lia).
  apply Z.pow_le_mono_r; pose proof (Z.log2_nonneg n); lia.
Qed.


Lemma lstrip_by_head space a rest :
  space a = false → Py.lstrip_by space (String a rest) = String a rest.
Proof. intros H. simpl. by rewrite H. Qed.

Lemma rstrip_by_none space s :
  all_chars (λ a, negb (space a)) s = true → Py.rstrip_by space s = s.
Proof.
  induction s as [|a s IH]; [done|]. simpl.
  intros [Ha Hs]%andb_true_iff. rewrite (IH Hs).
  apply negb_true_iff in Ha. rewrite Ha. by destruct s.
Qed.

Lemma strip_by_none space s :
  all_chars (λ a, negb (space a)) s = true →
  Py.rstrip_by space (Py.lstrip_by space s) = s.
Proof.
  intros Hs. destruct s as [|a rest]; [done|].
  rewrite lstrip_by_head, rstrip_by_none; [done..|].
  simpl in Hs. apply andb_true_iff in Hs as [Ha _]. by apply negb_true_iff.
Qed.

Lemma split_none c s :
  all_chars (λ a, negb (Ascii.eqb a c)) s = true → Py.split c s = [s].
Proof.
  induction s as [|a s IH]; [done|]. simpl.
  intros [Ha Hs]%andb_true_iff. apply negb_true_iff in Ha.
  by rewrite Ha, (IH Hs).
Qed.

Lemma hex_unsigned_digits s :
  s ≠ EmptyString → all_chars hex_digit_char s = true →
  Py.hex_unsigned s = Py.hex_digits 0 false s.
Proof.
  intros Hne Hs. destruct s as [|a rest]; [done|]. clear Hne.
  simpl in Hs. apply andb_true_iff in Hs as [Ha Hrest].
  destruct (hex_digit_char_facts a Ha) as (_ & _ & Hus & _).
  assert (Py.hex_body (String a rest) = Py.hex_digits 0 false (String a rest))
    as Hbody by (unfold Py.hex_body; by rewrite Hus).
  rewrite <- Hbody. destruct rest as [|x rest].
  - by destruct a as [[] [] [] [] [] [] [] []].
  - simpl in Hrest. apply andb_true_iff in Hrest as [Hx _].
    destruct (hex_digit_char_facts x Hx) as (_ & _ & _ & _ & Hx1 & Hx2 & _).
    destruct a as [[] [] [] [] [] [] [] []]; try reflexivity.
    unfold Py.hex_unsigned. by rewrite Hx1, Hx2.
Qed.

Lemma int16_digits s :
  s ≠ EmptyString → all_chars hex_digit_char s = true →
  Py.int16 s = Py.hex_digits 0 false s.
Proof.
  intros Hne Hs. rewrite <- hex_unsigned_digits by done.
  unfold Py.int16. rewrite strip_by_none; cycle 1.
  { eapply all_chars_impl; [|exact Hs]. intros a Ha.
    by destruct (hex_digit_char_facts a Ha) as (_ & -> & _). }
  destruct s as [|a rest]; [done|].
  simpl in Hs. apply andb_true_iff in Hs as [Ha _].
  destruct a as [[] [] [] [] [] [] [] []]; try reflexivity;
    vm_compute in Ha; discriminate Ha.
Qed.

Lemma int16_minus s :
  all_chars hex_digit_char s = true →
  Py.int16 (String "-" s) = Z.opp <$> Py.hex_unsigned s.
Proof.
  intros Hs. unfold Py.int16. rewrite strip_by_none; [done|].
  simpl. eapply all_chars_impl; [|exact Hs]. intros a Ha.
  by destruct (hex_digit_char_facts a Ha) as (_ & -> & _).
Qed.

Lemma hex_of_nonempty fuel : ∀ n acc,
  acc ≠ EmptyString → Py.hex_of fuel n acc ≠ EmptyString.
Proof.
  induction fuel as [|fuel IH]; intros n acc Hacc; simpl; [done|].
  destruct (n <=? 0); [done|]. by apply IH.
Qed.

Lemma hex_nonempty n : 0 ≤ n → Py.hex n ≠ EmptyString.
Proof.
  intros Hn. unfold Py.hex. destruct (Z.eqb_spec n 0) as [->|Hne]; [done|].
  simpl. destruct (Z.leb_spec n 0); [lia|]. by apply hex_of_nonempty.
Qed.

Lemma append_nonempty (a b : string) :
  b ≠ EmptyString → a +:+ b ≠ EmptyString.
Proof. destruct a; [done|]. by rewrite append_cons. Qed.

(** The digits of a rendering, with the padding: they read back as the
    number. *)
Lemma padded_digits k n :
  0 ≤ n →
  let text := Py.zeros k +:+ Py.hex n in
  text ≠ EmptyString ∧ all_chars hex_digit_char text = true
  ∧ Py.hex_digits 0 false text = Some n.
Proof.
  intros Hn text. split_and!.
  - by apply append_nonempty, hex_nonempty.
  - unfold text. by rewrite all_chars_app, zeros_digits, hex_digits_all.
  - unfold text. by rewrite hex_digits_zeros, hex_digits_hex.
Qed.

Lemma int16_format_08x (n : Z) : Py.int16 (Py.format_08x n) = Some n.
Proof.
  unfold Py.format_08x. destruct (Z.ltb_spec n 0) as [Hneg|Hpos].
  - destruct (padded_digits (7 - String.length (Py.hex (Z.abs n))) (Z.abs n))
      as (Hne & Hall & Hval); [lia|].
    change ("-" +:+ ?t) with (String "-" t).
    rewrite int16_minus, hex_unsigned_digits, Hval by done. simpl.
    f_equal. lia.
  - destruct (padded_digits (8 - String.length (Py.hex (Z.abs n))) (Z.abs n))
      as (Hne & Hall & Hval); [lia|].
    rewrite int16_digits, Hval by done. f_equal. lia.
Qed.

(** The number of digits. *)
Lemma hex_of_length fuel : ∀ (k : nat) n acc,
  0 ≤ n < 16 ^ Z.of_nat k →
  (String.length (Py.hex_of fuel n acc) ≤ String.length acc + k)%nat.
Proof.
  induction fuel as [|fuel IH]; intros k n acc Hn; simpl; [lia|].
  destruct (Z.leb_spec n 0); [lia|].
  destruct k as [|k]; [simpl in Hn; lia|].
  etrans; [apply (IH k)|simpl; lia].
  rewrite Nat2Z.inj_succ, Z.pow_succ_r in Hn by lia.
  split; [apply Z.div_pos; lia|]. apply Z.div_lt_upper_bound; lia.
Qed.

Lemma hex_length_32 n :
  0 ≤ n < 2 ^ 32 → (1 ≤ String.length (Py.hex n) ≤ 8)%nat.
Proof.
  intros Hn. split.
  - pose proof (hex_nonempty n ltac:(lia)). destruct (Py.hex n); [done|simpl; lia].
  - unfold Py.hex. destruct (n =? 0); [simpl; lia|].
    etrans; [apply (hex_of_length _ 8)|simpl; lia]. simpl. lia.
Qed.

Lemma startswith_app p s : Py.startswith p (p +:+ s) = true.
Proof.
  apply String.prefix_correct. induction p as [|a p IH].
  - by destruct s.
  - rewrite append_cons. simpl. by rewrite IH.
Qed.

End HexText.

(** ** Reading the response to a memory read *)

Section ReadParsing.

Lemma format_08x_chars v :
  all_chars (λ a, hex_digit_char a || Ascii.eqb a "-") (Py.format_08x v)
  = true.
Proof.
  unfold Py.format_08x. destruct (v <? 0).
  - change ("-" +:+ ?t) with (String "-" t). simpl.
    eapply all_chars_impl;
      [|by rewrite all_chars_app, zeros_digits, hex_digits_all].
    by intros a ->.
  - eapply all_chars_impl;
      [|by rewrite all_chars_app, zeros_digits, hex_digits_all].
    by intros a ->.
Qed.

Lemma split_field c field rest :
  all_chars (λ a, negb (Ascii.eqb a c)) field = true →
  Py.split c (field +:+ String c rest) = field :: Py.split c rest.
Proof.
  induction field as [|a field IH].
  - intros _. rewrite append_nil_l. simpl. by rewrite Ascii.eqb_refl.
  - rewrite append_cons. simpl.
    intros [Ha Hf]%andb_true_iff. apply negb_true_iff in Ha.
    by rewrite Ha, (IH Hf).
Qed.

Lemma parse_read_not_ok response :
  Py.startswith "OK:" response = false →
  CDCConsole.parse_read response = None.
Proof. unfold CDCConsole.parse_read. by intros ->. Qed.

(** A response that begins with [OK:] is read from the text between that
    colon and the next one. *)
Lemma parse_read_field field rest :
  all_chars (λ a, negb (Ascii.eqb a ":")) field = true →
  rest = EmptyString ∨ (∃ r, rest = String ":" r) →
  CDCConsole.parse_read ("OK:" +:+ field +:+ rest)
  = Py.int16 (Py.strip field).
Proof.
  intros Hfield Hrest. unfold CDCConsole.parse_read.
  rewrite startswith_app.
  change ("OK:" +:+ ?t) with (String "O" (String "K" (String ":" t))).
  cbn [Py.split Ascii.eqb Bool.eqb].
  destruct Hrest as [->|[r ->]].
  - rewrite append_nil_r, split_none by done.
    destruct (Py.split ":" field); done.
  - rewrite split_field by done. done.
Qed.

(** Text that holds a character foreign to literals is no literal. *)
Lemma hex_digits_foreign s : ∀ acc prev_us,
  all_chars literal_char s = false → Py.hex_digits acc prev_us s = None.
Proof.
  induction s as [|a s IH]; intros acc prev_us; simpl; [done|].
  intros Hall. destruct (Ascii.eqb a "_") eqn:Hus.
  - destruct prev_us; [done|]. apply IH.
    apply Ascii.eqb_eq in Hus as ->. exact Hall.
  - destruct (Py.hex_value a) as [d|] eqn:Hv; [|done].
    apply IH. unfold literal_char in Hall. by rewrite Hv in Hall.
Qed.

Lemma hex_body_foreign s :
  all_chars literal_char s = false → Py.hex_body s = None.
Proof.
  intros Hall. destruct s as [|a s]; [done|]. unfold Py.hex_body.
  destruct (Ascii.eqb a "_"); [done|]. by apply hex_digits_foreign.
Qed.

Lemma all_chars_tail test a s :
  test a = true → all_chars test (String a s) = false →
  all_chars test s = false.
Proof. simpl. by intros ->. Qed.

Lemma hex_unsigned_foreign s :
  all_chars literal_char s = false → Py.hex_unsigned s = None.
Proof.
  intros Hall.
  assert (Py.hex_body s = None) as Hbody by (by apply hex_body_foreign).
  destruct s as [|a [|x rest]]; [done| |].
  - rewrite <- Hbody. by destruct a as [[] [] [] [] [] [] [] []].
  - rewrite <- Hbody.
    destruct a as [[] [] [] [] [] [] [] []]; try reflexivity.
    rewrite Hbody. unfold Py.hex_unsigned.
    apply all_chars_tail in Hall; [|done].
    destruct (Ascii.eqb x "x" || Ascii.eqb x "X") eqn:Hx; [|done].
    assert (all_chars literal_char rest = false) as Hrest.
    { apply (all_chars_tail literal_char x); [|done].
      apply orb_true_iff in Hx as [->%Ascii.eqb_eq| ->%Ascii.eqb_eq]; done. }
    destruct rest as [|u rest']; [done|].
    assert (Py.hex_body (String u rest') = None) as Hb
      by (by apply hex_body_foreign).
    destruct (Ascii.eqb_spec u "_") as [->|Hne].
    + apply hex_body_foreign. by apply (all_chars_tail literal_char "_").
    + rewrite <- Hb.
      destruct u as [[] [] [] [] [] [] [] []]; try reflexivity. done.
Qed.

Lemma lstrip_by_foreign space test s :
  (∀ a, space a = true → test a = true) →
  all_chars test s = false →
  all_chars test (Py.lstrip_by space s) = false.
Proof.
  intros Hsub. induction s as [|a s IH]; [done|]. simpl.
  destruct (space a) eqn:Hsp; [|done].
  rewrite (Hsub a Hsp). exact IH.
Qed.

Lemma rstrip_by_foreign space test s :
  (∀ a, space a = true → test a = true) →
  all_chars test s = false →
  all_chars test (Py.rstrip_by space s) = false.
Proof.
  intros Hsub. induction s as [|a s IH]; [done|]. simpl.
  destruct (test a) eqn:Ha; simpl.
  - intros Hs. specialize (IH Hs).
    destruct (Py.rstrip_by space s); [done|]. simpl. by rewrite Ha.
  - intros _. destruct (Py.rstrip_by space s).
    + destruct (space a) eqn:Hsp; [|simpl; by rewrite Ha].
      rewrite (Hsub a Hsp) in Ha. done.
    + simpl. by rewrite Ha.
Qed.

Lemma int_space_literal a : Py.int_space a = true → literal_char a = true.
Proof. by destruct a as [[] [] [] [] [] [] [] []]. Qed.

Lemma isspace_literal a : Py.isspace a = true → literal_char a = true.
Proof. by destruct a as [[] [] [] [] [] [] [] []]. Qed.

Lemma int16_foreign s :
  all_chars literal_char s = false → Py.int16 s = None.
Proof.
  intros Hall. unfold Py.int16.
  pose proof (rstrip_by_foreign Py.int_space literal_char _ int_space_literal
                (lstrip_by_foreign Py.int_space literal_char s
                   int_space_literal Hall)) as Hbody.
  destruct (Py.rstrip_by Py.int_space (Py.lstrip_by Py.int_space s))
    as [|a body]; [done|].
  assert (Py.hex_unsigned (String a body) = None) as Hu
    by (by apply hex_unsigned_foreign).
  destruct (Ascii.eqb_spec a "-") as [->|Hm].
  { rewrite hex_unsigned_foreign; [done|].
    by apply (all_chars_tail literal_char "-"). }
  destruct (Ascii.eqb_spec a "+") as [->|Hp].
  { apply hex_unsigned_foreign. by apply (all_chars_tail literal_char "+"). }
  rewrite <- Hu.
  destruct a as [[] [] [] [] [] [] [] []]; try reflexivity; done.
Qed.

Lemma parse_read_foreign field rest :
  all_chars (λ a, negb (Ascii.eqb a ":")) field = true →
  rest = EmptyString ∨ (∃ r, rest = String ":" r) →
  all_chars literal_char field = false →
  CDCConsole.parse_read ("OK:" +:+ field +:+ rest) = None.
Proof.
  intros Hfield Hrest Hforeign. rewrite parse_read_field by done.
  apply int16_foreign. unfold Py.strip.
  by apply rstrip_by_foreign, lstrip_by_foreign;
    [apply isspace_literal|apply isspace_literal|].
Qed.

Lemma parse_read_format_08x v :
  CDCConsole.parse_read ("OK:" +:+ Py.format_08x v) = Some v.
Proof.
  pose proof (format_08x_chars v) as Hchars.
  rewrite <- (append_nil_r (Py.format_08x v)) at 1.
  rewrite parse_read_field; [|
    eapply all_chars_impl; [|exact Hchars]; intros a [Ha|Ha]%orb_true_iff;
      [by destruct (hex_digit_char_facts a Ha) as (_ & _ & _ & -> & _)
      |by apply Ascii.eqb_eq in Ha as ->]
    |by left].
  unfold Py.strip. rewrite strip_by_none; [apply int16_format_08x|].
  eapply all_chars_impl; [|exact Hchars]. intros a [Ha|Ha]%orb_true_iff.
  - by destruct (hex_digit_char_facts a Ha) as (-> & _).
  - by apply Ascii.eqb_eq in Ha as ->.
Qed.

End ReadParsing.

(** ** The layer query *)

Lemma land_15_range (v : Z) : 0 ≤ Z.land v 15 ≤ 15.
Proof.
  change 15 with (Z.ones 4) at 1 2. rewrite Z.land_ones by lia.
  pose proof (Z.mod_pos_bound v (2 ^ 4)). lia.
Qed.

Lemma read_memory_of_command addr w response w1 :
  CDCConsole.command ("dbg r " +:+ Py.format_08x addr) w = (Ret response, w1) →
  CDCConsole.read_memory addr w = (Ret (CDCConsole.parse_read response), w1).
Proof. intros H. unfold CDCConsole.read_memory, bind. by rewrite H. Qed.

Lemma command_not_open cmd w :
  serial w = None → CDCConsole.command cmd w = (Ret EmptyString, w).
Proof.
  intros Hs. unfold CDCConsole.command, bind, CDCConsole.send. by rewrite Hs.
Qed.

(** C10. Whatever the response to the read of the status word is,
    [read_memory] returns what [parse_read] makes of it, and [get_layer]
    returns -1 exactly when that is no value, and the lowest four bits of
    the value otherwise; so the layer is -1 or lies between 0 and 15.  The
    read yields no value when the transport is not open and when nothing
    was received (the response is empty).  After a read without a value,
    [run_all] returns rather than raises, and every registered test with a
    non-negative [layer_required] is gated: its pass assigns [SKIP] and its
    function is not called.  What the read makes of a response is this: a
    response that does not begin with [OK:] yields no value; one that does
    is read from the text between that colon and the next (or the end),
    stripped, as a base-16 literal, and yields no value when that text is
    no literal, as when it holds a character that is no digit,
    underscore, sign, [x] or white space; and [OK:] followed by the
    rendering of an integer yields that integer, whose lowest four bits
    are the layer. *)
Theorem get_layer_of_response (w w1 : World) (response : string) :
  CDCConsole.command
    ("dbg r " +:+ Py.format_08x CDCConsole.STATUS_WORD) w = (Ret response, w1) →
  ∃ layer,
    CDCConsole.read_memory CDCConsole.STATUS_WORD w
    = (Ret (CDCConsole.parse_read response), w1)
    ∧ CDCConsole.get_layer w = (Ret layer, w1)
    ∧ (layer = -1 ↔ CDCConsole.parse_read response = None)
    ∧ (∀ v, CDCConsole.parse_read response = Some v → layer = Z.land v 15)
    ∧ (layer = -1 ∨ 0 ≤ layer ≤ 15)
    ∧ (serial w = None → CDCConsole.parse_read response = None)
    ∧ (response = EmptyString → CDCConsole.parse_read response = None)
    ∧ (CDCConsole.parse_read response = None →
       ∀ self min_layer, ∃ a w',
         TestRunner.run_all self min_layer w
         = (Ret (TestRunner.t_results a),
            {| TestRunner.tests := TestRunner.tests self;
               TestRunner.results := TestRunner.t_results a |}, w')
         ∧ TestRunner.run_all_tally self min_layer w = (Ret a, w')
         ∧ ∀ i t, TestRunner.tests self !! i = Some t →
                  0 ≤ layer_required t →
                  TestRunner.trace a !! i = Some (TestRunner.Gated i)
                  ∧ ∀ o, TestRunner.Called i o ∉ TestRunner.trace a)
    ∧ (Py.startswith "OK:" response = false →
       CDCConsole.parse_read response = None ∧ layer = -1)
    ∧ (∀ field rest,
         response = "OK:" +:+ field +:+ rest →
         all_chars (λ a, negb (Ascii.eqb a ":")) field = true →
         rest = EmptyString ∨ (∃ r, rest = String ":" r) →
         CDCConsole.parse_read response = Py.int16 (Py.strip field)
         ∧ (all_chars literal_char field = false →
            CDCConsole.parse_read response = None ∧ layer = -1))
    ∧ (∀ v, response = "OK:" +:+ Py.format_08x v →
            CDCConsole.parse_read response = Some v
            ∧ layer = Z.land v 15).
Proof.
  intros Hcmd. pose proof (read_memory_of_command _ _ _ _ Hcmd) as Hread.
  set (layer := match CDCConsole.parse_read response with
                | Some v => Z.land v 15
                | None => -1
                end).
  assert (CDCConsole.get_layer w = (Ret layer, w1)) as Hlayer.
  { unfold CDCConsole.get_layer, bind. by rewrite Hread. }
  exists layer. split_and!; try done.
  - unfold layer. destruct (CDCConsole.parse_read response) as [v|]; [|done].
    pose proof (land_15_range v). split; [lia|done].
  - intros v Hv. unfold layer. by rewrite Hv.
  - unfold layer. destruct (CDCConsole.parse_read response) as [v|]; [|by left].
    right. apply land_15_range.
  - intros Hs. rewrite command_not_open in Hcmd by done.
    by injection Hcmd as <- _.
  - by intros ->.
  - intros Hnone self min_layer.
    assert ((CDCConsole.get_layer w).1 = Ret (-1)) as HL.
    { rewrite Hlayer. unfold layer. by rewrite Hnone. }
    destruct (run_all_unfold self min_layer w (-1) HL)
      as (new & a & w' & _ & Htally & Hall & Htr & Hlen & Hnew & _).
    exists a, w'. split_and!; try done.
    intros i t Hi Hreq. rewrite Htr.
    apply (gated_pass (-1) min_layer (TestRunner.tests self) new i t);
      try done. lia.
  - intros Hnot. split; [by apply parse_read_not_ok|].
    unfold layer. by rewrite parse_read_not_ok.
  - intros field rest Hresponse Hfield Hrest.
    split; [rewrite Hresponse; by apply parse_read_field|].
    intros Hforeign.
    assert (CDCConsole.parse_read response = None) as Hnone
      by (rewrite Hresponse; by apply parse_read_foreign).
    split; [done|]. unfold layer. by rewrite Hnone.
  - intros v Hresponse.
    assert (CDCConsole.parse_read response = Some v) as Hsome
      by (rewrite Hresponse; apply parse_read_format_08x).
    split; [done|]. unfold layer. by rewrite Hsome.
Qed.

Lemma get_layer_of_response_witness :
  ∃ w1,
    CDCConsole.command "dbg r 44a80074" world_layer5 = (Ret "OK:00000005", w1)
    ∧ CDCConsole.get_layer world_layer5 = (Ret 5, w1).
Proof.
  exists (CDCConsole.command "dbg r 44a80074" world_layer5).2.
  assert (CDCConsole.command
            ("dbg r " +:+ Py.format_08x CDCConsole.STATUS_WORD) world_layer5
          = (Ret "OK:00000005",
             (CDCConsole.command "dbg r 44a80074" world_layer5).2)) as Hcmd
    by (vm_compute; reflexivity).
  split; [exact Hcmd|].
  destruct (get_layer_of_response world_layer5 _ "OK:00000005" Hcmd)
    as (layer & _ & Hlayer & _ & Hv & _).
  rewrite Hlayer. by rewrite (Hv 5).
Defined.

(** Responses of a target that reports an error, or garbage: none is read
    as a value. *)
Example unparseable_responses :
  CDCConsole.parse_read "ERR: bad address" = None
  ∧ CDCConsole.parse_read "OK" = None
  ∧ CDCConsole.parse_read "OK:" = None
  ∧ CDCConsole.parse_read "OK:0000000g" = None
  ∧ CDCConsole.parse_read "OK: 1f :rest" = Some 31
  ∧ CDCConsole.parse_read "ok:00000005" = None.
Proof. by vm_compute. Qed.

(** A failed read on the closed transport: the layer is -1 and the whole
    standard suite is gated. *)
Example standard_run_closed :
  CDCConsole.get_layer world_closed = (Ret (-1), world_closed)
  ∧ TestRunner.trace (TestRunner.run_loop (-1) 0 0
        (TestRunner.tests BuiltinTests.standard_runner)
        (TestRunner.start BuiltinTests.standard_runner, world_closed)).1
    = TestRunner.Gated <$> [0; 1; 2; 3; 4; 5; 6]%nat.
Proof. split; vm_compute; reflexivity. Qed.

(** ** Results across runs *)

(** The first run executes the test and records [PASS]; the second run,
    with [min_layer = 3], neither gates nor calls it, and the dictionary it
    returns still holds the [PASS] of the first run. *)
Example two_runs :
  match TestRunner.run_all_tally runner_memory_basic 0 world_two_runs with
  | (Ret a, _) => TestRunner.trace a = [TestRunner.Called 0 (Ret PASS)]
  | _ => False
  end
  ∧ match TestRunner.run_all_tally after_first_run.1 3 after_first_run.2 with
    | (Ret a, _) =>
        TestRunner.trace a = [TestRunner.Filtered 0]
        ∧ TestRunner.t_results a !! "memory_basic" = Some PASS
    | _ => False
    end.
Proof. vm_compute. done. Qed.

(** C5, as stated, fails: the dictionary returned by the second run
    above has an entry that no pass of that run assigned. *)
Lemma results_carried_over : ¬ results_ephemeral.
Proof.
  intros Heph. pose proof two_runs as [_ Hsecond].
  destruct (TestRunner.run_all_tally after_first_run.1 3 after_first_run.2)
    as [[a|e] w'] eqn:Hrun; [|done].
  destruct Hsecond as [Htr Hres].
  destruct (Heph _ _ _ _ _ Hrun "memory_basic") as (p & kv & Hp & Hrec & _).
  { by rewrite Hres. }
  rewrite Htr in Hp. apply list_elem_of_singleton in Hp as ->. done.
Qed.

(** C5, amended.  The dictionary [run_all] returns is the runner's one
    [results] dictionary, which is never cleared: it is the dictionary as
    the earlier runs left it, with the assignments of this run's passes
    applied in order.  So a name that no pass of this run assigns keeps the
    outcome an earlier run recorded (or stays absent), and a name that this
    run assigns holds the outcome of this run's last assignment to it. *)
Theorem run_all_accumulates (self : TestRunner.t) (min_layer : Z)
    (w w' : World) (a : TestRunner.Tally) :
  TestRunner.run_all_tally self min_layer w = (Ret a, w') →
  let assigned := omap (pass_record (TestRunner.tests self))
                       (TestRunner.trace a) in
  TestRunner.run_all self min_layer w
  = (Ret (TestRunner.t_results a),
     {| TestRunner.tests := TestRunner.tests self;
        TestRunner.results := TestRunner.t_results a |}, w')
  ∧ TestRunner.t_results a = foldl assign (TestRunner.results self) assigned
  ∧ (∀ n, Forall (λ kv, kv.1 ≠ n) assigned →
          TestRunner.t_results a !! n = TestRunner.results self !! n)
  ∧ (∀ n o before after,
       assigned = before ++ (n, o) :: after →
       Forall (λ kv, kv.1 ≠ n) after →
       TestRunner.t_results a !! n = Some o).
Proof.
  intros Hrun assigned.
  assert (∃ L, (CDCConsole.get_layer w).1 = Ret L) as [L HL].
  { unfold TestRunner.run_all_tally, bind in Hrun.
    destruct (CDCConsole.get_layer w) as [[L|e] w1]; [by exists L|done]. }
  destruct (run_all_unfold self min_layer w L HL)
    as (new & a0 & w0 & _ & Htally & Hall & Htr & _ & _ & Hres & _).
  rewrite Hrun in Htally. injection Htally as <- <-.
  assert (TestRunner.t_results a
          = foldl assign (TestRunner.results self) assigned) as Heq.
  { unfold assigned. by rewrite Htr. }
  split_and!; try done.
  - intros n Hn. rewrite Heq. by apply foldl_assign_other.
  - intros n o before after Happ Hafter. rewrite Heq, Happ.
    by apply foldl_assign_last.
Qed.

Lemma run_all_accumulates_witness :
  TestRunner.run_all_tally after_first_run.1 3 after_first_run.2
  = (Ret second_run.1, second_run.2)
  ∧ TestRunner.t_results second_run.1 !! "memory_basic"
    = TestRunner.results after_first_run.1 !! "memory_basic".
Proof.
  assert (TestRunner.run_all_tally after_first_run.1 3 after_first_run.2
          = (Ret second_run.1, second_run.2)) as Hrun
    by (vm_compute; reflexivity).
  split; [exact Hrun|].
  destruct (run_all_accumulates _ _ _ _ _ Hrun) as (_ & _ & Hkeep & _).
  apply Hkeep. vm_compute. constructor.
Defined.

(** ** The RTL orchestrator *)

Section Orchestrator.
Import RTLBuilder.

Lemma run_snoc acts a self : run (acts ++ [a]) self = step (run acts self) a.
Proof. unfold run. by rewrite foldl_app. Qed.

Lemma worker_step_frame tid env self :
  length (threads (worker_step tid env self)) = length (threads self)
  ∧ build_thread (worker_step tid env self) = build_thread self.
Proof.
  unfold worker_step.
  destruct (threads self !! tid) as [[]|]; try done;
    repeat case_match; simpl; by rewrite ?length_insert.
Qed.

Lemma run_workers_frame steps self :
  length (threads (run (workers steps) self)) = length (threads self)
  ∧ build_thread (run (workers steps) self) = build_thread self.
Proof.
  induction steps as [|[tid env] steps IH] using rev_ind; [done|].
  unfold workers. rewrite fmap_app. simpl. rewrite run_snoc.
  fold (workers steps). cbn [step].
  destruct (worker_step_frame tid env (run (workers steps) self)) as [-> ->].
  exact IH.
Qed.

Lemma worker_step_progress tid env self p :
  threads self !! tid = Some p →
  ∃ p', threads (worker_step tid env self) !! tid = Some p'
        ∧ (remaining p' ≤ remaining p - 1)%nat.
Proof.
  intros Hp. pose proof (lookup_lt_Some _ _ _ Hp) as Hlt.
  unfold worker_step. rewrite Hp.
  destruct p; repeat case_match; simpl;
    rewrite ?list_lookup_insert_eq by done;
    eexists; (split; [done|]); simpl; lia.
Qed.

Lemma worker_finishes n tid env : ∀ self p,
  threads self !! tid = Some p → (remaining p ≤ n)%nat →
  is_alive tid (run (replicate n (Worker tid env)) self) = false.
Proof.
  induction n as [|n IH]; intros self p Hp Hn.
  - simpl. unfold is_alive. rewrite Hp. destruct p; simpl in *; done || lia.
  - simpl. destruct (worker_step_progress tid env self p Hp) as (p' & Hp' & Hle).
    apply (IH _ p'); [done|lia].
Qed.

Lemma step_status_ok self a :
  status_ok (build_status self) → status_ok (build_status (step self a)).
Proof.
  intros Hok. destruct a as [|tid env|]; simpl.
  - unfold start_build. by case_match.
  - unfold worker_step.
    destruct (threads self !! tid) as [[]|]; try done;
      repeat case_match; simpl; try done;
      try (left; set_solver); right; by eexists.
  - done.
Qed.

End Orchestrator.

(** C4, as stated, fails: once the worker has made its first step the
    status is ["running"], which is none of the seven values. *)
Lemma status_running_not_in_seven :
  ¬ (∀ acts, RTLBuilder.build_status (RTLBuilder.run acts RTLBuilder.init)
             ∈ seven_statuses).
Proof.
  intros Hall.
  specialize (Hall [RTLBuilder.StartBuild;
                    RTLBuilder.Worker 0 RTLBuilder.TimeoutExpired]).
  change (RTLBuilder.build_status _) with "running" in Hall.
  unfold seven_statuses in Hall.
  repeat (apply elem_of_cons in Hall as [Hall|Hall]; [discriminate|]).
  by apply elem_of_nil in Hall.
Qed.

(** C4, amended.  After construction and after any sequence of
    [start_build] calls, worker steps and clears of the event,
    [build_status] is one of
    ["idle"], ["running"], ["success"], ["failed"], ["timeout"], or the
    text ["error: "] followed by the text of the exception. *)
Theorem build_status_values (acts : list RTLBuilder.action) :
  status_ok (RTLBuilder.build_status (RTLBuilder.run acts RTLBuilder.init)).
Proof.
  induction acts as [|a acts IH] using rev_ind.
  - left. set_solver.
  - rewrite run_snoc. by apply step_status_ok.
Qed.

(** Each of these values is taken. *)
Example build_status_taken :
  let status acts :=
    RTLBuilder.build_status (RTLBuilder.run acts RTLBuilder.init) in
  let w := RTLBuilder.Worker 0 in
  status [] = "idle"
  ∧ status [RTLBuilder.StartBuild; w RTLBuilder.TimeoutExpired] = "running"
  ∧ status [RTLBuilder.StartBuild; w RTLBuilder.TimeoutExpired;
            w RTLBuilder.TimeoutExpired] = "timeout"
  ∧ status [RTLBuilder.StartBuild; w RTLBuilder.TimeoutExpired;
            w (RTLBuilder.Exited 1 (Ret EmptyString))] = "failed"
  ∧ status [RTLBuilder.StartBuild; w RTLBuilder.TimeoutExpired;
            w (RTLBuilder.Failed "No such file")] = "error: No such file"
  ∧ status [RTLBuilder.StartBuild; w RTLBuilder.TimeoutExpired;
            w (RTLBuilder.Exited 0 (Ret "0123456789abcdef"));
            w RTLBuilder.TimeoutExpired] = "success".
Proof. by vm_compute. Qed.

(** C9. Take two calls of [start_build] with only worker steps between
    them, the first of which starts a worker (no build was in flight).  If
    that worker is still alive at the second call, the second call only
    prints the warning: the completion signal, the status, the thread
    handle and the set of workers are as they were, so the two calls have
    started exactly one worker; and whatever the toolchain does, that
    worker reaches the end of [_build_worker] within four steps. *)
Theorem second_start_build_is_noop (self : RTLBuilder.t)
    (steps : list (nat * RTLBuilder.toolchain)) :
  let tid := length (RTLBuilder.threads self) in
  let later := RTLBuilder.run (workers steps) (RTLBuilder.start_build self) in
  RTLBuilder.is_building self = false →
  RTLBuilder.is_alive tid later = true →
  RTLBuilder.start_build later
  = RTLBuilder.print "RTL build already in progress" later
  ∧ RTLBuilder.bitstream_ready (RTLBuilder.start_build later)
    = RTLBuilder.bitstream_ready later
  ∧ RTLBuilder.threads (RTLBuilder.start_build later)
    = RTLBuilder.threads later
  ∧ length (RTLBuilder.threads (RTLBuilder.start_build later))
    = S (length (RTLBuilder.threads self))
  ∧ RTLBuilder.build_thread (RTLBuilder.start_build later) = Some tid
  ∧ ∀ env, RTLBuilder.is_alive tid
             (RTLBuilder.run (replicate 4 (RTLBuilder.Worker tid env))
                             (RTLBuilder.start_build later)) = false.
Proof.
  intros tid later Hidle Halive.
  destruct (run_workers_frame steps (RTLBuilder.start_build self))
    as [Hlen Hthread]. fold later in Hlen, Hthread.
  unfold RTLBuilder.start_build in Hlen, Hthread.
  rewrite Hidle in Hlen, Hthread. simpl in Hlen, Hthread.
  rewrite length_app in Hlen. simpl in Hlen.
  assert (RTLBuilder.is_building later = true) as Hbusy.
  { unfold RTLBuilder.is_building. by rewrite Hthread. }
  assert (RTLBuilder.start_build later
          = RTLBuilder.print "RTL build already in progress" later) as Hnoop.
  { unfold RTLBuilder.start_build. by rewrite Hbusy. }
  rewrite Hnoop.
  split; [reflexivity|]. split; [reflexivity|]. split; [reflexivity|].
  split; [cbn [RTLBuilder.print RTLBuilder.threads]; fold tid in Hlen; lia|].
  split; [exact Hthread|].
  intros env. unfold RTLBuilder.is_alive in Halive.
  destruct (RTLBuilder.threads later !! tid) as [p|] eqn:Hp; [|done].
  refine (worker_finishes 4 tid env
            (RTLBuilder.print "RTL build already in progress" later) p Hp _).
  destruct p; simpl; lia.
Qed.

Lemma second_start_build_is_noop_witness :
  let later :=
    RTLBuilder.run [RTLBuilder.Worker 0 RTLBuilder.TimeoutExpired]
                   (RTLBuilder.start_build RTLBuilder.init) in
  RTLBuilder.is_building RTLBuilder.init = false
  ∧ RTLBuilder.is_alive 0 later = true
  ∧ RTLBuilder.start_build later
    = RTLBuilder.print "RTL build already in progress" later
  ∧ length (RTLBuilder.threads (RTLBuilder.start_build later)) = 1%nat.
Proof.
  intros later.
  destruct (second_start_build_is_noop RTLBuilder.init
              [(0%nat, RTLBuilder.TimeoutExpired)])
    as (Hnoop & _ & _ & Hlen & _); [reflexivity|reflexivity|].
  split; [reflexivity|]. split; [reflexivity|]. split; [exact Hnoop|exact Hlen].
Defined.

(** ** Change detection *)

Section ChangeDetection.
Import RtlTools.

Variable sha256_hexdigest : string -> string.
Variable find_dependencies : SourceFile -> list string.

Local Abbreviation module_of :=
  (RtlTools.module_of sha256_hexdigest find_dependencies).
Local Abbreviation scan_files :=
  (RtlTools.scan_files sha256_hexdigest find_dependencies).
Local Abbreviation scan_rtl_modules :=
  (RtlTools.scan_rtl_modules sha256_hexdigest find_dependencies).
Local Abbreviation smart_build :=
  (RtlTools.smart_build sha256_hexdigest find_dependencies).
Local Abbreviation scan_order_independent :=
  (scan_order_independent sha256_hexdigest find_dependencies).

Lemma scan_tracked d : scan_rtl_modules d = scan_files (tracked d) [].
Proof.
  unfold RtlTools.scan_rtl_modules, RtlTools.scan_files, tracked.
  by rewrite foldl_app.
Qed.

Lemma scan_files_snoc files f acc :
  scan_files (files ++ [f]) acc
  = dict_set (file_stem f) (module_of f) (scan_files files acc).
Proof. unfold RtlTools.scan_files. by rewrite foldl_app. Qed.

Lemma dict_set_keys {V} k (v : V) d :
  (dict_set k v d).*1 = d.*1
  ∨ ((k ∉ d.*1) ∧ (dict_set k v d).*1 = (d.*1) ++ [k]).
Proof.
  induction d as [|[k' v'] d IH]; cbn [dict_set].
  - right. split; [apply not_elem_of_nil|done].
  - case_decide as Hk; rewrite !fmap_cons; cbn [fst].
    + left. by subst.
    + destruct IH as [->|[Hnot ->]]; [by left|].
      right. split; [|done]. rewrite not_elem_of_cons. by split.
Qed.

Lemma dict_set_nodup {V} k (v : V) d :
  NoDup d.*1 → NoDup (dict_set k v d).*1.
Proof.
  intros Hd. destruct (dict_set_keys k v d) as [->|[Hnot ->]]; [done|].
  apply NoDup_app. split_and!; [done| |apply NoDup_singleton].
  intros x Hx ->%list_elem_of_singleton. done.
Qed.

(** Assignment to a dictionary: the key gets the value, the other keys
    keep theirs. *)
Lemma elem_of_dict_set {V} k (v : V) d n m :
  NoDup d.*1 →
  (n, m) ∈ dict_set k v d ↔ (n = k ∧ m = v) ∨ (n ≠ k ∧ (n, m) ∈ d).
Proof.
  induction d as [|[k' v'] d IH]; simpl; intros Hd.
  - rewrite list_elem_of_singleton. split.
    + intros [= -> ->]. by left.
    + intros [[-> ->]|[_ H%elem_of_nil]]; done.
  - apply NoDup_cons in Hd as [Hk' Hd]. case_decide as Hk.
    + subst k'. rewrite !elem_of_cons. split.
      * intros [[= -> ->]|Hin]; [by left|]. right. split; [|by right].
        intros ->. apply Hk'. apply list_elem_of_fmap. by exists (k, m).
      * intros [[-> ->]|[Hne [[= -> ->]|Hin]]]; [by left|done|by right].
    + rewrite !elem_of_cons, IH by done. split.
      * intros [[= -> ->]|[[-> ->]|[Hne Hin]]].
        -- right. split; [done|by left].
        -- by left.
        -- right. split; [done|by right].
      * intros [[-> ->]|[Hne [[= -> ->]|Hin]]].
        -- right. by left.
        -- by left.
        -- right. right. by split.
Qed.

Lemma scan_files_nodup files : ∀ acc,
  NoDup acc.*1 → NoDup (scan_files files acc).*1.
Proof.
  induction files as [|f files IH] using rev_ind; intros acc Hacc; [done|].
  rewrite scan_files_snoc. by apply dict_set_nodup, IH.
Qed.

(** A file bears only on the module named by its stem. *)
Lemma scan_files_other l1 f l2 n m :
  n ≠ file_stem f →
  (n, m) ∈ scan_files (l1 ++ f :: l2) [] ↔ (n, m) ∈ scan_files (l1 ++ l2) [].
Proof.
  intros Hn. induction l2 as [|g l2 IH] using rev_ind.
  - rewrite app_nil_r, scan_files_snoc, elem_of_dict_set
      by (apply scan_files_nodup; constructor).
    split; [|by right]. intros [[-> _]|[_ Hin]]; done.
  - rewrite (app_assoc l1 l2 [g]).
    change (l1 ++ f :: l2 ++ [g]) with (l1 ++ (f :: l2) ++ [g]).
    rewrite (app_assoc l1 (f :: l2) [g]).
    rewrite !scan_files_snoc, !elem_of_dict_set
      by (apply scan_files_nodup; constructor).
    by rewrite IH.
Qed.

(** With pairwise distinct stems the scanned map is the set of the
    files' modules. *)
Lemma scan_files_distinct files n m :
  NoDup (file_stem <$> files) →
  (n, m) ∈ scan_files files []
  ↔ ∃ f, f ∈ files ∧ file_stem f = n ∧ m = module_of f.
Proof.
  induction files as [|f files IH] using rev_ind; intros Hnd.
  - split; [by intros ?%elem_of_nil|by intros (f & ?%elem_of_nil & _)].
  - rewrite fmap_app in Hnd. apply NoDup_app in Hnd as (Hnd & Hf & _).
    rewrite scan_files_snoc, elem_of_dict_set
      by (apply scan_files_nodup; constructor).
    rewrite IH by done. split.
    + intros [[-> ->]|[Hne (g & Hg & Hs & Hm)]].
      * exists f. split; [|done]. apply elem_of_app. right. by left.
      * exists g. split; [|done]. apply elem_of_app. by left.
    + intros (g & [Hg|Hg%list_elem_of_singleton]%elem_of_app & Hs & Hm).
      * right. split; [|by exists g]. intros ->.
        apply (Hf (file_stem f)); [|by left].
        apply list_elem_of_fmap. exists g. by rewrite Hs.
      * subst g. by left.
Qed.

(** Membership in the changed list. *)
Lemma elem_of_changed modules cache n :
  n ∈ get_changed_modules modules cache
  ↔ ∃ m, (n, m) ∈ modules
         ∧ (load_cache cache !! n = None
            ∨ ∃ h, load_cache cache !! n = Some h ∧ h ≠ hash m).
Proof.
  unfold get_changed_modules. rewrite list_elem_of_fmap. split.
  - intros ([k m] & -> & Hin). rewrite list_elem_of_In, filter_In in Hin.
    destruct Hin as [Hin Hch]. rewrite <- list_elem_of_In in Hin.
    exists m. split; [done|]. unfold is_changed in Hch. simpl in *.
    destruct (load_cache cache !! k) as [h|]; [|by left].
    right. exists h. split; [done|]. by apply bool_decide_eq_true in Hch.
  - intros (m & Hin & Hch). exists (n, m). split; [done|].
    rewrite list_elem_of_In, filter_In, <- list_elem_of_In.
    split; [done|]. unfold is_changed. simpl.
    destruct Hch as [->|(h & -> & Hne)]; [done|].
    by apply bool_decide_eq_true.
Qed.

(** The changed list is empty exactly when every module of the map has
    its hash in the cache. *)
Lemma changed_nil modules cache :
  get_changed_modules modules cache = []
  ↔ ∀ n m, (n, m) ∈ modules → load_cache cache !! n = Some (hash m).
Proof.
  split.
  - intros Hnil n m Hin.
    assert (n ∉ get_changed_modules modules cache) as Hn
      by (rewrite Hnil; apply not_elem_of_nil).
    rewrite elem_of_changed in Hn.
    destruct (load_cache cache !! n) as [h|] eqn:Hc.
    + destruct (decide (h = hash m)) as [->|Hne]; [done|].
      destruct Hn. exists m. split; [done|]. right. by exists h.
    + destruct Hn. exists m. split; [done|]. by left.
  - intros Hall. apply elem_of_nil_inv. intros n.
    rewrite elem_of_changed. intros (m & Hin & Hch).
    rewrite (Hall n m Hin) in Hch.
    destruct Hch as [?|(h & [= <-] & Hne)]; done.
Qed.

(** Changing the bytes of one tracked file leaves the membership of every
    module but the one named by its stem as it was, in whatever order the
    files are scanned. *)
Lemma changed_confined d d' f f' l1 l2 cache n :
  tracked d = l1 ++ f :: l2 → tracked d' = l1 ++ f' :: l2 →
  file_stem f' = file_stem f → n ≠ file_stem f →
  n ∈ get_changed_modules (scan_rtl_modules d') cache
  ↔ n ∈ get_changed_modules (scan_rtl_modules d) cache.
Proof.
  intros Hd Hd' Hstem Hn.
  rewrite !elem_of_changed, !scan_tracked, Hd, Hd'.
  apply exist_proper. intros m.
  rewrite (scan_files_other l1 f l2) by done.
  rewrite (scan_files_other l1 f' l2) by (by rewrite Hstem).
  done.
Qed.

(** With pairwise distinct stems the membership does not depend on the
    order in which the files are scanned. *)
Lemma changed_any_order d1 d2 cache n :
  NoDup (file_stem <$> tracked d1) → tracked d1 ≡ₚ tracked d2 →
  n ∈ get_changed_modules (scan_rtl_modules d1) cache
  ↔ n ∈ get_changed_modules (scan_rtl_modules d2) cache.
Proof.
  intros Hnd Hperm.
  assert (NoDup (file_stem <$> tracked d2)) as Hnd2 by (by rewrite <- Hperm).
  rewrite !elem_of_changed, !scan_tracked.
  apply exist_proper. intros m.
  rewrite !scan_files_distinct by done.
  by setoid_rewrite Hperm.
Qed.

(** Two files with one stem and different hashes: the file scanned last
    names the module, so the result depends on the order. *)
Lemma scan_order_matters (a b : SourceFile) :
  file_stem a = file_stem b →
  get_module_hash sha256_hexdigest a ≠ get_module_hash sha256_hexdigest b →
  ¬ scan_order_independent.
Proof.
  intros Hstem Hhash Hind.
  set (d1 := {| v_files := [a; b]; sv_files := []; cache_file := None;
                written := [] |}).
  set (d2 := {| v_files := [b; a]; sv_files := []; cache_file := None;
                written := [] |}).
  set (cache := Some ({[ file_stem a := get_module_hash sha256_hexdigest a ]}
                      : gmap string string)).
  destruct (Hind d1 d2 cache (file_stem a)) as [Hto _].
  { split; [apply Permutation_swap|done]. }
  assert (scan_rtl_modules d1 = [(file_stem a, module_of b)]) as Hs1.
  { unfold RtlTools.scan_rtl_modules, RtlTools.scan_files. simpl.
    rewrite Hstem. by rewrite decide_True. }
  assert (scan_rtl_modules d2 = [(file_stem a, module_of a)]) as Hs2.
  { unfold RtlTools.scan_rtl_modules, RtlTools.scan_files. simpl.
    rewrite Hstem. by rewrite decide_True. }
  rewrite Hs1, Hs2, !elem_of_changed in Hto.
  destruct Hto as (m & Hin & Hch).
  - exists (module_of b). split; [by apply list_elem_of_singleton|].
    right. exists (get_module_hash sha256_hexdigest a).
    split; [apply lookup_singleton_eq|done].
  - apply list_elem_of_singleton in Hin. injection Hin as ->.
    unfold cache in Hch. simpl in Hch.
    rewrite lookup_singleton_eq in Hch.
    destruct Hch as [?|(h & [= <-] & Hne)]; done.
Qed.

(** The file scanned last among those of its stem names the module. *)
Lemma scan_files_last l1 f l2 m :
  file_stem f ∉ file_stem <$> l2 →
  (file_stem f, m) ∈ scan_files (l1 ++ f :: l2) [] ↔ m = module_of f.
Proof.
  induction l2 as [|g l2 IH] using rev_ind; intros Hnot.
  - rewrite scan_files_snoc.
    rewrite elem_of_dict_set by (by apply scan_files_nodup, NoDup_nil).
    split; [by intros [[_ ->]|[Hne _]]|intros ->; by left].
  - rewrite fmap_app in Hnot. apply not_elem_of_app in Hnot as [Hnot Hg].
    assert (file_stem f ≠ file_stem g) as Hfg.
    { intros Heq. apply Hg. rewrite Heq. by apply list_elem_of_singleton. }
    replace (l1 ++ f :: l2 ++ [g]) with ((l1 ++ f :: l2) ++ [g])
      by (by rewrite <- app_assoc).
    rewrite scan_files_snoc.
    rewrite elem_of_dict_set by (by apply scan_files_nodup, NoDup_nil).
    rewrite (IH Hnot).
    split; [by intros [[? _]|[_ ?]]|intros ->; by right].
Qed.

(** A file that is the last of its stem is reported exactly when the
    cache does not hold its hash under its stem. *)
Lemma changed_detects d l1 f l2 cache :
  tracked d = l1 ++ f :: l2 → file_stem f ∉ file_stem <$> l2 →
  file_stem f ∈ get_changed_modules (scan_rtl_modules d) cache
  ↔ load_cache cache !! file_stem f
    ≠ Some (get_module_hash sha256_hexdigest f).
Proof.
  intros Hd Hlast. rewrite elem_of_changed, scan_tracked, Hd. split.
  - intros (m & Hin & Hch). apply scan_files_last in Hin; [|done]. subst m.
    destruct Hch as [Hnone|(h & Hh & Hne)]; [by rewrite Hnone|].
    rewrite Hh. by intros [= ->].
  - intros Hne. exists (module_of f). split; [by apply scan_files_last|].
    destruct (load_cache cache !! file_stem f) as [h|]; [|by left].
    right. exists h. split; [done|]. by intros ->.
Qed.

Lemma changed_detects_distinct d f cache :
  NoDup (file_stem <$> tracked d) → f ∈ tracked d →
  file_stem f ∈ get_changed_modules (scan_rtl_modules d) cache
  ↔ load_cache cache !! file_stem f
    ≠ Some (get_module_hash sha256_hexdigest f).
Proof.
  intros Hnd (l1 & l2 & Hd)%list_elem_of_split.
  apply (changed_detects d l1 f l2); [done|].
  rewrite Hd, fmap_app, fmap_cons in Hnd.
  apply NoDup_app in Hnd as (_ & _ & Hnd). by apply NoDup_cons in Hnd as [? _].
Qed.

(** C3, amended.  For every module map and cache, a name is in the
    changed list exactly when the map has a module of that name that is
    absent from the cache or whose hash differs from the cached one.  So
    the list is empty exactly when every module's hash equals its cached
    hash, and a name that is not in the scan is never reported, whatever
    the cache holds for it.  Changing the bytes of one tracked file can
    change the membership of no module other than the one named by that
    file's stem, in whatever order the files are scanned; and when no two
    tracked files share a stem, membership does not depend on the order of
    the scan.  The module of a tracked file is detected: a file that is
    scanned last among the files of its stem, so every tracked file when
    no two share a stem, has its stem in the changed list exactly when the
    cache does not hold the hash of its bytes under that stem.  So a file
    that is added under a name the cache does not know is reported, and
    when the bytes of such a file change from what the cache recorded, so
    that the hash differs, its module enters the changed list, of which it
    was no member before. *)
Theorem changed_modules_spec :
  (∀ modules cache n,
     n ∈ get_changed_modules modules cache
     ↔ ∃ m, (n, m) ∈ modules
            ∧ (load_cache cache !! n = None
               ∨ ∃ h, load_cache cache !! n = Some h ∧ h ≠ hash m))
  ∧ (∀ modules cache,
       get_changed_modules modules cache = []
       ↔ ∀ n m, (n, m) ∈ modules → load_cache cache !! n = Some (hash m))
  ∧ (∀ (modules : list (string * RTLModule)) cache n,
       n ∉ modules.*1 → n ∉ get_changed_modules modules cache)
  ∧ (∀ d d' f f' l1 l2 cache n,
       tracked d = l1 ++ f :: l2 → tracked d' = l1 ++ f' :: l2 →
       file_stem f' = file_stem f → n ≠ file_stem f →
       n ∈ get_changed_modules (scan_rtl_modules d') cache
       ↔ n ∈ get_changed_modules (scan_rtl_modules d) cache)
  ∧ (∀ d1 d2 cache n,
       NoDup (file_stem <$> tracked d1) → same_files d1 d2 →
       n ∈ get_changed_modules (scan_rtl_modules d1) cache
       ↔ n ∈ get_changed_modules (scan_rtl_modules d2) cache)
  ∧ (∀ d l1 f l2 cache,
       tracked d = l1 ++ f :: l2 → (file_stem f ∉ file_stem <$> l2) →
       file_stem f ∈ get_changed_modules (scan_rtl_modules d) cache
       ↔ load_cache cache !! file_stem f
         ≠ Some (get_module_hash sha256_hexdigest f))
  ∧ (∀ d f cache,
       NoDup (file_stem <$> tracked d) → f ∈ tracked d →
       file_stem f ∈ get_changed_modules (scan_rtl_modules d) cache
       ↔ load_cache cache !! file_stem f
         ≠ Some (get_module_hash sha256_hexdigest f))
  ∧ (∀ d f cache,
       NoDup (file_stem <$> tracked d) → f ∈ tracked d →
       load_cache cache !! file_stem f = None →
       file_stem f ∈ get_changed_modules (scan_rtl_modules d) cache)
  ∧ (∀ d d' f f' l1 l2 cache,
       tracked d = l1 ++ f :: l2 → tracked d' = l1 ++ f' :: l2 →
       file_stem f' = file_stem f → (file_stem f ∉ file_stem <$> l2) →
       load_cache cache !! file_stem f
       = Some (get_module_hash sha256_hexdigest f) →
       get_module_hash sha256_hexdigest f'
       ≠ get_module_hash sha256_hexdigest f →
       (file_stem f ∉ get_changed_modules (scan_rtl_modules d) cache)
       ∧ file_stem f ∈ get_changed_modules (scan_rtl_modules d') cache).
Proof.
  split_and!; cycle 5.
  { apply changed_detects. }
  { apply changed_detects_distinct. }
  { intros d f cache Hnd Hf Hnone.
    apply changed_detects_distinct; [done|done|]. by rewrite Hnone. }
  { intros d d' f f' l1 l2 cache Hd Hd' Hstem Hlast Hcache Hhash. split.
    - rewrite (changed_detects d l1 f l2) by done. by intros [].
    - rewrite <- Hstem. rewrite (changed_detects d' l1 f' l2);
        [|done|by rewrite Hstem].
      rewrite Hstem, Hcache. by intros [= ?]. }
  - apply elem_of_changed.
  - apply changed_nil.
  - intros modules cache n Hn (m & Hin & _)%elem_of_changed. apply Hn.
    apply list_elem_of_fmap. by exists (n, m).
  - apply changed_confined.
  - intros d1 d2 cache n Hnd [Hv Hsv]. apply changed_any_order; [done|].
    unfold tracked. by rewrite Hv, Hsv.
Qed.

(** ** The incremental build *)

(** C8. Whatever the tools do, [smart_build] leaves the sources alone and
    writes at most the TCL script and then the cache.  The cache file is
    written only if the build ran and reported success, and [smart_build]
    then returns [True]; in every other case, in particular when a
    simulation or the build fails or raises, the cache file is not written,
    its content is what it was, and a scan of the same sources gives the
    same changed list. *)
Theorem smart_build_cache (tools : Tools) (d : Disk) :
  ∃ r d' new,
    smart_build tools d = (r, d')
    ∧ v_files d' = v_files d ∧ sv_files d' = sv_files d
    ∧ written d' = written d ++ new
    ∧ (CACHE_FILE ∈ new →
       r = Ret true ∧ (build tools d).1 = Ret true
       ∧ simulate_changed tools
           (get_changed_modules (scan_rtl_modules d) (cache_file d))
         = Ret true)
    ∧ (CACHE_FILE ∉ new → cache_file d' = cache_file d)
    ∧ (r ≠ Ret true →
       (CACHE_FILE ∉ new) ∧ cache_file d' = cache_file d
       ∧ get_changed_modules (scan_rtl_modules d') (cache_file d')
         = get_changed_modules (scan_rtl_modules d) (cache_file d)).
Proof.
  assert (CACHE_FILE ∉ [TCL_FILE]) as Htcl.
  { intros H%list_elem_of_singleton. discriminate. }
  unfold RtlTools.smart_build.
  set (modules := scan_rtl_modules d).
  set (changed := get_changed_modules modules (cache_file d)).
  destruct (length changed =? 0)%nat.
  { exists (Ret true), d, []. rewrite app_nil_r.
    split_and!; try done; by intros ?%elem_of_nil. }
  destruct (simulate_changed tools changed) as [[|]|e] eqn:Hsim; cycle 1.
  { exists (Ret false), d, []. rewrite app_nil_r.
    split_and!; try done; try (by intros ?%elem_of_nil).
    intros _. split; [apply not_elem_of_nil|done]. }
  { exists (Raise e), d, []. rewrite app_nil_r.
    split_and!; try done; try (by intros ?%elem_of_nil).
    intros _. split; [apply not_elem_of_nil|done]. }
  unfold build. destruct (vivado tools) as [returncode|e]; simpl.
  - destruct (returncode =? 0); simpl.
    + exists (Ret true), (save_module_cache modules
        {| v_files := v_files d; sv_files := sv_files d;
           cache_file := cache_file d; written := written d ++ [TCL_FILE] |}),
        [TCL_FILE; CACHE_FILE].
      simpl. rewrite <- app_assoc. split_and!; try done.
      intros Hnot. destruct Hnot. apply elem_of_cons. right. by left.
    + eexists (Ret false), _, [TCL_FILE]. simpl. by split_and!.
  - eexists (Raise e), _, [TCL_FILE]. simpl. by split_and!.
Qed.

End ChangeDetection.

(** With everything built, [rtl/fdd/top.v] is modified.  Whether the
    module [top] is then reported depends on the order in which [rglob]
    yields the two files: the file scanned last names the module. *)
Example scan_two_orders :
  changed_in (checkout [top_fdd_before; top_hdd]) = []
  ∧ changed_in (checkout [top_hdd; top_fdd_before]) = []
  ∧ changed_in (checkout [top_fdd; top_hdd]) = []
  ∧ changed_in (checkout [top_hdd; top_fdd]) = ["top"].
Proof. by vm_compute. Qed.

(** C3, as stated, fails in its last clause: the same files scanned in
    another order give another result. *)
Lemma scan_order_dependence :
  ¬ scan_order_independent sha256_samples (λ _, []).
Proof.
  apply (scan_order_matters sha256_samples (λ _, []) top_fdd top_hdd);
    [reflexivity|discriminate].
Qed.

(** A failing Vivado run after passing simulations: the script is
    written, the cache is not, and the next scan reports the same change. *)
Example smart_build_failed :
  let tools := {| RtlTools.quick_check := λ _, Ret true;
                  RtlTools.vivado := Ret 1 |} in
  let d := checkout [top_fdd] in
  let '(r, d') := RtlTools.smart_build sha256_samples (λ _, []) tools d in
  changed_in d = ["top"]
  ∧ r = Ret false
  ∧ RtlTools.written d' = [RtlTools.TCL_FILE]
  ∧ RtlTools.cache_file d' = RtlTools.cache_file d
  ∧ changed_in d' = ["top"].
Proof. by vm_compute. Qed.

(** The same build with a Vivado run that succeeds: the cache is written
    and the next scan reports nothing. *)
Example smart_build_succeeded :
  let tools := {| RtlTools.quick_check := λ _, Ret true;
                  RtlTools.vivado := Ret 0 |} in
  let d := checkout [top_fdd] in
  let '(r, d') := RtlTools.smart_build sha256_samples (λ _, []) tools d in
  r = Ret true
  ∧ RtlTools.written d' = [RtlTools.TCL_FILE; RtlTools.CACHE_FILE]
  ∧ changed_in d' = [].
Proof. by vm_compute. Qed.

(** * Further properties *)

(** ** The round trip of register values *)

(** X1. A register value rendered with [{:08x}], as [read_memory] and
    [write_memory] render addresses and data, is parsed back to the same
    integer by [int(..., 16)], and a response [OK:] followed by the
    rendering is read by [read_memory] as that integer; negative values
    and values beyond 32 bits included. *)
Theorem render_parse_round_trip (v : Z) :
  Py.int16 (Py.format_08x v) = Some v
  ∧ CDCConsole.parse_read ("OK:" +:+ Py.format_08x v) = Some v.
Proof.
  split; [apply int16_format_08x|].
  pose proof (format_08x_chars v) as Hplain.
  assert (∀ a, hex_digit_char a || Ascii.eqb a "-" = true →
               Py.isspace a = false ∧ Ascii.eqb a ":" = false) as Hchar.
  { intros a [Ha|Ha]%orb_true_iff.
    - by destruct (hex_digit_char_facts a Ha) as (-> & _ & _ & -> & _).
    - apply Ascii.eqb_eq in Ha as ->. done. }
  unfold CDCConsole.parse_read. rewrite startswith_app.
  change ("OK:" +:+ ?t) with (String "O" (String "K" (String ":" t))).
  simpl. rewrite split_none; cycle 1.
  { eapply all_chars_impl; [|exact Hplain]. intros a Ha.
    by destruct (Hchar a Ha) as [_ ->]. }
  simpl. unfold Py.strip.
  rewrite strip_by_none; [apply int16_format_08x|].
  eapply all_chars_impl; [|exact Hplain]. intros a Ha.
  by destruct (Hchar a Ha) as [-> _].
Qed.

(** X2. A value of 32 bits is rendered with exactly eight characters, all
    of them lower-case base-16 digits. *)
Theorem format_08x_width (v : Z) :
  0 ≤ v < 2 ^ 32 →
  String.length (Py.format_08x v) = 8%nat
  ∧ all_chars hex_digit_char (Py.format_08x v) = true.
Proof.
  intros Hv. unfold Py.format_08x.
  destruct (Z.ltb_spec v 0); [lia|].
  replace (Z.abs v) with v by lia.
  pose proof (hex_length_32 v Hv).
  rewrite append_length, zeros_length, all_chars_app, zeros_digits,
    hex_digits_all.
  split; [lia|done].
Qed.

Lemma format_08x_width_witness :
  0 ≤ 0x44A80074 < 2 ^ 32
  ∧ String.length (Py.format_08x 0x44A80074) = 8%nat.
Proof.
  split; [lia|]. apply (format_08x_width 0x44A80074). lia.
Defined.

(** ** The reader thread *)

Section ReaderLines.

Lemma split_nonempty c s : Py.split c s ≠ [].
Proof.
  destruct s as [|a s]; simpl; [done|].
  destruct (Ascii.eqb a c); [done|]. by destruct (Py.split c s).
Qed.

Lemma cut_split c s :
  match PyText.cut c s with
  | None => Py.split c s = [s]
  | Some (line, rest) =>
      Py.split c s = line :: Py.split c rest
      ∧ (String.length rest < String.length s)%nat
  end.
Proof.
  induction s as [|a s IH]; simpl; [done|].
  destruct (Ascii.eqb a c); [split; [done|lia]|].
  destruct (PyText.cut c s) as [[line rest]|].
  - destruct IH as [-> Hlen]. split; [done|lia].
  - by rewrite IH.
Qed.

Lemma split_app c (t d : string) :
  Py.split c (t +:+ d)
  = removelast (Py.split c t)
    ++ Py.split c (List.last (Py.split c t) EmptyString +:+ d).
Proof.
  induction t as [|a t IH]; [done|].
  rewrite append_cons. simpl.
  destruct (Ascii.eqb a c) eqn:E.
  - pose proof (split_nonempty c t).
    destruct (Py.split c t) as [|hd tl] eqn:Ht; [done|].
    rewrite IH. done.
  - rewrite IH. pose proof (split_nonempty c t).
    destruct (Py.split c t) as [|hd [|hd' tl]] eqn:Ht; [done| |].
    + simpl. by rewrite ?E.
    + done.
Qed.


Lemma put_lines_spec fuel : ∀ st,
  (String.length (Reader.buffer st) ≤ fuel)%nat →
  Reader.put_lines fuel st
  = {| Reader.buffer := pending (Reader.buffer st);
       Reader.queue := Reader.queue st ++ received_lines (Reader.buffer st) |}.
Proof.
  induction fuel as [|fuel IH]; intros [buffer queue] Hlen; simpl in *.
  - destruct buffer; [|simpl in Hlen; lia].
    unfold pending, received_lines. simpl. by rewrite app_nil_r.
  - pose proof (cut_split "010" buffer) as Hcut.
    destruct (PyText.cut "010" buffer) as [[line rest]|].
    + destruct Hcut as [Hsplit Hlt]. rewrite IH by (simpl; lia). simpl.
      unfold pending, received_lines. rewrite Hsplit.
      pose proof (split_nonempty "010" rest).
      destruct (Py.split "010" rest) as [|hd tl] eqn:Hr; [done|].
      change (removelast (line :: hd :: tl))
        with (line :: removelast (hd :: tl)).
      change (List.last (line :: hd :: tl) EmptyString)
        with (List.last (hd :: tl) EmptyString).
      f_equal. rewrite fmap_cons.
      cbn [List.filter].
      destruct (decide (Py.strip line = EmptyString)) as [Heq|Hne].
      * rewrite bool_decide_false by (by intros []). done.
      * rewrite bool_decide_true by done. by rewrite <- app_assoc.
    + unfold pending, received_lines. rewrite Hcut. simpl.
      by rewrite app_nil_r.
Qed.

Lemma receive_spec data st :
  Reader.receive data st
  = {| Reader.buffer := pending (Reader.buffer st +:+ data);
       Reader.queue := Reader.queue st
                       ++ received_lines (Reader.buffer st +:+ data) |}.
Proof. unfold Reader.receive. by rewrite put_lines_spec. Qed.

Lemma last_app_nonempty {A} (l1 l2 : list A) d :
  l2 ≠ [] → List.last (l1 ++ l2) d = List.last l2 d.
Proof.
  intros Hne. induction l1 as [|x l1 IH]; [done|].
  simpl. rewrite IH. destruct (l1 ++ l2) eqn:E; [|done].
  apply app_eq_nil in E as [_ ->]. done.
Qed.

Lemma pending_app t d : pending (pending t +:+ d) = pending (t +:+ d).
Proof.
  unfold pending. rewrite (split_app _ t d).
  by rewrite last_app_nonempty by apply split_nonempty.
Qed.

Lemma received_lines_app t d :
  received_lines (t +:+ d)
  = received_lines t ++ received_lines (pending t +:+ d).
Proof.
  unfold received_lines, pending. rewrite (split_app _ t d).
  rewrite removelast_app by apply split_nonempty.
  by rewrite fmap_app, List.filter_app.
Qed.

Lemma concat_snoc chunks d :
  PyText.concat (chunks ++ [d]) = PyText.concat chunks +:+ d.
Proof.
  induction chunks as [|c chunks IH]; simpl.
  - by rewrite append_nil_r.
  - by rewrite IH, append_assoc.
Qed.

Lemma run_spec (chunks : list string) :
  Reader.run chunks
  = {| Reader.buffer := pending (PyText.concat chunks);
       Reader.queue := received_lines (PyText.concat chunks) |}.
Proof.
  induction chunks as [|d chunks IH] using rev_ind; [done|].
  unfold Reader.run in *. rewrite foldl_app. simpl. rewrite IH.
  rewrite receive_spec, concat_snoc. simpl.
  by rewrite pending_app, <- received_lines_app.
Qed.

(** Stripping. *)
Lemma lstrip_by_idem space s :
  Py.lstrip_by space (Py.lstrip_by space s) = Py.lstrip_by space s.
Proof.
  induction s as [|a s IH]; [done|]. simpl.
  destruct (space a) eqn:E; [done|]. simpl. by rewrite E.
Qed.

Lemma rstrip_by_idem space s :
  Py.rstrip_by space (Py.rstrip_by space s) = Py.rstrip_by space s.
Proof.
  induction s as [|a s IH]; [done|]. simpl.
  destruct (Py.rstrip_by space s) as [|b kept] eqn:E.
  - destruct (space a) eqn:Ea; [done|]. simpl. by rewrite Ea.
  - change (Py.rstrip_by space (String a (String b kept)))
      with (match Py.rstrip_by space (String b kept) with
            | EmptyString => if space a then EmptyString
                             else String a EmptyString
            | kept' => String a kept'
            end).
    by rewrite IH.
Qed.

Lemma lstrip_by_rstrip_by space s :
  Py.lstrip_by space (Py.rstrip_by space (Py.lstrip_by space s))
  = Py.rstrip_by space (Py.lstrip_by space s).
Proof.
  induction s as [|a s IH]; [done|]. simpl.
  destruct (space a) eqn:E; [done|].
  simpl. destruct (Py.rstrip_by space s); rewrite ?E; simpl; by rewrite E.
Qed.

Lemma strip_idem s : Py.strip (Py.strip s) = Py.strip s.
Proof.
  unfold Py.strip. by rewrite lstrip_by_rstrip_by, rstrip_by_idem.
Qed.

Lemma lstrip_by_all space test s :
  all_chars test s = true → all_chars test (Py.lstrip_by space s) = true.
Proof.
  induction s as [|a s IH]; [done|]. simpl.
  intros [Ha Hs]%andb_true_iff. destruct (space a); [by apply IH|].
  simpl. by rewrite Ha, Hs.
Qed.

Lemma rstrip_by_all space test s :
  all_chars test s = true → all_chars test (Py.rstrip_by space s) = true.
Proof.
  induction s as [|a s IH]; [done|]. simpl.
  intros [Ha Hs]%andb_true_iff. specialize (IH Hs).
  destruct (Py.rstrip_by space s).
  - destruct (space a); [done|]. simpl. by rewrite Ha.
  - simpl in *. by rewrite Ha, IH.
Qed.

Lemma split_segments c s :
  Forall (λ seg, all_chars (λ a, negb (Ascii.eqb a c)) seg = true)
         (Py.split c s).
Proof.
  induction s as [|a s IH]; simpl; [by repeat constructor|].
  destruct (Ascii.eqb a c) eqn:E; [by constructor|].
  destruct (Py.split c s) as [|hd tl]; [repeat constructor; simpl; by rewrite E|].
  apply Forall_cons in IH as [Hhd Htl]. constructor; [|done].
  simpl. by rewrite E, Hhd.
Qed.

Lemma elem_of_removelast {A} (l : list A) x : x ∈ removelast l → x ∈ l.
Proof.
  induction l as [|y l IH]; [done|]. simpl.
  destruct l as [|z l]; [by intros ?%elem_of_nil|].
  intros [->|Hin]%elem_of_cons; [left|right; by apply IH].
Qed.

Lemma last_elem_of {A} (l : list A) d : l ≠ [] → List.last l d ∈ l.
Proof.
  induction l as [|y l IH]; [done|]. intros _. simpl.
  destruct l as [|z l]; [left|right; by apply IH].
Qed.

End ReaderLines.

(** X3. What the reader thread has queued and what it holds back depend
    only on the text received so far, not on how the reads cut it: after
    any sequence of reads the queue holds the stripped non-empty lines that
    end in a line feed, in order, and the buffer holds the text after the
    last line feed.  Two sequences of reads with the same overall text
    leave the reader in the same state. *)
Theorem reader_lines (chunks : list string) :
  Reader.run chunks
  = {| Reader.buffer := pending (PyText.concat chunks);
       Reader.queue := received_lines (PyText.concat chunks) |}
  ∧ ∀ chunks', PyText.concat chunks' = PyText.concat chunks →
               Reader.run chunks' = Reader.run chunks.
Proof.
  split; [apply run_spec|].
  intros chunks' Heq. by rewrite !run_spec, Heq.
Qed.

(** X4. Every line the reader thread puts on the queue is non-empty, is
    its own stripped form and holds no line feed; and between two reads
    the buffer holds no line feed. *)
Theorem reader_queue_lines (chunks : list string) :
  let no_lf := all_chars (λ a, negb (Ascii.eqb a "010")) in
  (∀ line, line ∈ Reader.queue (Reader.run chunks) →
     line ≠ EmptyString ∧ Py.strip line = line ∧ no_lf line = true)
  ∧ no_lf (Reader.buffer (Reader.run chunks)) = true.
Proof.
  intros no_lf. rewrite run_spec. simpl.
  pose proof (split_segments "010" (PyText.concat chunks)) as Hsegs.
  rewrite Forall_forall in Hsegs. split.
  - intros line Hin. unfold received_lines in Hin.
    apply list_elem_of_In, List.filter_In in Hin as [Hin Hne].
    apply bool_decide_eq_true in Hne.
    apply list_elem_of_In, list_elem_of_fmap in Hin as (seg & -> & Hseg).
    split_and!; [done|apply strip_idem|].
    apply rstrip_by_all, lstrip_by_all, Hsegs.
    by apply elem_of_removelast.
  - apply Hsegs, last_elem_of, split_nonempty.
Qed.

(** ** The status query *)

Section StatusKeys.

Lemma lower_char_space a : Py.isspace (PyText.lower_char a) = Py.isspace a.
Proof. by destruct a as [[] [] [] [] [] [] [] []]. Qed.

Lemma lower_char_idem a :
  PyText.lower_char (PyText.lower_char a) = PyText.lower_char a.
Proof. by destruct a as [[] [] [] [] [] [] [] []]. Qed.

Lemma lower_char_colon a :
  Ascii.eqb (PyText.lower_char a) ":" = Ascii.eqb a ":".
Proof. by destruct a as [[] [] [] [] [] [] [] []]. Qed.

Lemma lower_idem s : PyText.lower (PyText.lower s) = PyText.lower s.
Proof.
  induction s as [|a s IH]; [done|]. simpl. by rewrite lower_char_idem, IH.
Qed.

Lemma lower_lstrip s :
  Py.lstrip_by Py.isspace (PyText.lower s)
  = PyText.lower (Py.lstrip_by Py.isspace s).
Proof.
  induction s as [|a s IH]; [done|]. simpl. rewrite lower_char_space.
  by destruct (Py.isspace a).
Qed.

Lemma lower_rstrip s :
  Py.rstrip_by Py.isspace (PyText.lower s)
  = PyText.lower (Py.rstrip_by Py.isspace s).
Proof.
  induction s as [|a s IH]; [done|]. simpl. rewrite lower_char_space, IH.
  destruct (Py.rstrip_by Py.isspace s); simpl; [|done].
  by destruct (Py.isspace a).
Qed.

Lemma lower_strip s : Py.strip (PyText.lower s) = PyText.lower (Py.strip s).
Proof. unfold Py.strip. by rewrite lower_lstrip, lower_rstrip. Qed.

Lemma lower_colon s :
  all_chars (λ a, negb (Ascii.eqb a ":")) (PyText.lower s)
  = all_chars (λ a, negb (Ascii.eqb a ":")) s.
Proof.
  induction s as [|a s IH]; [done|]. simpl. by rewrite lower_char_colon, IH.
Qed.

Lemma cut_before c s key value :
  PyText.cut c s = Some (key, value) →
  all_chars (λ a, negb (Ascii.eqb a c)) key = true.
Proof.
  revert key value. induction s as [|a s IH]; intros key value; simpl; [done|].
  destruct (Ascii.eqb a c) eqn:E; [by intros [= <- <-]|].
  destruct (PyText.cut c s) as [[before after]|]; [|done].
  intros [= <- <-]. simpl. by rewrite E, (IH before after).
Qed.

Lemma status_line_forall (P : string → string → Prop) status line :
  (∀ key value, PyText.cut ":" line = Some (key, value) →
                P (PyText.lower (Py.strip key)) (Py.strip value)) →
  map_Forall P status → map_Forall P (ConsoleOps.status_line status line).
Proof.
  intros Hline Hstatus. unfold ConsoleOps.status_line.
  destruct (PyText.cut ":" line) as [[key value]|]; [|done].
  apply map_Forall_insert_2; [by apply Hline|done].
Qed.

Lemma status_lines_forall (P : string → string → Prop) lines : ∀ status,
  (∀ line key value, PyText.cut ":" line = Some (key, value) →
                     P (PyText.lower (Py.strip key)) (Py.strip value)) →
  map_Forall P status → map_Forall P (foldl ConsoleOps.status_line status lines).
Proof.
  induction lines as [|line lines IH]; intros status Hline Hstatus; [done|].
  simpl. apply IH; [done|]. apply status_line_forall; [apply Hline|done].
Qed.

Lemma status_line_insert status line key value :
  (λ kv, (PyText.lower (Py.strip kv.1), Py.strip kv.2)) <$> PyText.cut ":" line
  = Some (key, value) →
  ConsoleOps.status_line status line = <[key := value]> status.
Proof.
  unfold ConsoleOps.status_line.
  destruct (PyText.cut ":" line) as [[k v]|]; [|done]. by intros [= <- <-].
Qed.

Lemma status_line_skip status line :
  PyText.cut ":" line = None → ConsoleOps.status_line status line = status.
Proof. unfold ConsoleOps.status_line. by intros ->. Qed.

End StatusKeys.

(** X5. Every key of the dictionary [get_status] returns is in lower
    case, carries no white space at either end and holds no colon, and
    every value carries no white space at either end, whatever the target
    answers. *)
Theorem get_status_normalised (w w' : World) (status : gmap string string) :
  ConsoleOps.get_status w = (Ret status, w') →
  ∀ key value, status !! key = Some value →
    PyText.lower key = key ∧ Py.strip key = key
    ∧ all_chars (λ a, negb (Ascii.eqb a ":")) key = true
    ∧ Py.strip value = value.
Proof.
  unfold ConsoleOps.get_status, bind, ret.
  destruct (CDCConsole.command "dbg status" w) as [[response|e] w1]; [|done].
  intros [= <- <-] key value Hkey. revert key value Hkey.
  apply (status_lines_forall
           (λ key value, PyText.lower key = key ∧ Py.strip key = key
              ∧ all_chars (λ a, negb (Ascii.eqb a ":")) key = true
              ∧ Py.strip value = value));
    [|apply map_Forall_empty].
  intros line key value Hcut. split_and!.
  - apply lower_idem.
  - by rewrite lower_strip, strip_idem.
  - rewrite lower_colon. unfold Py.strip.
    by apply rstrip_by_all, lstrip_by_all, (cut_before _ line key value).
  - apply strip_idem.
Qed.

Lemma get_status_normalised_witness :
  ∃ status w',
    ConsoleOps.get_status world_status = (Ret status, w')
    ∧ status !! "pll lock" = Some "OK: all"
    ∧ PyText.lower "pll lock" = "pll lock".
Proof.
  set (lines := ["Layer: 5"; "PLL Lock : OK: all"; "uptime"]).
  set (status := <["pll lock" := "OK: all"]> (<["layer" := "5"]> ∅)
                 : gmap string string).
  assert (∃ w', CDCConsole.command "dbg status" world_status
                = (Ret (Py.join Py.LF lines), w')) as [w' Hcmd]
    by (eexists; vm_compute; reflexivity).
  assert (ConsoleOps.get_status world_status = (Ret status, w')) as Hrun.
  { unfold ConsoleOps.get_status, bind, ret. rewrite Hcmd.
    replace (Py.split "010" (Py.join Py.LF lines)) with lines
      by (vm_compute; reflexivity).
    unfold lines. cbn [foldl].
    rewrite (status_line_insert _ "Layer: 5" "layer" "5") by reflexivity.
    rewrite (status_line_insert _ "PLL Lock : OK: all" "pll lock" "OK: all")
      by reflexivity.
    by rewrite status_line_skip by reflexivity. }
  assert (status !! "pll lock" = Some "OK: all") as Hkey
    by apply lookup_insert_eq.
  exists status, w'. split_and!; [done..|].
  by destruct (get_status_normalised world_status w' status Hrun
                 "pll lock" "OK: all" Hkey) as [? _].
Defined.

(** ** The exchange in time *)

Section Exchange.
Import CDCConsole.

(** Whatever the fuel, the loop ends less than one poll after the
    deadline, and the lines it takes were put on the queue before that. *)
Lemma collect_window fuel deadline : ∀ responses w,
  clock w < deadline + 100 →
  ∃ taken rest w',
    collect fuel deadline responses w = (responses ++ taken.*2, w')
    ∧ clock w' < deadline + 100
    ∧ response_queue w = taken ++ rest
    ∧ Forall (λ x, x.1 < deadline + 100) taken.
Proof.
  induction fuel as [|fuel IH]; intros responses w Hclock; simpl.
  { exists [], (response_queue w), w. by rewrite app_nil_r. }
  destruct (Z.ltb_spec (clock w) deadline) as [Hlt|Hge]; cycle 1.
  { exists [], (response_queue w), w. by rewrite app_nil_r. }
  destruct (queue_get 100 w) as [[line|] w1] eqn:Hget.
  - apply queue_get_some in Hget as (a & Hq & Hc & Hmax & Ha & Hs & Hl).
    destruct (is_prompt line).
    + exists [], (response_queue w), w1. rewrite app_nil_r.
      split_and!; [done|lia|done|constructor].
    + destruct (IH (responses ++ [line]) w1)
        as (taken & rest & w' & -> & Hc' & Hq' & Hall); [lia|].
      exists ((a, line) :: taken), rest, w'. rewrite <- app_assoc. simpl.
      split_and!; [done|done|by rewrite Hq, Hq'|].
      constructor; [simpl; lia|done].
  - apply queue_get_none in Hget as [-> _].
    destruct (IH responses (set_clock (clock w + 100) w))
      as (taken & rest & w' & -> & Hc' & Hq' & Hall); [simpl; lia|].
    by exists taken, rest, w'.
Qed.

Lemma drain_split now q :
  ∃ stale, q = stale ++ drain now q ∧ Forall (λ x, x.1 ≤ now) stale.
Proof.
  induction q as [|[a line] q IH]; simpl.
  - by exists [].
  - destruct (Z.leb_spec a now).
    + destruct IH as (stale & Hq & Hstale). exists ((a, line) :: stale).
      split; [simpl; by rewrite <- Hq|by constructor].
    + by exists [].
Qed.

Lemma arrival_order_tail x q :
  in_arrival_order (x :: q) → in_arrival_order q.
Proof. intros H i j y z Hij Hi Hj. by apply (H (S i) (S j) y z); [lia|..]. Qed.

Lemma drain_fresh now q :
  in_arrival_order q → Forall (λ x, now < x.1) (drain now q).
Proof.
  induction q as [|[a line] q IH]; intros Hq; simpl; [constructor|].
  destruct (Z.leb_spec a now); [by eapply IH, arrival_order_tail|].
  apply Forall_lookup. intros i x Hi. destruct i as [|i].
  - injection Hi as <-. done.
  - specialize (Hq 0%nat (S i) (a, line) x). simpl in Hq.
    specialize (Hq ltac:(lia) eq_refl Hi). lia.
Qed.

Lemma send_open cmd w port :
  serial w = Some port → tx_ok port = true →
  ∃ taken rest w',
    send cmd w = (Ret taken.*2, w')
    ∧ serial w' = serial w
    ∧ log w' = log w ++ [SerialWrite (cmd +:+ Py.CRLF); SerialFlush]
    ∧ clock w ≤ clock w' < clock w + 2100
    ∧ drain (clock w) (response_queue w) = taken ++ rest
    ∧ Forall (λ x, x.1 < clock w + 2100) taken.
Proof.
  intros Hs Hok. unfold send. rewrite Hs, Hok.
  set (w2 := emit _ _). set (deadline := clock w2 + 2000).
  destruct (collect_shape (S (passes deadline w2)) deadline [] w2)
    as (taken' & w'' & Hrun' & Hs' & Hl' & Hc' & _); [lia|].
  destruct (collect_window (S (passes deadline w2)) deadline [] w2)
    as (taken & rest & w' & Hrun & Hc & Hq & Hall); [unfold deadline; lia|].
  rewrite Hrun in Hrun'. injection Hrun' as _ <-.
  rewrite Hrun. exists taken, rest, w'.
  unfold deadline in Hc, Hall.
  change (clock w2) with (clock w) in Hc, Hc', Hall.
  split_and!; [done|rewrite Hs'; exact Hs|exact Hl'|lia|lia|exact Hq|].
  eapply Forall_impl; [exact Hall|]. intros x Hx. simpl in Hx. simpl. lia.
Qed.

Lemma send_tx_failure cmd w port :
  serial w = Some port → tx_ok port = false →
  send cmd w
  = (Raise "SerialException",
     set_response_queue (drain (clock w) (response_queue w)) w).
Proof. intros Hs Hok. unfold send. by rewrite Hs, Hok. Qed.

Lemma command_tx_failure cmd w port :
  serial w = Some port → tx_ok port = false →
  command cmd w
  = (Raise "SerialException",
     set_response_queue (drain (clock w) (response_queue w)) w).
Proof.
  intros Hs Hok. unfold command, bind. by rewrite (send_tx_failure _ _ port).
Qed.

End Exchange.

(** X6. With the transport not open, no method of the console writes to
    the transport, takes a line off the queue or lets time pass: each
    returns its failure value at once and leaves the world as it was.
    [command] gives the empty text, [read_memory] and [probe] give no
    value, [get_status] gives the empty dictionary, the CPU controls and
    [write_memory] give [False], [trace_stop] gives no entry, and
    [write_block] gives [False] after its first word; only for empty data
    does [write_block] give [True]. *)
Theorem closed_transport_calls (w : World) :
  serial w = None →
  (∀ cmd, CDCConsole.command cmd w = (Ret EmptyString, w))
  ∧ (∀ addr, CDCConsole.read_memory addr w = (Ret None, w))
  ∧ (∀ group, BuiltinTests.probe group w = (Ret None, w))
  ∧ ConsoleOps.get_status w = (Ret ∅, w)
  ∧ ConsoleOps.cpu_halt w = (Ret false, w)
  ∧ ConsoleOps.cpu_run w = (Ret false, w)
  ∧ ConsoleOps.cpu_reset w = (Ret false, w)
  ∧ ConsoleOps.trace_start w = (Ret tt, w)
  ∧ BuiltinTests.trace_stop w = (Ret [], w)
  ∧ (∀ addr data,
       CDCConsole.write_memory addr data w
       = (Ret false, emit [WordWrite addr data (Ret false)] w))
  ∧ (∀ addr data,
       (CDCConsole.write_block addr data w).1 = Ret (bool_decide (data = []))
       ∧ sent (log (CDCConsole.write_block addr data w).2) = sent (log w)
       ∧ clock (CDCConsole.write_block addr data w).2 = clock w
       ∧ response_queue (CDCConsole.write_block addr data w).2
         = response_queue w
       ∧ length (word_writes (log (CDCConsole.write_block addr data w).2))
         = (length (word_writes (log w))
            + if bool_decide (data = []) then 0 else 1)%nat).
Proof.
  intros Hs.
  assert (∀ cmd, CDCConsole.command cmd w = (Ret EmptyString, w)) as Hcmd
    by (intros; by apply command_not_open).
  assert (∀ addr data,
            CDCConsole.write_memory addr data w
            = (Ret false, emit [WordWrite addr data (Ret false)] w)) as Hwrite.
  { intros. unfold CDCConsole.write_memory, bind. by rewrite Hcmd. }
  split_and!; try done.
  - intros. unfold CDCConsole.read_memory, bind. by rewrite Hcmd.
  - intros. unfold BuiltinTests.probe, bind. by rewrite Hcmd.
  - unfold ConsoleOps.get_status, bind. by rewrite Hcmd.
  - unfold ConsoleOps.cpu_halt, bind. by rewrite Hcmd.
  - unfold ConsoleOps.cpu_run, bind. by rewrite Hcmd.
  - unfold ConsoleOps.cpu_reset, bind. by rewrite Hcmd.
  - unfold ConsoleOps.trace_start, bind. by rewrite Hcmd.
  - unfold BuiltinTests.trace_stop, bind. rewrite Hcmd.
    unfold CDCConsole.send. by rewrite Hs.
  - intros addr data. unfold CDCConsole.write_block.
    rewrite words_of_le_words. unfold le_words.
    destruct data as [|b data].
    + done.
    + rewrite bool_decide_false by done.
      replace (Nat.div (length (b :: data) + 3) 4)
        with (S (Nat.div (length data) 4)); cycle 1.
      { simpl length.
        replace (S (length data) + 3)%nat with (length data + 1 * 4)%nat by lia.
        rewrite Nat.div_add by lia. lia. }
      cbn [seq fmap list_fmap CDCConsole.write_words]. unfold bind.
      rewrite Hwrite. simpl.
      unfold sent, word_writes. rewrite !omap_app. simpl.
      rewrite app_nil_r, length_app. simpl. done.
Qed.

Lemma closed_transport_calls_witness :
  serial world_closed = None
  ∧ CDCConsole.read_memory 1151860852 world_closed = (Ret None, world_closed).
Proof.
  split; [reflexivity|].
  by destruct (closed_transport_calls world_closed eq_refl) as (_ & H & _).
Defined.

(** X7. On an open transport [send] writes the command followed by CR LF,
    flushes, and returns within 2.1 s: the two seconds of the timeout and
    at most one poll of the queue.  When the write raises, the exception
    escapes [send]; nothing is written and no time passes, but the lines
    that were waiting on the queue are gone. *)
Theorem send_exchange (cmd : string) (w : World) (port : SerialPort) :
  serial w = Some port →
  ∃ r w',
    CDCConsole.send cmd w = (r, w') ∧ serial w' = serial w
    ∧ (tx_ok port = true →
         (∃ lines, r = Ret lines)
         ∧ log w' = log w ++ [SerialWrite (cmd +:+ Py.CRLF); SerialFlush]
         ∧ clock w ≤ clock w' < clock w + 2100)
    ∧ (tx_ok port = false →
         r = Raise "SerialException" ∧ log w' = log w ∧ clock w' = clock w
         ∧ response_queue w'
           = CDCConsole.drain (clock w) (response_queue w)).
Proof.
  intros Hs. destruct (tx_ok port) eqn:Hok.
  - destruct (send_open cmd w port Hs Hok)
      as (taken & rest & w' & Hrun & Hs' & Hl & Hc & _).
    exists (Ret taken.*2), w'. split_and!; try done.
    intros _. split_and!; try done; try lia. by eexists.
  - rewrite (send_tx_failure cmd w port Hs Hok).
    eexists _, _. split_and!; try done.
Qed.

Lemma send_exchange_witness :
  serial world_layer5 = Some port_up
  ∧ ∃ r w', CDCConsole.send "dbg status" world_layer5 = (r, w')
            ∧ clock w' < clock world_layer5 + 2100.
Proof.
  split; [reflexivity|].
  destruct (send_exchange "dbg status" world_layer5 port_up eq_refl)
    as (r & w' & Hrun & _ & Hup & _).
  exists r, w'. split; [done|].
  destruct (Hup eq_refl) as (_ & _ & Hclock). lia.
Defined.

(** X8. When the queue holds its lines in the order of their arrival,
    every line [send] returns was put on the queue after the call began
    and less than 2.1 s later: the lines that were waiting before the call
    are discarded, never returned.  The returned lines are consecutive
    lines of the queue. *)
Theorem send_fresh_lines (cmd : string) (w w' : World) (port : SerialPort)
    (lines : list string) :
  serial w = Some port →
  in_arrival_order (response_queue w) →
  CDCConsole.send cmd w = (Ret lines, w') →
  ∃ stale taken rest,
    response_queue w = stale ++ taken ++ rest
    ∧ lines = taken.*2
    ∧ Forall (λ x, x.1 ≤ clock w) stale
    ∧ Forall (λ x, clock w < x.1 < clock w + 2100) taken.
Proof.
  intros Hs Horder Hrun. destruct (tx_ok port) eqn:Hok; cycle 1.
  { by rewrite (send_tx_failure cmd w port Hs Hok) in Hrun. }
  destruct (send_open cmd w port Hs Hok)
    as (taken & rest & w1 & Hrun1 & _ & _ & _ & Hq & Hlate).
  rewrite Hrun in Hrun1. injection Hrun1 as -> ->.
  destruct (drain_split (clock w) (response_queue w)) as (stale & Hsplit & Hstale).
  exists stale, taken, rest. split_and!; [by rewrite <- Hq|done|done|].
  pose proof (drain_fresh (clock w) _ Horder) as Hfresh.
  rewrite Hq in Hfresh. apply Forall_app in Hfresh as [Hfresh _].
  rewrite Forall_forall in Hfresh, Hlate. apply Forall_forall.
  intros x Hx. split; [by apply Hfresh|by apply Hlate].
Qed.

Lemma send_fresh_lines_witness :
  serial world_layer5 = Some port_up
  ∧ in_arrival_order (response_queue world_layer5)
  ∧ ∃ w', CDCConsole.send "dbg r 44a80074" world_layer5
          = (Ret ["OK:00000005"], w')
          ∧ ∃ stale taken rest,
              response_queue world_layer5 = stale ++ taken ++ rest
              ∧ ["OK:00000005"] = taken.*2
              ∧ Forall (λ x, x.1 ≤ clock world_layer5) stale.
Proof.
  assert (in_arrival_order (response_queue world_layer5)) as Horder.
  { intros i j x y Hij Hi Hj.
    destruct i as [|[|[|i]]]; destruct j as [|[|[|j]]];
      simpl in *; simplify_eq; simpl; lia. }
  split; [reflexivity|]. split; [exact Horder|].
  eexists. split; [vm_compute; reflexivity|].
  destruct (send_fresh_lines "dbg r 44a80074" world_layer5 _ port_up
              ["OK:00000005"] eq_refl Horder eq_refl)
    as (stale & taken & rest & Hq & Hl & Hstale & _).
  by exists stale, taken, rest.
Defined.

(** ** Deployment of the firmware *)

Section Deploy.
Import CDCConsole.

Lemma sent_app l1 l2 : sent (l1 ++ l2) = sent l1 ++ sent l2.
Proof. apply omap_app. Qed.

Lemma send_sent cmd w :
  ∃ r w' new,
    send cmd w = (r, w')
    ∧ sent (log w') = sent (log w) ++ new
    ∧ clock w ≤ clock w'
    ∧ (new = [] ∨ new = [cmd +:+ Py.CRLF])
    ∧ (∀ lines, r = Ret lines → lines ≠ [] → new = [cmd +:+ Py.CRLF]).
Proof.
  destruct (serial w) as [port|] eqn:Hs.
  - destruct (tx_ok port) eqn:Hok.
    + destruct (send_open cmd w port Hs Hok)
        as (taken & rest & w' & -> & _ & Hl & Hc & _).
      exists (Ret taken.*2), w', [cmd +:+ Py.CRLF]. rewrite Hl, sent_app.
      split_and!; [done|done|lia|by right|done].
    + rewrite (send_tx_failure cmd w port Hs Hok).
      eexists _, _, []. simpl. rewrite app_nil_r.
      split_and!; [done|done|simpl; lia|by left|done].
  - unfold send. rewrite Hs. exists (Ret []), w, []. rewrite app_nil_r.
    split_and!; [done|done|lia|by left|by intros lines [= <-]].
Qed.

(** The calls that send one command and look for [OK] in the response. *)
Lemma ok_command_sent (m : M bool) cmd w :
  m = (let* response := command cmd in ret (Py.contains "OK" response)) →
  ∃ r w' new,
    m w = (r, w')
    ∧ sent (log w') = sent (log w) ++ new
    ∧ word_writes (log w') = word_writes (log w)
    ∧ clock w ≤ clock w'
    ∧ (new = [] ∨ new = [cmd +:+ Py.CRLF])
    ∧ (r = Ret true → new = [cmd +:+ Py.CRLF]).
Proof.
  intros ->. pose proof (send_word_writes cmd w) as Hww.
  destruct (send_sent cmd w) as (r & w' & new & Hrun & Hsent & Hc & Hnew & Hlines).
  unfold command, bind, ret. rewrite Hrun in *. simpl in Hww.
  destruct r as [lines|e].
  - exists (Ret (Py.contains "OK" (Py.join Py.LF lines))), w', new.
    split_and!; try done.
    intros [= Hok]. apply (Hlines lines eq_refl). by intros ->.
  - exists (Raise e), w', new. by split_and!.
Qed.

Lemma write_command_eq addr data :
  ("dbg w " +:+ Py.format_08x addr +:+ " " +:+ Py.format_08x data) +:+ Py.CRLF
  = write_command (addr, data).
Proof. unfold write_command. simpl. by rewrite <- !append_assoc. Qed.

Lemma write_command_prefix x : Py.startswith "dbg w " (write_command x) = true.
Proof. apply startswith_app. Qed.

Lemma write_memory_sent addr data w :
  ∃ r w' new,
    write_memory addr data w = (r, w')
    ∧ sent (log w') = sent (log w) ++ new
    ∧ clock w ≤ clock w'
    ∧ (new = [] ∨ new = [write_command (addr, data)])
    ∧ (r = Ret true → new = [write_command (addr, data)]).
Proof.
  unfold write_memory.
  set (cmd := "dbg w " +:+ Py.format_08x addr +:+ " " +:+ Py.format_08x data).
  destruct (ok_command_sent
              (let* response := command cmd in ret (Py.contains "OK" response))
              cmd w eq_refl)
    as (r & w1 & new & -> & Hsent & _ & Hc & Hnew & Hok).
  unfold cmd in Hnew, Hok. rewrite write_command_eq in Hnew, Hok.
  eexists r, _, new. split; [done|]. simpl. rewrite sent_app, Hsent. simpl.
  rewrite app_nil_r. by split_and!.
Qed.

Lemma write_words_sent words : ∀ addr i w,
  ∃ r w' cmds,
    write_words addr i words w = (r, w')
    ∧ sent (log w') = sent (log w) ++ cmds
    ∧ clock w ≤ clock w'
    ∧ Forall (λ c, Py.startswith "dbg w " c = true) cmds
    ∧ (r = Ret true →
       cmds = write_command
                <$> imap (λ k word, (addr + Z.of_nat (i + k) * 4, word)) words).
Proof.
  induction words as [|word rest IH]; intros addr i w.
  - exists (Ret true), w, []. simpl. rewrite app_nil_r. by split_and!.
  - simpl. unfold bind.
    destruct (write_memory_sent (addr + Z.of_nat i * 4) word w)
      as (r & w1 & new & -> & Hsent & Hc & Hnew & Hok).
    assert (Forall (λ c, Py.startswith "dbg w " c = true) new) as Hpre.
    { destruct Hnew as [-> | ->]; [constructor|].
      constructor; [apply write_command_prefix|constructor]. }
    destruct r as [[|]|e].
    + destruct (IH addr (S i) w1) as (r & w' & cmds & -> & Hsent' & Hc' & Hall & Hok').
      exists r, w', (new ++ cmds). split; [done|].
      split; [by rewrite Hsent', Hsent, <- app_assoc|].
      split; [lia|]. split; [by apply Forall_app|].
      intros Hr. rewrite (Hok eq_refl), (Hok' Hr). simpl.
      rewrite Nat.add_0_r. do 2 f_equal.
      apply imap_ext. intros k x _. simpl. do 3 f_equal. lia.
    + exists (Ret false), w1, new. by split_and!.
    + exists (Raise e), w1, new. by split_and!.
Qed.

Lemma write_block_sent addr data w :
  ∃ r w' cmds issued,
    write_block addr data w = (r, w')
    ∧ sent (log w') = sent (log w) ++ cmds
    ∧ word_writes (log w') = word_writes (log w) ++ issued
    ∧ clock w ≤ clock w'
    ∧ Forall (λ c, Py.startswith "dbg w " c = true) cmds
    ∧ (r = Ret true →
       cmds = write_command <$> block_writes addr data
       ∧ issued.*1 = block_writes addr data
       ∧ Forall succeeded issued).
Proof.
  unfold write_block. rewrite words_of_le_words.
  destruct (write_words_issued (le_words data) addr 0%nat w)
    as (issued & r & w' & Hrun & Hlog & Hpre & Hr).
  destruct (write_words_sent (le_words data) addr 0%nat w)
    as (r' & w'' & cmds & Hrun' & Hsent & Hc & Hall & Hok).
  rewrite Hrun in Hrun'. injection Hrun' as <- <-.
  assert (imap (λ k word, (addr + Z.of_nat (0 + k) * 4, word)) (le_words data)
          = block_writes addr data) as Himap.
  { unfold block_writes. apply imap_ext. intros k x _. simpl. f_equal. lia. }
  rewrite Himap in Hpre, Hok.
  exists r, w', cmds, issued. split_and!; try done.
  intros ->. destruct Hr as [Hlen Hsucc]. split_and!; [by apply Hok| |done].
  rewrite Hpre. apply take_ge. unfold block_writes. rewrite length_imap. lia.
Qed.

End Deploy.

(** X9. [deploy] releases the CPU only after the whole image is in
    memory.  Whatever the target answers, if [dbg cpu run] goes out on the
    wire during a deployment, then what went out is exactly: the halt, one
    write per 4-byte word of the binary at [0x40000000], [0x40000004], ...
    in order, the reset and the run; every one of these word writes was
    acknowledged; and at least 100 ms passed.  A deployment that returns
    [True] has sent the run.  With no binary or an empty one, [deploy]
    returns [False] and does nothing. *)
Theorem deploy_sequence (binary : option (list Byte.byte)) (w w' : World)
    (r : Res bool) :
  FirmwareBuilder.deploy binary w = (r, w') →
  let halt := "dbg cpu halt" +:+ Py.CRLF in
  let reset := "dbg cpu reset" +:+ Py.CRLF in
  let go := "dbg cpu run" +:+ Py.CRLF in
  ∃ new writes,
    sent (log w') = sent (log w) ++ new
    ∧ word_writes (log w') = word_writes (log w) ++ writes
    ∧ ((binary = None ∨ binary = Some []) → r = Ret false ∧ w' = w)
    ∧ (go ∈ new →
       ∃ data, binary = Some data
         ∧ new = [halt]
                 ++ (write_command <$> block_writes FirmwareBuilder.fw_base data)
                 ++ [reset; go]
         ∧ writes.*1 = block_writes FirmwareBuilder.fw_base data
         ∧ Forall succeeded writes
         ∧ clock w + 100 ≤ clock w')
    ∧ (r = Ret true → go ∈ new).
Proof.
  intros Hrun halt reset go.
  assert (go ≠ halt) as Hgh by (intros H; vm_compute in H; discriminate).
  assert (go ≠ reset) as Hgr by (intros H; vm_compute in H; discriminate).
  assert (∀ cmds, Forall (λ c, Py.startswith "dbg w " c = true) cmds →
                  go ∉ cmds) as Hgw.
  { intros cmds Hall Hin. rewrite Forall_forall in Hall.
    specialize (Hall go Hin). vm_compute in Hall. discriminate. }
  assert (∀ new, new = [] ∨ new = [halt] → go ∉ new) as Hg1.
  { intros new [-> | ->]; [apply not_elem_of_nil|].
    by intros ?%list_elem_of_singleton. }
  assert (∀ new, new = [] ∨ new = [reset] → go ∉ new) as Hg3.
  { intros new [-> | ->]; [apply not_elem_of_nil|].
    by intros ?%list_elem_of_singleton. }
  destruct binary as [[|b data]|].
  1, 3: simpl in Hrun; injection Hrun as <- <-; exists [], [];
    rewrite !app_nil_r;
    (split_and!; [done|done|done|by intros ?%elem_of_nil|done]).
  unfold FirmwareBuilder.deploy, bind in Hrun.
  destruct (ok_command_sent ConsoleOps.cpu_halt "dbg cpu halt" w eq_refl)
    as (r1 & w1 & new1 & Hrun1 & Hs1 & Hw1 & Hc1 & Hn1 & Hok1).
  rewrite Hrun1 in Hrun.
  destruct r1 as [[|]|e1]; cbn [negb] in Hrun; cycle 1.
  { injection Hrun as <- <-. exists new1, []. rewrite app_nil_r.
    split_and!; [done|done|by intros [|]| |done].
    intros Hin. by destruct (Hg1 new1 Hn1). }
  { injection Hrun as <- <-. exists new1, []. rewrite app_nil_r.
    split_and!; [done|done|by intros [|]| |done].
    intros Hin. by destruct (Hg1 new1 Hn1). }
  clear Hn1. specialize (Hok1 eq_refl) as ->.
  destruct (write_block_sent FirmwareBuilder.fw_base (b :: data) w1)
    as (r2 & w2 & cmds & issued & Hrun2 & Hs2 & Hw2 & Hc2 & Hall2 & Hok2).
  rewrite Hrun2 in Hrun.
  assert (sent (log w2) = sent (log w) ++ [halt] ++ cmds) as Hs12
    by (by rewrite Hs2, Hs1, <- app_assoc).
  assert (word_writes (log w2) = word_writes (log w) ++ issued) as Hw12
    by (by rewrite Hw2, Hw1).
  destruct r2 as [[|]|e2]; cbn [negb] in Hrun; cycle 1.
  { injection Hrun as <- <-. exists ([halt] ++ cmds), issued.
    split_and!; [done|done|by intros [|]| |done].
    intros [Hin%list_elem_of_singleton|Hin]%elem_of_app; [done|].
    by destruct (Hgw cmds Hall2). }
  { injection Hrun as <- <-. exists ([halt] ++ cmds), issued.
    split_and!; [done|done|by intros [|]| |done].
    intros [Hin%list_elem_of_singleton|Hin]%elem_of_app; [done|].
    by destruct (Hgw cmds Hall2). }
  destruct (Hok2 eq_refl) as (Hcmds & Hiss & Hsucc).
  destruct (ok_command_sent ConsoleOps.cpu_reset "dbg cpu reset" w2 eq_refl)
    as (r3 & w3 & new3 & Hrun3 & Hs3 & Hw3 & Hc3 & Hn3 & Hok3).
  rewrite Hrun3 in Hrun.
  destruct r3 as [[|]|e3]; cbn [negb] in Hrun; cycle 1.
  { injection Hrun as <- <-. exists (([halt] ++ cmds) ++ new3), issued.
    split_and!; [by rewrite Hs3, Hs12, <- !app_assoc|by rewrite Hw3|
                  by intros [|]| |done].
    intros [[Hin%list_elem_of_singleton|Hin]%elem_of_app|Hin]%elem_of_app;
      [done|by destruct (Hgw cmds Hall2)|by destruct (Hg3 new3 Hn3)]. }
  { injection Hrun as <- <-. exists (([halt] ++ cmds) ++ new3), issued.
    split_and!; [by rewrite Hs3, Hs12, <- !app_assoc|by rewrite Hw3|
                  by intros [|]| |done].
    intros [[Hin%list_elem_of_singleton|Hin]%elem_of_app|Hin]%elem_of_app;
      [done|by destruct (Hgw cmds Hall2)|by destruct (Hg3 new3 Hn3)]. }
  clear Hn3. specialize (Hok3 eq_refl) as ->.
  unfold BuiltinTests.sleep in Hrun.
  destruct (ok_command_sent ConsoleOps.cpu_run "dbg cpu run"
              (set_clock (clock w3 + 100) w3) eq_refl)
    as (r4 & w4 & new4 & Hrun4 & Hs4 & Hw4 & Hc4 & Hn4 & Hok4).
  rewrite Hrun4 in Hrun.
  change (sent (log (set_clock (clock w3 + 100) w3))) with (sent (log w3)) in Hs4.
  change (word_writes (log (set_clock (clock w3 + 100) w3)))
    with (word_writes (log w3)) in Hw4.
  change (clock (set_clock (clock w3 + 100) w3)) with (clock w3 + 100) in Hc4.
  assert (r = match r4 with
              | Ret true => Ret true
              | Ret false => Ret false
              | Raise e => Raise e
              end ∧ w' = w4) as [-> ->].
  { destruct r4 as [[|]|e4]; cbn [negb] in Hrun; by injection Hrun as <- <-. }
  exists (([halt] ++ cmds) ++ [reset] ++ new4), issued.
  split_and!.
  - by rewrite Hs4, Hs3, Hs12, <- !app_assoc.
  - by rewrite Hw4, Hw3.
  - by intros [|].
  - intros Hin. exists (b :: data).
    assert (new4 = [go]) as ->.
    { destruct Hn4 as [-> | ->]; [|done].
      rewrite app_nil_r in Hin.
      apply elem_of_app in Hin as [[Hin%list_elem_of_singleton|Hin]%elem_of_app
                                  |Hin%list_elem_of_singleton];
        [done|by destruct (Hgw cmds Hall2)|done]. }
    split_and!; [done| |done|done|lia].
    by rewrite Hcmds, <- !app_assoc.
  - intros Hr. destruct r4 as [[|]|e4]; [|done..].
    rewrite (Hok4 eq_refl). rewrite !elem_of_app. right. right.
    by apply list_elem_of_singleton.
Qed.

Lemma deploy_sequence_witness :
  ∃ w',
    FirmwareBuilder.deploy (Some [Byte.x01; Byte.x02; Byte.x03; Byte.x04])
                           world_deploy = (Ret true, w')
    ∧ sent (log w')
      = ["dbg cpu halt" +:+ Py.CRLF;
         write_command (1073741824, 67305985);
         "dbg cpu reset" +:+ Py.CRLF; "dbg cpu run" +:+ Py.CRLF].
Proof.
  destruct (FirmwareBuilder.deploy
              (Some [Byte.x01; Byte.x02; Byte.x03; Byte.x04]) world_deploy)
    as [r w'] eqn:Hrun.
  assert (r = Ret true) as ->.
  { change r with (r, w').1. rewrite <- Hrun. vm_compute. reflexivity. }
  exists w'. split; [done|].
  destruct (deploy_sequence _ _ _ _ Hrun)
    as (new & writes & Hsent & _ & _ & Hgo & Hok).
  destruct (Hgo (Hok eq_refl)) as (data & [= <-] & -> & _).
  exact Hsent.
Defined.

(** ** The orchestrator at every moment *)

Section OrchestratorInvariant.
Import RTLBuilder.


Lemma inv_init : orchestrator_inv init.
Proof. split; [intros tid p Hp; simpl in Hp; by rewrite lookup_nil in Hp|done]. Qed.

Lemma is_alive_lookup tid self :
  is_alive tid self = true
  ↔ ∃ p, threads self !! tid = Some p ∧ p ≠ Finished.
Proof.
  unfold is_alive. destruct (threads self !! tid) as [p|]; split.
  - intros H%bool_decide_eq_true. by exists p.
  - intros (p' & [= <-] & Hp). by apply bool_decide_eq_true.
  - done.
  - by intros (p & ? & _).
Qed.

Lemma inv_not_building self :
  orchestrator_inv self → is_building self = false →
  ∀ tid p, threads self !! tid = Some p → p = Finished.
Proof.
  intros [Hone Hstate] Hb tid p Hp.
  destruct (decide (p = Finished)) as [|Hne]; [done|].
  pose proof (Hone tid p Hp Hne) as Hbt.
  unfold is_building, is_alive in Hb. rewrite Hbt, Hp in Hb.
  by apply bool_decide_eq_false in Hb; destruct Hb.
Qed.

Lemma inv_start_build self :
  orchestrator_inv self → orchestrator_inv (start_build self).
Proof.
  intros Hinv. unfold start_build.
  destruct (is_building self) eqn:Hb; [exact Hinv|].
  pose proof (inv_not_building self Hinv Hb) as Hfin.
  split; simpl.
  - intros tid p Hp Hne.
    apply lookup_app_Some in Hp as [Hp|[Hlen Hp]].
    + by destruct Hne; apply (Hfin tid).
    + apply list_lookup_singleton_Some in Hp as [Hz _]. f_equal. lia.
  - exists AtStart. split; [|done].
    rewrite lookup_app_r by lia. by rewrite Nat.sub_diag.
Qed.


Lemma inv_worker_step tid env self :
  orchestrator_inv self → orchestrator_inv (worker_step tid env self).
Proof.
  intros [Hone Hstate]. unfold worker_step.
  destruct (threads self !! tid) as [p|] eqn:Hp; [|by split].
  destruct (decide (p = Finished)) as [->|Hne]; [by split|].
  pose proof (Hone tid p Hp Hne) as Hbt. rewrite Hbt in Hstate.
  destruct Hstate as (p' & Hp' & Hfacts). rewrite Hp in Hp'.
  injection Hp' as <-.
  assert (tid < length (threads self))%nat as Hlt
    by (by eapply lookup_lt_Some).
  assert (∀ q tid' p', <[tid := q]> (threads self) !! tid' = Some p' →
            p' ≠ Finished → Some tid = Some tid') as Hone'.
  { intros q tid' p' Hl Hn. destruct (decide (tid = tid')) as [->|Hd]; [done|].
    rewrite list_lookup_insert_ne in Hl by done.
    rewrite <- Hbt. by apply (Hone tid' p'). }
  assert (∀ q, <[tid := q]> (threads self) !! tid = Some q) as Hnew
    by (intros; by apply list_lookup_insert_eq).
  destruct p; [| | | |done].
  - split; simpl; rewrite Hbt; [apply Hone'|]. by exists InToolchain.
  - destruct Hfacts as [Hready Hstatus].
    destruct env as [returncode [h|e]| |e]; [destruct (returncode =? 0)..| |];
      (split; simpl; rewrite Hbt; [apply Hone'|]).
    + exists AfterHash. by split_and!.
    + exists Finished. split; [done|]. by rewrite Hready.
    + exists Finished. split; [done|]. by rewrite Hready.
    + exists Finished. split; [done|]. by rewrite Hready.
    + exists Finished. split; [done|]. by rewrite Hready.
    + exists Finished. split; [done|]. by rewrite Hready.
  - destruct Hfacts as (Hready & Hstatus & Hhash).
    split; simpl; rewrite Hbt; [apply Hone'|]. by exists AfterStatus.
  - destruct Hfacts as (Hready & Hstatus & Hhash).
    split; simpl; rewrite Hbt; [apply Hone'|]. by exists Finished.
Qed.

Lemma inv_clear_ready self :
  orchestrator_inv self → orchestrator_inv (clear_ready self).
Proof.
  intros [Hone Hstate]. split; [exact Hone|]. simpl.
  destruct (build_thread self) as [tid|].
  - destruct Hstate as (p & Hp & Hfacts). exists p. split; [done|].
    destruct p; simpl; try done; by destruct Hfacts.
  - by destruct Hstate as (? & _ & ?).
Qed.

Lemma inv_step self a :
  orchestrator_inv self → orchestrator_inv (step self a).
Proof.
  destruct a; [apply inv_start_build|apply inv_worker_step
              |apply inv_clear_ready].
Qed.

Lemma inv_run acts : ∀ self,
  orchestrator_inv self → orchestrator_inv (run acts self).
Proof.
  induction acts as [|a acts IH]; intros self Hinv; [done|].
  by apply IH, inv_step.
Qed.




End OrchestratorInvariant.

(** X10. At every moment at most one worker of the orchestrator is alive,
    and it is the one [build_thread] names: whatever the sequence of
    [start_build] calls, worker steps and clears of the event, two workers
    that are alive are the same worker, and when [is_building] is false no
    worker is alive. *)
Theorem one_worker_alive (acts : list RTLBuilder.action) :
  let self := RTLBuilder.run acts RTLBuilder.init in
  (∀ tid, RTLBuilder.is_alive tid self = true →
          RTLBuilder.build_thread self = Some tid)
  ∧ (∀ tid tid', RTLBuilder.is_alive tid self = true →
                 RTLBuilder.is_alive tid' self = true → tid = tid')
  ∧ (RTLBuilder.is_building self = false →
     ∀ tid, RTLBuilder.is_alive tid self = false).
Proof.
  intros self.
  pose proof (inv_run acts _ inv_init) as Hinv. fold self in Hinv.
  assert (∀ tid, RTLBuilder.is_alive tid self = true →
                 RTLBuilder.build_thread self = Some tid) as Halive.
  { intros tid (p & Hp & Hne)%is_alive_lookup.
    by apply (proj1 Hinv tid p). }
  split_and!; [done| |].
  - intros tid tid' H1%Halive H2%Halive. congruence.
  - intros Hb tid. apply not_true_is_false.
    intros (p & Hp & Hne)%is_alive_lookup.
    by destruct Hne; apply (inv_not_building self Hinv Hb tid).
Qed.



(** ** Runs of the tests on a target that does not answer *)

Section DeadTarget.

Lemma get_layer_closed w :
  serial w = None → CDCConsole.get_layer w = (Ret (-1), w).
Proof.
  intros Hs. unfold CDCConsole.get_layer, CDCConsole.read_memory, bind.
  by rewrite command_not_open.
Qed.

Lemma get_layer_tx_failure w port :
  serial w = Some port → tx_ok port = false →
  CDCConsole.get_layer w = (Raise "SerialException", drained w).
Proof.
  intros Hs Hok. unfold CDCConsole.get_layer, CDCConsole.read_memory, bind.
  by rewrite (command_tx_failure _ _ port).
Qed.

(** A loop in which every test is gated assigns [SKIP] to each and calls
    none. *)
Lemma run_loop_all_gated L min_layer todo : ∀ i a w,
  Forall (λ t, L < layer_required t) todo →
  ∃ a', TestRunner.run_loop L min_layer i todo (a, w) = (a', w)
        ∧ TestRunner.t_results a'
          = foldl (λ m t, <[name t := SKIP]> m) (TestRunner.t_results a) todo.
Proof.
  induction todo as [|t todo IH]; intros i a w Hall.
  - by exists a.
  - apply Forall_cons in Hall as [Ht Hall].
    set (a1 := {| TestRunner.t_results :=
                    <[name t := SKIP]> (TestRunner.t_results a);
                  TestRunner.passed := TestRunner.passed a;
                  TestRunner.failed := TestRunner.failed a;
                  TestRunner.skipped := S (TestRunner.skipped a);
                  TestRunner.trace :=
                    TestRunner.trace a ++ [TestRunner.Gated i] |}).
    assert (TestRunner.run_test L min_layer i t (a, w) = (a1, w)) as Hstep.
    { unfold TestRunner.run_test.
      by destruct (Z.ltb_spec L (layer_required t)); [|lia]. }
    cbn [TestRunner.run_loop]. rewrite Hstep.
    destruct (IH (S i) a1 w Hall) as (a' & Hrun & Hres).
    exists a'. split; [done|]. by rewrite Hres.
Qed.

Lemma foldl_skip_lookup (todo : list TestCase) : ∀ (m : gmap string TestResult) n,
  foldl (λ m t, <[name t := SKIP]> m) m todo !! n
  = if bool_decide (n ∈ name <$> todo) then Some SKIP else m !! n.
Proof.
  induction todo as [|t todo IH] using rev_ind; intros m n.
  - rewrite bool_decide_false; [done|apply not_elem_of_nil].
  - rewrite foldl_app, fmap_app. cbn [foldl fmap list_fmap].
    destruct (decide (n = name t)) as [->|Hne].
    + rewrite lookup_insert_eq. rewrite bool_decide_true; [done|].
      apply elem_of_app. right. by apply list_elem_of_singleton.
    + rewrite lookup_insert_ne by done. rewrite IH.
      rewrite (bool_decide_ext (n ∈ name <$> todo)
                 (n ∈ (name <$> todo) ++ [name t])); [done|].
      rewrite elem_of_app, list_elem_of_singleton.
      split; [by left|by intros [?|?]].
Qed.

Lemma quick_loop_closed tests : ∀ w,
  serial w = None → Forall (λ t, 0 ≤ layer_required t) tests →
  DevLoop.quick_loop tests w = (Ret true, w).
Proof.
  induction tests as [|t tests IH]; intros w Hs Hall; [done|].
  apply Forall_cons in Hall as [Ht Hall]. simpl. unfold bind.
  rewrite get_layer_closed by done.
  destruct (Z.ltb_spec (-1) (layer_required t)); [|lia]. by apply IH.
Qed.

Lemma Forall_list_filter {A} (P : A → Prop) f (l : list A) :
  Forall P l → Forall P (List.filter f l).
Proof.
  induction 1 as [|x l Hx Hl IH]; simpl; [constructor|].
  destruct (f x); [by constructor|done].
Qed.

End DeadTarget.

(** X12. A target that is not there passes.  With the transport not open
    the layer reads as -1, so every test that requires a layer of 0 or
    more is skipped.  [run_quick] returns [True].  [run_all] calls no
    test, writes nothing to the transport and lets no time pass; it
    records [SKIP] for every registered test and leaves the results under
    other names as they were.  So [DevLoop.run_tests] returns [True],
    quick or not, for a runner whose recorded results all belong to
    registered tests, and every recorded result then is [SKIP]. *)
Theorem closed_transport_passes (self : TestRunner.t) (w : World) :
  serial w = None →
  Forall (λ t, 0 ≤ layer_required t) (TestRunner.tests self) →
  DevLoop.run_quick self w = (Ret true, w)
  ∧ DevLoop.run_tests true self w = (Ret true, self, w)
  ∧ ∃ self',
      TestRunner.run_all self 0 w
      = (Ret (TestRunner.results self'), self', w)
      ∧ TestRunner.tests self' = TestRunner.tests self
      ∧ (∀ t, t ∈ TestRunner.tests self →
              TestRunner.results self' !! name t = Some SKIP)
      ∧ (∀ n, n ∉ name <$> TestRunner.tests self →
              TestRunner.results self' !! n = TestRunner.results self !! n)
      ∧ ((∀ n, is_Some (TestRunner.results self !! n) →
               n ∈ name <$> TestRunner.tests self) →
         DevLoop.run_tests false self w = (Ret true, self', w)
         ∧ ∀ n r, TestRunner.results self' !! n = Some r →
                  r = SKIP ∧ n ∈ name <$> TestRunner.tests self).
Proof.
  intros Hs Hall.
  assert (DevLoop.run_quick self w = (Ret true, w)) as Hquick.
  { unfold DevLoop.run_quick.
    by apply quick_loop_closed, Forall_list_filter. }
  split_and!; [done|by unfold DevLoop.run_tests; rewrite Hquick|].
  destruct (run_loop_all_gated (-1) 0 (TestRunner.tests self) 0
              (TestRunner.start self) w) as (a & Hloop & Hres).
  { eapply Forall_impl; [exact Hall|]. simpl. intros; lia. }
  assert (TestRunner.run_all self 0 w
          = (Ret (TestRunner.t_results a),
             {| TestRunner.tests := TestRunner.tests self;
                TestRunner.results := TestRunner.t_results a |}, w)) as Hrun.
  { unfold TestRunner.run_all, TestRunner.run_all_tally, bind.
    rewrite get_layer_closed by done. by rewrite Hloop. }
  assert (∀ n, TestRunner.t_results a !! n
               = if bool_decide (n ∈ name <$> TestRunner.tests self)
                 then Some SKIP else TestRunner.results self !! n) as Hlook.
  { intros n. by rewrite Hres, foldl_skip_lookup. }
  exists {| TestRunner.tests := TestRunner.tests self;
            TestRunner.results := TestRunner.t_results a |}.
  cbn [TestRunner.tests TestRunner.results].
  split_and!; [done|done| | |].
  - intros t Ht. rewrite Hlook, bool_decide_true; [done|].
    apply list_elem_of_fmap. by exists t.
  - intros n Hn. by rewrite Hlook, bool_decide_false.
  - intros Hkeys.
    assert (∀ n r, TestRunner.t_results a !! n = Some r →
                   r = SKIP ∧ n ∈ name <$> TestRunner.tests self) as Hskip.
    { intros n r. rewrite Hlook.
      case_bool_decide as Hin; [by intros [= <-]|].
      intros Hn. destruct Hin. apply Hkeys. by exists r. }
    split; [|done].
    unfold DevLoop.run_tests. rewrite Hrun.
    do 2 f_equal. f_equal. unfold DevLoop.all_passed.
    apply bool_decide_eq_true. intros n r Hn.
    destruct (Hskip n r Hn) as [-> _]. by right.
Qed.

Lemma closed_transport_passes_witness :
  serial world_closed = None
  ∧ Forall (λ t, 0 ≤ layer_required t)
           (TestRunner.tests BuiltinTests.standard_runner)
  ∧ DevLoop.run_quick BuiltinTests.standard_runner world_closed
    = (Ret true, world_closed).
Proof.
  assert (Forall (λ t, 0 ≤ layer_required t)
                 (TestRunner.tests BuiltinTests.standard_runner)) as Hall.
  { repeat constructor; simpl; lia. }
  split; [reflexivity|]. split; [exact Hall|].
  by destruct (closed_transport_passes BuiltinTests.standard_runner
                 world_closed eq_refl Hall) as [? _].
Defined.

(** X13. The layer query of [run_all] and of [run_quick] stands outside
    the [try]: when the write to the transport raises, the exception
    escapes both (and [DevLoop.run_tests]) instead of being recorded as
    [ERROR] or turned into [False]; no test is called and the recorded
    results stay as they were.  Only a [run_quick] without a quick test
    returns, with [True]. *)
Theorem transport_failure_escapes (self : TestRunner.t) (min_layer : Z)
    (w : World) (port : SerialPort) :
  serial w = Some port → tx_ok port = false →
  TestRunner.run_all self min_layer w
  = (Raise "SerialException", self, drained w)
  ∧ DevLoop.run_tests false self w
    = (Raise "SerialException", self, drained w)
  ∧ DevLoop.run_quick self w
    = if bool_decide (List.filter DevLoop.is_quick (TestRunner.tests self) = [])
      then (Ret true, w)
      else (Raise "SerialException", drained w).
Proof.
  intros Hs Hok.
  assert (TestRunner.run_all self 0 w
          = (Raise "SerialException", self, drained w)
          ∧ TestRunner.run_all self min_layer w
            = (Raise "SerialException", self, drained w)) as [Hrun0 Hrun].
  { unfold TestRunner.run_all, TestRunner.run_all_tally, bind.
    by rewrite (get_layer_tx_failure w port). }
  split_and!; [done|by unfold DevLoop.run_tests; rewrite Hrun0|].
  unfold DevLoop.run_quick.
  destruct (List.filter DevLoop.is_quick (TestRunner.tests self)) as [|t rest].
  - done.
  - rewrite bool_decide_false by done. simpl. unfold bind.
    by rewrite (get_layer_tx_failure w port).
Qed.

Lemma transport_failure_escapes_witness :
  serial world_tx_broken = Some {| tx_ok := false |}
  ∧ TestRunner.run_all BuiltinTests.standard_runner 0 world_tx_broken
    = (Raise "SerialException", BuiltinTests.standard_runner,
       drained world_tx_broken).
Proof.
  split; [reflexivity|].
  by destruct (transport_failure_escapes BuiltinTests.standard_runner 0
                 world_tx_broken {| tx_ok := false |} eq_refl eq_refl)
    as [? _].
Defined.

(** ** The summary of a run *)

Section Summary.

Lemma count_snoc kind l p :
  count kind (l ++ [p]) = (count kind l + if kind p then 1 else 0)%nat.
Proof.
  unfold count. rewrite List.filter_app, length_app. simpl.
  by destruct (kind p).
Qed.

(** The counters of the summary go with the passes. *)
Lemma run_test_counts L min_layer i t a w :
  let a' := (TestRunner.run_test L min_layer i t (a, w)).1 in
  (TestRunner.passed a' + count is_passed (TestRunner.trace a)
   = TestRunner.passed a + count is_passed (TestRunner.trace a'))%nat
  ∧ (TestRunner.failed a' + count is_failed (TestRunner.trace a)
     = TestRunner.failed a + count is_failed (TestRunner.trace a'))%nat
  ∧ (TestRunner.skipped a' + count is_gated (TestRunner.trace a)
     = TestRunner.skipped a + count is_gated (TestRunner.trace a'))%nat
  ∧ length (TestRunner.trace a') = S (length (TestRunner.trace a)).
Proof.
  unfold TestRunner.run_test.
  destruct (L <? layer_required t).
  { simpl. rewrite !count_snoc, length_app. simpl. lia. }
  destruct (layer_required t <? min_layer).
  { simpl. rewrite !count_snoc, length_app. simpl. lia. }
  destruct (test_fn t w) as [[result|e] w1]; simpl.
  - rewrite !count_snoc, length_app. simpl.
    destruct result; simpl; lia.
  - rewrite !count_snoc, length_app. simpl. lia.
Qed.

Lemma run_loop_counts L min_layer todo : ∀ i a w,
  let a' := (TestRunner.run_loop L min_layer i todo (a, w)).1 in
  (TestRunner.passed a' + count is_passed (TestRunner.trace a)
   = TestRunner.passed a + count is_passed (TestRunner.trace a'))%nat
  ∧ (TestRunner.failed a' + count is_failed (TestRunner.trace a)
     = TestRunner.failed a + count is_failed (TestRunner.trace a'))%nat
  ∧ (TestRunner.skipped a' + count is_gated (TestRunner.trace a)
     = TestRunner.skipped a + count is_gated (TestRunner.trace a'))%nat
  ∧ length (TestRunner.trace a')
    = (length (TestRunner.trace a) + length todo)%nat.
Proof.
  induction todo as [|t todo IH]; intros i a w.
  { simpl. split_and!; lia. }
  cbn [TestRunner.run_loop length].
  pose proof (run_test_counts L min_layer i t a w) as Hstep.
  destruct (TestRunner.run_test L min_layer i t (a, w)) as [a1 w1].
  specialize (IH (S i) a1 w1). cbn [fst] in Hstep. cbv zeta in *. lia.
Qed.

Lemma count_partition l :
  (count is_passed l + count is_failed l + count is_gated l
   + count is_filtered l = length l)%nat.
Proof.
  induction l as [|p l IH]; [done|].
  unfold count in *. simpl.
  destruct p as [i|i|i [[]|e]]; simpl; lia.
Qed.

End Summary.

(** X14. The summary line of [run_all] goes with what the run did: the
    count of passed tests is the number of tests called that returned
    [PASS], the count of skipped tests is the number of tests gated by
    the layer, and the count of failed tests is the number of tests
    called that returned anything else ([SKIP] and [ERROR] included) or
    raised.  Every registered test has one pass, and the tests left out
    because of [min_layer] are in none of the three counts. *)
Theorem run_all_summary (self : TestRunner.t) (min_layer : Z) (w w' : World)
    (a : TestRunner.Tally) :
  TestRunner.run_all_tally self min_layer w = (Ret a, w') →
  TestRunner.passed a = count is_passed (TestRunner.trace a)
  ∧ TestRunner.failed a = count is_failed (TestRunner.trace a)
  ∧ TestRunner.skipped a = count is_gated (TestRunner.trace a)
  ∧ length (TestRunner.trace a) = length (TestRunner.tests self)
  ∧ (TestRunner.passed a + TestRunner.failed a + TestRunner.skipped a
     + count is_filtered (TestRunner.trace a)
     = length (TestRunner.tests self))%nat.
Proof.
  unfold TestRunner.run_all_tally, bind.
  destruct (CDCConsole.get_layer w) as [[L|e] w1]; [|done].
  pose proof (run_loop_counts L min_layer (TestRunner.tests self) 0
                (TestRunner.start self) w1) as Hloop.
  destruct (TestRunner.run_loop L min_layer 0 (TestRunner.tests self)
              (TestRunner.start self, w1)) as [a1 w2].
  intros [= <- <-]. simpl in Hloop.
  pose proof (count_partition (TestRunner.trace a1)).
  unfold count in *. simpl in *. lia.
Qed.

Lemma run_all_summary_witness :
  ∃ a w',
    TestRunner.run_all_tally BuiltinTests.standard_runner 0 world_layer5
    = (Ret a, w')
    ∧ TestRunner.passed a = 0%nat ∧ TestRunner.failed a = 3%nat
    ∧ TestRunner.skipped a = 4%nat
    ∧ TestRunner.failed a = count is_failed (TestRunner.trace a).
Proof.
  destruct (TestRunner.run_all_tally BuiltinTests.standard_runner 0
              world_layer5) as [r w'] eqn:Hrun.
  assert (∃ a, r = Ret a ∧ TestRunner.passed a = 0%nat
               ∧ TestRunner.failed a = 3%nat
               ∧ TestRunner.skipped a = 4%nat) as (a & -> & Hp & Hf & Hs).
  { change r with (r, w').1. rewrite <- Hrun. vm_compute.
    eexists. by split_and!. }
  exists a, w'. split_and!; [done..|].
  by destruct (run_all_summary _ _ _ _ _ Hrun) as (_ & ? & _).
Defined.

(** X15. The two callers of [run_all] judge the same results
    differently.  [test_hardware.py] exits with status 0 exactly when no
    result is [FAIL]; [DevLoop.run_tests] returns [True] exactly when
    every result is [PASS] or [SKIP].  So whenever [run_tests] is
    satisfied the exit status is 0, but results with an [ERROR] and no
    [FAIL] give exit status 0 although [run_tests] returns [False]. *)
Theorem verdicts_differ (results : gmap string TestResult) :
  (DevLoop.exit_status results = 0
   ↔ ∀ n r, results !! n = Some r → r ≠ FAIL)
  ∧ (DevLoop.all_passed results = true
     ↔ ∀ n r, results !! n = Some r → r = PASS ∨ r = SKIP)
  ∧ (DevLoop.all_passed results = true → DevLoop.exit_status results = 0)
  ∧ ((∃ n, results !! n = Some ERROR) →
     (∀ n r, results !! n = Some r → r ≠ FAIL) →
     DevLoop.exit_status results = 0 ∧ DevLoop.all_passed results = false).
Proof.
  assert (DevLoop.exit_status results = 0
          ↔ ∀ n r, results !! n = Some r → r ≠ FAIL) as Hexit.
  { unfold DevLoop.exit_status.
    case_bool_decide as H; split; try done; intros Hall; by destruct H. }
  assert (DevLoop.all_passed results = true
          ↔ ∀ n r, results !! n = Some r → r = PASS ∨ r = SKIP) as Hpass.
  { unfold DevLoop.all_passed. by rewrite bool_decide_eq_true. }
  split_and!; [done|done| |].
  - rewrite Hexit, Hpass. intros Hall n r Hn.
    by destruct (Hall n r Hn) as [-> | ->].
  - intros [n Hn] Hnofail. split; [by apply Hexit|].
    apply not_true_is_false. rewrite Hpass. intros Hall.
    by destruct (Hall n ERROR Hn).
Qed.

(** ** Reloading the firmware *)


(** ** The module map and the cache *)

Section ModuleMap.
Import RtlTools.

Variable sha256_hexdigest : string -> string.
Variable find_dependencies : SourceFile -> list string.

Local Abbreviation module_of :=
  (RtlTools.module_of sha256_hexdigest find_dependencies).
Local Abbreviation scan_files :=
  (RtlTools.scan_files sha256_hexdigest find_dependencies).
Local Abbreviation scan_rtl_modules :=
  (RtlTools.scan_rtl_modules sha256_hexdigest find_dependencies).
Local Abbreviation smart_build :=
  (RtlTools.smart_build sha256_hexdigest find_dependencies).

Lemma elem_of_dict_set_keys {V} k (v : V) d n :
  n ∈ (dict_set k v d).*1 ↔ n = k ∨ n ∈ d.*1.
Proof.
  induction d as [|[k' v'] d IH]; simpl.
  - rewrite list_elem_of_singleton. split; [by left|].
    by intros [?|?%elem_of_nil].
  - destruct (decide (k' = k)) as [->|Hne]; simpl.
    + rewrite !elem_of_cons. tauto.
    + rewrite !elem_of_cons, IH. tauto.
Qed.

Lemma scan_files_keys files : ∀ acc n,
  n ∈ (scan_files files acc).*1 ↔ n ∈ acc.*1 ∨ n ∈ file_stem <$> files.
Proof.
  induction files as [|f files IH] using rev_ind; intros acc n.
  - simpl. split; [by left|]. by intros [?|?%elem_of_nil].
  - rewrite scan_files_snoc, elem_of_dict_set_keys, IH, fmap_app, elem_of_app.
    simpl. rewrite list_elem_of_singleton. tauto.
Qed.

Lemma scan_files_entries files : ∀ n m,
  (n, m) ∈ scan_files files [] →
  name m = n ∧ ∃ f, f ∈ files ∧ m = module_of f.
Proof.
  induction files as [|f files IH] using rev_ind; intros n m.
  - by intros ?%elem_of_nil.
  - rewrite scan_files_snoc.
    rewrite elem_of_dict_set by (by apply scan_files_nodup, NoDup_nil).
    intros [[-> ->]|[Hne Hin]].
    + split; [done|]. exists f. split; [|done].
      apply elem_of_app. right. by apply list_elem_of_singleton.
    + destruct (IH n m Hin) as (Hname & f' & Hf' & ->).
      split; [done|]. exists f'. split; [|done].
      apply elem_of_app. by left.
Qed.

Lemma saved_cache_lookup (modules : list (string * RTLModule)) : ∀ n m,
  NoDup modules.*1 → (n, m) ∈ modules →
  foldl (λ (c : gmap string string) e, <[e.1 := hash e.2]> c) ∅ modules !! n
  = Some (hash m).
Proof.
  induction modules as [|e modules IH] using rev_ind; intros n m Hnd Hin.
  - by apply elem_of_nil in Hin.
  - rewrite foldl_app. simpl. rewrite fmap_app in Hnd.
    apply NoDup_app in Hnd as (Hnd & Hfresh & _).
    apply elem_of_app in Hin as [Hin|Hin%list_elem_of_singleton].
    + assert (n ≠ e.1) as Hne.
      { intros ->. apply (Hfresh e.1).
        - apply list_elem_of_fmap. by exists (e.1, m).
        - simpl. by apply list_elem_of_singleton. }
      rewrite lookup_insert_ne by done. by apply IH.
    + subst e. simpl. apply lookup_insert_eq.
Qed.

Lemma simulate_changed_true tools changed :
  simulate_changed tools changed = Ret true →
  ∀ m, m ∈ changed → quick_check tools m = Ret true.
Proof.
  induction changed as [|m' changed IH]; simpl.
  - by intros _ m ?%elem_of_nil.
  - destruct (quick_check tools m') as [[|]|e] eqn:Hq; [|done..].
    intros Hrest m [->|Hin]%elem_of_cons; [done|by apply IH].
Qed.

Lemma smart_build_true tools d d' :
  smart_build tools d = (Ret true, d') →
  let modules := scan_rtl_modules d in
  let changed := get_changed_modules modules (cache_file d) in
  (changed = [] ∧ d' = d)
  ∨ (changed ≠ [] ∧ simulate_changed tools changed = Ret true
     ∧ vivado tools = Ret 0
     ∧ v_files d' = v_files d ∧ sv_files d' = sv_files d
     ∧ cache_file d'
       = Some (foldl (λ (c : gmap string string) e, <[e.1 := hash e.2]> c)
                     ∅ modules)).
Proof.
  intros Hrun modules changed. unfold RtlTools.smart_build in Hrun.
  fold modules in Hrun. fold changed in Hrun.
  destruct changed as [|m changed'] eqn:Hch.
  { left. simpl in Hrun. by injection Hrun as <-. }
  right. cbn [length Nat.eqb] in Hrun.
  destruct (simulate_changed tools (m :: changed')) as [[|]|e]; [|done..].
  unfold build in Hrun.
  destruct (vivado tools) as [returncode|e]; [|done].
  destruct (returncode =? 0) eqn:E; [|done].
  apply Z.eqb_eq in E. subst returncode.
  injection Hrun as <-. by split_and!.
Qed.

Lemma changed_without_cache (modules : list (string * RTLModule)) :
  get_changed_modules modules None = modules.*1.
Proof.
  unfold get_changed_modules. f_equal.
  induction modules as [|e l IH]; [done|].
  cbn [List.filter]. unfold is_changed at 1. cbn [load_cache] in *.
  rewrite lookup_empty. by rewrite IH.
Qed.

End ModuleMap.

(** X17. A build that goes through has simulated every changed module
    with success.  When the names of the changed modules are names that
    [rglob] takes literally and [smart_build], with [quick_check] as its
    check, returns [True], then every module of the changed list has a
    [.v] file of that name and a testbench, and the simulation of its
    testbench compiled, ran and printed an output that holds none of the
    failure indicators.  So, among such names, a changed module that has
    only a [.sv] file, or no testbench, keeps [smart_build] from ever
    building. *)
Theorem smart_build_simulated (sha256_hexdigest : string → string)
    (find_dependencies : RtlTools.SourceFile → list string)
    (sim : Simulation.Simulator) (testbench : string → bool) (vivado : Res Z)
    (d d' : RtlTools.Disk) :
  let changed :=
    RtlTools.get_changed_modules
      (RtlTools.scan_rtl_modules sha256_hexdigest find_dependencies d)
      (RtlTools.cache_file d) in
  Forall (λ module, plain_name module = true) changed →
  RtlTools.smart_build sha256_hexdigest find_dependencies
    (Simulation.tools sim testbench vivado d) d = (Ret true, d') →
  ∀ module,
    module ∈ changed →
    (∃ f, f ∈ RtlTools.v_files d ∧ RtlTools.file_stem f = module)
    ∧ testbench module = true
    ∧ ∃ output,
        Simulation.simulate sim ("tb_" +:+ module) = Ret (Some output)
        ∧ Forall (λ indicator, Py.contains indicator output = false)
                 Simulation.failure_indicators.
Proof.
  intros changed _ Hrun module Hin. unfold changed in Hin.
  destruct (smart_build_true _ _ _ _ _ Hrun) as [[Hnil _]|(_ & Hsim & _)].
  { rewrite Hnil in Hin. by apply elem_of_nil in Hin. }
  pose proof (simulate_changed_true _ _ Hsim module Hin) as Hq.
  change (RtlTools.quick_check (Simulation.tools sim testbench vivado d) module)
    with (Simulation.quick_check sim testbench d module) in Hq.
  unfold Simulation.quick_check in Hq.
  destruct (List.find _ _) as [f|] eqn:Hfind; [|done].
  apply List.find_some in Hfind as [Hf Hstem].
  apply bool_decide_eq_true in Hstem.
  split; [exists f; split; [by apply list_elem_of_In|done]|].
  destruct (testbench module); [|done]. split; [done|].
  destruct (Simulation.simulate sim ("tb_" +:+ module)) as [[output|]|e];
    [|done..].
  exists output. split; [done|].
  assert (Simulation.any_in Simulation.failure_indicators output = false)
    as Hany.
  { destruct (Simulation.any_in Simulation.failure_indicators output) eqn:Hany;
      [|done].
    unfold Simulation.check_assertions in Hq. by rewrite Hany in Hq. }
  unfold Simulation.any_in in Hany.
  apply Forall_forall. intros indicator Hind.
  apply not_true_is_false. intros Hc.
  assert (existsb (λ indicator, Py.contains indicator output)
                  Simulation.failure_indicators = true) as Hex.
  { apply List.existsb_exists. exists indicator.
    split; [by apply list_elem_of_In|done]. }
  congruence.
Qed.

Lemma smart_build_simulated_witness :
  let tools := Simulation.tools passing_simulator (λ _, true) (Ret 0)
                                (checkout [top_fdd]) in
  let d' := (RtlTools.smart_build sha256_samples (λ _, []) tools
               (checkout [top_fdd])).2 in
  Forall (λ module, plain_name module = true) (changed_in (checkout [top_fdd]))
  ∧ RtlTools.smart_build sha256_samples (λ _, []) tools (checkout [top_fdd])
    = (Ret true, d')
  ∧ "top" ∈ changed_in (checkout [top_fdd])
  ∧ ∃ f, f ∈ RtlTools.v_files (checkout [top_fdd])
         ∧ RtlTools.file_stem f = "top".
Proof.
  intros tools d'.
  assert (Forall (λ module, plain_name module = true)
                 (changed_in (checkout [top_fdd]))) as Hplain
    by (by repeat constructor).
  assert (RtlTools.smart_build sha256_samples (λ _, []) tools
            (checkout [top_fdd]) = (Ret true, d')) as Hrun by reflexivity.
  assert ("top" ∈ changed_in (checkout [top_fdd])) as Hin
    by (by apply list_elem_of_singleton).
  split; [done|]. split; [done|]. split; [done|].
  by destruct (smart_build_simulated _ _ _ _ _ _ _ Hplain Hrun "top" Hin)
    as [? _].
Defined.

(** X18. After [smart_build] has returned [True] nothing is left to
    build: a scan of the sources against the cache reports no changed
    module, and [smart_build] called again returns [True] at once,
    whatever the tools would do, without writing a file. *)
Theorem smart_build_settles (sha256_hexdigest : string → string)
    (find_dependencies : RtlTools.SourceFile → list string)
    (tools : RtlTools.Tools) (d d' : RtlTools.Disk) :
  RtlTools.smart_build sha256_hexdigest find_dependencies tools d
  = (Ret true, d') →
  RtlTools.get_changed_modules
    (RtlTools.scan_rtl_modules sha256_hexdigest find_dependencies d')
    (RtlTools.cache_file d') = []
  ∧ ∀ tools',
      RtlTools.smart_build sha256_hexdigest find_dependencies tools' d'
      = (Ret true, d').
Proof.
  intros Hrun.
  assert (RtlTools.get_changed_modules
            (RtlTools.scan_rtl_modules sha256_hexdigest find_dependencies d')
            (RtlTools.cache_file d') = []) as Hnil.
  { destruct (smart_build_true _ _ _ _ _ Hrun)
      as [[Hnil ->]|(_ & _ & _ & Hv & Hsv & Hcache)]; [done|].
    apply changed_nil. intros n m Hin.
    assert (RtlTools.scan_rtl_modules sha256_hexdigest find_dependencies d'
            = RtlTools.scan_rtl_modules sha256_hexdigest find_dependencies d)
      as Hscan by (unfold RtlTools.scan_rtl_modules; by rewrite Hv, Hsv).
    rewrite Hscan in Hin. rewrite Hcache. simpl.
    apply saved_cache_lookup; [|done].
    unfold RtlTools.scan_rtl_modules.
    by apply scan_files_nodup, scan_files_nodup, NoDup_nil. }
  split; [done|]. intros tools'. unfold RtlTools.smart_build.
  by rewrite Hnil.
Qed.

Lemma smart_build_settles_witness :
  let tools := {| RtlTools.quick_check := λ _, Ret true;
                  RtlTools.vivado := Ret 0 |} in
  let d' := (RtlTools.smart_build sha256_samples (λ _, []) tools
               (checkout [top_fdd])).2 in
  RtlTools.smart_build sha256_samples (λ _, []) tools (checkout [top_fdd])
  = (Ret true, d')
  ∧ changed_in d' = [].
Proof.
  intros tools d'.
  assert (RtlTools.smart_build sha256_samples (λ _, []) tools
            (checkout [top_fdd]) = (Ret true, d')) as Hrun by reflexivity.
  split; [done|].
  by destruct (smart_build_settles _ _ _ _ _ Hrun) as [? _].
Defined.

(** X19. The module map has one entry per stem of a tracked file: no
    name comes twice, the names are the stems of the [.v] and [.sv] files
    under the source directory, and each entry holds under its key a
    module of that name with the path and the hash of a tracked file of
    that stem.  While there is no cache file every module of the map is
    reported as changed. *)
Theorem module_map_names (sha256_hexdigest : string → string)
    (find_dependencies : RtlTools.SourceFile → list string)
    (d : RtlTools.Disk) :
  let modules :=
    RtlTools.scan_rtl_modules sha256_hexdigest find_dependencies d in
  NoDup modules.*1
  ∧ (∀ n, n ∈ modules.*1 ↔ n ∈ RtlTools.file_stem <$> tracked d)
  ∧ (∀ n m, (n, m) ∈ modules →
       RtlTools.name m = n
       ∧ ∃ f, f ∈ tracked d ∧ RtlTools.file_stem f = n
              ∧ m = RtlTools.module_of sha256_hexdigest find_dependencies f)
  ∧ RtlTools.get_changed_modules modules None = modules.*1.
Proof.
  intros modules. unfold modules. split_and!.
  - unfold RtlTools.scan_rtl_modules.
    by apply scan_files_nodup, scan_files_nodup, NoDup_nil.
  - intros n. rewrite scan_tracked, scan_files_keys. simpl.
    split; [by intros [?%elem_of_nil|?]|by right].
  - intros n m Hin. rewrite scan_tracked in Hin.
    destruct (scan_files_entries _ _ _ n m Hin) as (Hname & f & Hf & ->).
    split; [done|]. exists f. by split_and!.
  - apply changed_without_cache.
Qed.

(** ** The estimate and the script *)

(** X20. With a reference checkpoint and incremental builds switched on,
    the estimate that [smart_build] prints for a non-empty list of changed
    modules announces an incremental build exactly when the generated
    script is the incremental one, but for lists of exactly ten modules:
    for these the estimate announces an incremental build of 5 to 8
    minutes and the script runs the full build. *)
Theorem estimate_and_script (c : VivadoBuilder.Checkout)
    (changed : list string) :
  VivadoBuilder.reference_exists c = true →
  VivadoBuilder.use_incremental c = true →
  changed ≠ [] →
  let announced :=
    announces_incremental (VivadoBuilder.estimate_build_time c changed) in
  let incremental := VivadoBuilder.incremental_script c changed in
  (length changed ≠ 10%nat → announced = incremental)
  ∧ (length changed = 10%nat → announced = true ∧ incremental = false)
  ∧ (incremental = true ↔ (length changed < 10)%nat).
Proof.
  intros Href Hinc Hne announced incremental.
  unfold announced, incremental, VivadoBuilder.estimate_build_time,
    VivadoBuilder.incremental_script.
  rewrite Href, Hinc. cbn [negb andb].
  assert (length changed ≠ 0%nat) as Hpos by (by destruct changed).
  destruct (Nat.eqb_spec (length changed) 0) as [|_]; [done|].
  destruct (Nat.leb_spec (length changed) 3) as [H3|H3];
    [|destruct (Nat.leb_spec (length changed) 10) as [H10|H10]];
    destruct (Nat.ltb_spec (length changed) 10) as [Hlt|Hge];
    try lia; (split_and!; [intros; try lia; by vm_compute
                          |intros; try lia; by vm_compute
                          |split; intros; try done; lia]).
Qed.

Lemma estimate_and_script_witness :
  let changed := replicate 10 "m" in
  VivadoBuilder.reference_exists with_reference = true
  ∧ VivadoBuilder.use_incremental with_reference = true
  ∧ changed ≠ []
  ∧ VivadoBuilder.estimate_build_time with_reference changed
    = "~5-8 minutes (incremental, moderate changes)"
  ∧ VivadoBuilder.incremental_script with_reference changed = false.
Proof.
  intros changed.
  assert (changed ≠ []) as Hne by done.
  split_and!; [reflexivity|reflexivity|done|reflexivity|].
  destruct (estimate_and_script with_reference changed eq_refl eq_refl Hne)
    as (_ & Hten & _).
  by destruct (Hten eq_refl) as [_ ?].
Defined.
